(** * Dynamic-pricing backend: pagination fetcher, metrics reducer, tier matcher

    A shallow embedding of the request-handling logic of [server.js]
    (shipped inside [start-backend.sh]) and the properties its specification
    states about it.

    Layout:
    - [Js]: the fragment of the JavaScript runtime the handlers rely on
      (primitive values, binary64 numbers, coercions, string helpers);
    - the data model (raw customers, metrics, tiers, recommendations);
    - the HTTP world the handlers talk to, as explicit state passing;
    - the handlers themselves, transcribed from the source;
    - the theorems. *)

From Stdlib Require Import ZArith QArith Qround Qabs List String Ascii Bool Lia.
From Stdlib Require Import Permutation.
From Stdlib Require Import Floats DecimalString.
Import ListNotations.

Open Scope string_scope.
Open Scope Z_scope.

(* ================================================================== *)
(** * The JavaScript runtime fragment *)
(* ================================================================== *)

Module Js.

(** JSON scalars plus [undefined]: what a property of a parsed JSON object
    holds when it is not itself an object or an array.  Numbers are IEEE-754
    binary64 values, exactly as in JavaScript. *)
Inductive value : Type :=
| Undefined
| Null
| Bool (b : bool)
| Num (n : float)
| Str (s : string).

(** ** Numbers *)

(** Round a rational to the nearest binary64 value, ties to even.  The
    quotient is computed with at least 64 significant bits and a sticky bit,
    so that the final rounding sees which side of every midpoint the exact
    value lies on. *)
Definition F_of_Q (q : Q) : float :=
  let n := Qnum q in
  let d := Z.pos (Qden q) in
  let a := Z.abs n in
  if a =? 0 then zero else
  let s := Z.max 0 (64 + Z.log2 d - Z.log2 a) in
  let num := Z.shiftl a s in
  let qt := num / d in
  let sticky := if (num mod d) =? 0 then 0 else 1 in
  let r := SF2Prim (binary_normalize prec emax (2 * qt + sticky) (- s - 1) false) in
  if n <? 0 then (- r)%float else r.

Definition F_of_Z (z : Z) : float := F_of_Q (inject_Z z).

(** The exact value of a finite float. *)
Definition Q_of_F (f : float) : option Q :=
  match Prim2SF f with
  | S754_zero _ => Some 0%Q
  | S754_finite s m e =>
      let v := (inject_Z (Z.pos m) * Qpower 2 e)%Q in
      Some (if s then (- v)%Q else v)
  | _ => None
  end.

(** [Math.floor]: NaN, the infinities and both zeros are returned as they
    are; a finite value is rounded towards minus infinity. *)
Definition Math_floor (x : float) : float :=
  match Prim2SF x with
  | S754_finite _ _ _ =>
      match Q_of_F x with
      | Some q => F_of_Z (Qfloor q)
      | None => x
      end
  | _ => x
  end.

(** The relational operators on numbers ([NaN] compares false with
    everything). *)
Definition lt (a b : float) : bool := (a <? b)%float.
Definition gt (a b : float) : bool := (b <? a)%float.
Definition le (a b : float) : bool := (a <=? b)%float.
Definition ge (a b : float) : bool := (b <=? a)%float.

(** ** Characters and strings

    A string is the sequence of the bytes of its UTF-8 encoding.  White
    space is recognised in full: the [WhiteSpace] and [LineTerminator]
    characters of ECMA-262, of one to three bytes each.  [toUpperCase] is
    exact on ASCII text; it leaves every byte outside ASCII as it is, where
    the program would also change the cased letters outside ASCII. *)

Definition dquote : string := String "034"%char EmptyString.

Definition is_digit (c : ascii) : bool :=
  let n := Z.of_nat (nat_of_ascii c) in (48 <=? n) && (n <=? 57).

Definition digit_val (c : ascii) : Z := Z.of_nat (nat_of_ascii c) - 48.

(** The white space of one byte: U+0009 to U+000D and U+0020. *)
Definition is_space (c : ascii) : bool :=
  let n := Z.of_nat (nat_of_ascii c) in
  ((9 <=? n) && (n <=? 13)) || (n =? 32).

(** The white space of two bytes: U+00A0. *)
Definition is_space2 (c1 c2 : ascii) : bool :=
  (Z.of_nat (nat_of_ascii c1) =? 194) && (Z.of_nat (nat_of_ascii c2) =? 160).

(** The white space of three bytes: U+1680, U+2000 to U+200A, U+2028,
    U+2029, U+202F, U+205F, U+3000 and U+FEFF. *)
Definition is_space3 (c1 c2 c3 : ascii) : bool :=
  let n1 := Z.of_nat (nat_of_ascii c1) in
  let n2 := Z.of_nat (nat_of_ascii c2) in
  let n3 := Z.of_nat (nat_of_ascii c3) in
  ((n1 =? 225) && (n2 =? 154) && (n3 =? 128))
  || ((n1 =? 226) && (n2 =? 128)
      && (((128 <=? n3) && (n3 <=? 138)) || (n3 =? 168) || (n3 =? 169)
          || (n3 =? 175)))
  || ((n1 =? 226) && (n2 =? 129) && (n3 =? 159))
  || ((n1 =? 227) && (n2 =? 128) && (n3 =? 128))
  || ((n1 =? 239) && (n2 =? 187) && (n3 =? 191)).

Definition upper_char (c : ascii) : ascii :=
  let n := nat_of_ascii c in
  if (97 <=? n)%nat && (n <=? 122)%nat then ascii_of_nat (n - 32) else c.

Fixpoint toUpperCase (s : string) : string :=
  match s with
  | EmptyString => EmptyString
  | String c r => String (upper_char c) (toUpperCase r)
  end.

Fixpoint starts_with (p s : string) : bool :=
  match p, s with
  | EmptyString, _ => true
  | String a p', String b s' => Ascii.eqb a b && starts_with p' s'
  | String _ _, EmptyString => false
  end.

Fixpoint drop_chars (n : nat) (s : string) : string :=
  match n, s with
  | O, _ => s
  | S n', String _ r => drop_chars n' r
  | S _, EmptyString => EmptyString
  end.

(** [s.includes(sub)] *)
Fixpoint includes (sub s : string) : bool :=
  starts_with sub s ||
  match s with
  | EmptyString => false
  | String _ r => includes sub r
  end.

(** [s.split(sep)] for a one-character separator. *)
Fixpoint split (sep : ascii) (s : string) : list string :=
  match s with
  | EmptyString => [EmptyString]
  | String c r =>
      if Ascii.eqb c sep then EmptyString :: split sep r
      else match split sep r with
           | [] => [String c EmptyString]
           | h :: t => String c h :: t
           end
  end.

(** [s.trimStart()]: the white space at the head of [s] is dropped. *)
Fixpoint trim_start (s : string) : string :=
  match s with
  | EmptyString => EmptyString
  | String c1 r1 =>
      if is_space c1 then trim_start r1
      else
        match r1 with
        | EmptyString => s
        | String c2 r2 =>
            if is_space2 c1 c2 then trim_start r2
            else
              match r2 with
              | EmptyString => s
              | String c3 r3 =>
                  if is_space3 c1 c2 c3 then trim_start r3 else s
              end
        end
  end.

(** [s.trimEnd()]: [s] is cut where what follows is white space only. *)
Fixpoint trim_end (s : string) : string :=
  match s with
  | EmptyString => EmptyString
  | String c r =>
      match trim_start s with
      | EmptyString => EmptyString
      | String _ _ => String c (trim_end r)
      end
  end.

Definition trim (s : string) : string := trim_end (trim_start s).

(** The longest prefix of characters satisfying [p], and what follows. *)
Fixpoint span (p : ascii -> bool) (s : string) : string * string :=
  match s with
  | String c r =>
      if p c then let (a, b) := span p r in (String c a, b)
      else (EmptyString, s)
  | EmptyString => (EmptyString, EmptyString)
  end.

Fixpoint digits_value (acc : Z) (s : string) : Z :=
  match s with
  | EmptyString => acc
  | String c r => digits_value (10 * acc + digit_val c) r
  end.

Definition is_empty (s : string) : bool :=
  match s with EmptyString => true | _ => false end.

(** ** String to number *)

(** A parsed [StrUnsignedDecimalLiteral]. *)
Inductive literal : Type :=
| LitInfinity
| LitDecimal (mantissa : Z) (exponent : Z).

(** The optional [ExponentPart]: consumed only when complete. *)
Definition exponent_part (s : string) : Z * string :=
  match s with
  | String c r =>
      if Ascii.eqb c "e"%char || Ascii.eqb c "E"%char then
        let '(neg, r1) :=
          match r with
          | String "+"%char r' => (false, r')
          | String "-"%char r' => (true, r')
          | _ => (false, r)
          end in
        let (ds, r2) := span is_digit r1 in
        if is_empty ds then (0, s)
        else ((if neg then - digits_value 0 ds else digits_value 0 ds), r2)
      else (0, s)
  | EmptyString => (0, s)
  end.

(** The longest prefix of [s] that is a [StrUnsignedDecimalLiteral], with
    the rest of the string. *)
Definition unsigned_literal (s : string) : option (literal * string) :=
  if starts_with "Infinity" s then Some (LitInfinity, drop_chars 8 s)
  else
    let (ip, r1) := span is_digit s in
    match r1 with
    | String "."%char r2 =>
        let (fp, r3) := span is_digit r2 in
        if is_empty ip && is_empty fp then None
        else
          let (e, r4) := exponent_part r3 in
          Some (LitDecimal (digits_value (digits_value 0 ip) fp)
                           (e - Z.of_nat (String.length fp)), r4)
    | _ =>
        if is_empty ip then None
        else
          let (e, r4) := exponent_part r1 in
          Some (LitDecimal (digits_value 0 ip) e, r4)
    end.

Definition literal_value (l : literal) : float :=
  match l with
  | LitInfinity => infinity
  | LitDecimal m e => F_of_Q (inject_Z m * Qpower 10 e)
  end.

(** The longest prefix that is a [StrDecimalLiteral] (optionally signed). *)
Definition signed_literal (s : string) : option (float * string) :=
  let '(neg, r) :=
    match s with
    | String "+"%char r' => (false, r')
    | String "-"%char r' => (true, r')
    | _ => (false, s)
    end in
  match unsigned_literal r with
  | Some (l, rest) =>
      Some ((if neg then (- literal_value l)%float else literal_value l), rest)
  | None => None
  end.

(** [parseFloat] on a string: leading white space is skipped, the longest
    decimal-literal prefix is converted, and [NaN] is returned when there is
    none. *)
Definition parseFloat_string (s : string) : float :=
  match signed_literal (trim_start s) with
  | Some (f, _) => f
  | None => nan
  end.

Definition radix_digit (radix : Z) (c : ascii) : option Z :=
  let n := Z.of_nat (nat_of_ascii c) in
  let d :=
    if (48 <=? n) && (n <=? 57) then n - 48
    else if (97 <=? n) && (n <=? 102) then n - 87
    else if (65 <=? n) && (n <=? 70) then n - 55
    else 99 in
  if d <? radix then Some d else None.

Fixpoint radix_value (radix : Z) (acc : Z) (s : string) : option Z :=
  match s with
  | EmptyString => Some acc
  | String c r =>
      match radix_digit radix c with
      | Some d => radix_value radix (radix * acc + d) r
      | None => None
      end
  end.

Definition non_decimal_literal (radix : Z) (digits : string) : float :=
  if is_empty digits then nan
  else match radix_value radix 0 digits with
       | Some n => F_of_Z n
       | None => nan
       end.

(** [StringToNumber]: the whole trimmed string must be a numeric literal;
    the empty string is [+0]. *)
Definition StringToNumber (s : string) : float :=
  let t := trim s in
  match t with
  | EmptyString => zero
  | String "0"%char (String c r) =>
      if Ascii.eqb c "x"%char || Ascii.eqb c "X"%char then non_decimal_literal 16 r
      else if Ascii.eqb c "o"%char || Ascii.eqb c "O"%char then non_decimal_literal 8 r
      else if Ascii.eqb c "b"%char || Ascii.eqb c "B"%char then non_decimal_literal 2 r
      else match signed_literal t with
           | Some (f, EmptyString) => f
           | _ => nan
           end
  | _ =>
      match signed_literal t with
      | Some (f, EmptyString) => f
      | _ => nan
      end
  end.

(** ** Number to string *)

Definition decimal_of_Z (z : Z) : string :=
  NilZero.string_of_uint (N.to_uint (Z.to_N (Z.abs z))).

Fixpoint zeros (n : nat) : string :=
  match n with
  | O => EmptyString
  | S n' => String "0"%char (zeros n')
  end.

Fixpoint take_chars (n : nat) (s : string) : string :=
  match n, s with
  | S n', String c r => String c (take_chars n' r)
  | _, _ => EmptyString
  end.

(** The decimal exponent [n] of a positive rational:
    [10^(n-1) <= q < 10^n].  The binary logarithm gives an estimate that the
    two loops below correct. *)
Fixpoint exponent_up (fuel : nat) (q : Q) (n : Z) : Z :=
  match fuel with
  | O => n
  | S fuel' =>
      if Qle_bool (Qpower 10 n) q then exponent_up fuel' q (n + 1) else n
  end.

Fixpoint exponent_down (fuel : nat) (q : Q) (n : Z) : Z :=
  match fuel with
  | O => n
  | S fuel' =>
      if Qle_bool (Qpower 10 (n - 1)) q then n else exponent_down fuel' q (n - 1)
  end.

Definition decimal_exponent (q : Q) : Z :=
  let lg := Z.log2 (Qnum q) - Z.log2 (Z.pos (Qden q)) in
  let n0 := (lg * 30103) / 100000 in
  exponent_up 8 q (exponent_down 8 q n0).

Definition Qdist (a b : Q) : Q := Qabs (a - b).

(** The digits of the shortest decimal that reads back as [x]: the least
    [k] for which some [s] with [k] digits has [s * 10^(n-k)] round to [x];
    among two such [s] the one nearer to [x], the even one on a tie. *)
Fixpoint shortest_digits (fuel : nat) (x : float) (q : Q) (n k : Z)
  : Z * Z * Z :=
  match fuel with
  | O => (n, k, Qfloor (q * Qpower 10 (k - n)))
  | S fuel' =>
      let scale := Qpower 10 (n - k) in
      let lo := Qfloor (q / scale) in
      let hi := lo + 1 in
      let reads s := (F_of_Q (inject_Z s * scale) =? x)%float in
      let pick :=
        match reads lo, reads hi with
        | true, true =>
            let dlo := Qdist (inject_Z lo * scale) q in
            let dhi := Qdist (inject_Z hi * scale) q in
            if Qle_bool dlo dhi && negb (Qle_bool dhi dlo) then Some lo
            else if Qle_bool dhi dlo && negb (Qle_bool dlo dhi) then Some hi
            else Some (if Z.even lo then lo else hi)
        | true, false => Some lo
        | false, true => Some hi
        | false, false => None
        end in
      match pick with
      | Some s => if s =? 10 ^ k then (n + 1, 1, 1) else (n, k, s)
      | None => shortest_digits fuel' x q n (k + 1)
      end
  end.

(** [Number::toString] in radix 10 for a positive finite number. *)
Definition positive_to_string (x : float) (q : Q) : string :=
  let n0 := decimal_exponent q in
  let '(n, k, s) := shortest_digits 17 x q n0 1 in
  let ds := decimal_of_Z s in
  let e := n - 1 in
  if (k <=? n) && (n <=? 21) then
    ds ++ zeros (Z.to_nat (n - k))
  else if (0 <? n) && (n <=? 21) then
    take_chars (Z.to_nat n) ds ++ "." ++ drop_chars (Z.to_nat n) ds
  else if (-6 <? n) && (n <=? 0) then
    "0." ++ zeros (Z.to_nat (- n)) ++ ds
  else
    let es := (if e <? 0 then "-" else "+") ++ decimal_of_Z e in
    if k =? 1 then ds ++ "e" ++ es
    else take_chars 1 ds ++ "." ++ drop_chars 1 ds ++ "e" ++ es.

Definition Number_toString (x : float) : string :=
  match Prim2SF x with
  | S754_nan => "NaN"
  | S754_zero _ => "0"
  | S754_infinity false => "Infinity"
  | S754_infinity true => "-Infinity"
  | S754_finite sg m e =>
      let q := (inject_Z (Z.pos m) * Qpower 2 e)%Q in
      if sg then "-" ++ positive_to_string (- x)%float q
      else positive_to_string x q
  end.

(** ** Coercions *)

(** [ToBoolean] *)
Definition truthy (v : value) : bool :=
  match v with
  | Undefined | Null => false
  | Bool b => b
  | Num n => negb (is_nan n || is_zero n)
  | Str s => negb (is_empty s)
  end.

(** [a || b] *)
Definition or_else (a b : value) : value := if truthy a then a else b.

(** [typeof v === 'number'] *)
Definition is_number (v : value) : bool :=
  match v with Num _ => true | _ => false end.

(** [ToString] *)
Definition ToString (v : value) : string :=
  match v with
  | Undefined => "undefined"
  | Null => "null"
  | Bool true => "true"
  | Bool false => "false"
  | Num n => Number_toString n
  | Str s => s
  end.

(** [ToNumber], which is also what [Number(v)] computes. *)
Definition ToNumber (v : value) : float :=
  match v with
  | Undefined => nan
  | Null => zero
  | Bool true => one
  | Bool false => zero
  | Num n => n
  | Str s => StringToNumber s
  end.

(** [parseFloat(v)]: the argument is first converted to a string. *)
Definition parseFloat (v : value) : float := parseFloat_string (ToString v).

(** [v > 0] with a number on the right: the left operand is converted with
    [ToNumber]. *)
Definition gt_number (v : value) (n : float) : bool := gt (ToNumber v) n.

End Js.

(* ================================================================== *)
(** * Data model *)
(* ================================================================== *)

(** A customer object as Shopify returns it.  Every property the server
    reads is a JSON scalar or missing ([Js.Undefined]). *)
Module RawCustomer.
Record t : Type := mk {
  id : Js.value;
  email : Js.value;
  first_name : Js.value;
  last_name : Js.value;
  orders_count : Js.value;
  total_spent : Js.value;
  updated_at : Js.value;
  created_at : Js.value;
  tags : Js.value;
  state : Js.value
}.
End RawCustomer.

(** The object built by the [rawCustomers.map] callback of
    [/api/shopify/customers] and of [/api/reactivation/batch].
    [lastOrderDate] is the time value of the [Date] object, [None] standing
    for [null]. *)
Module Metrics.
Record t : Type := mk {
  id : Js.value;
  email : Js.value;
  firstName : Js.value;
  lastName : Js.value;
  totalOrders : float;
  totalSpent : float;
  averageOrderValue : float;
  daysSinceLastOrder : float;
  lastOrderDate : option float;
  tags : Js.value;
  state : Js.value
}.
End Metrics.

(** One entry of [ruleConfig.tiers], or [ruleConfig.default]. *)
Module Tier.
Record t : Type := mk {
  minTotalSpent : Js.value;
  maxTotalSpent : Js.value;
  minDaysSinceLastOrder : Js.value;
  maxDaysSinceLastOrder : Js.value;
  discountPercent : Js.value;
  discountCodePrefix : Js.value;
  discountCode : Js.value;
  rationale : Js.value;
  messagingAngle : Js.value;
  expectedValue : Js.value
}.

(** The object [{}]. *)
Definition empty : t :=
  mk Js.Undefined Js.Undefined Js.Undefined Js.Undefined Js.Undefined
     Js.Undefined Js.Undefined Js.Undefined Js.Undefined Js.Undefined.
End Tier.

(** [ruleConfig]: [tiers] is [None] when the property is not an array,
    [default] is [None] when the property is falsy. *)
Module RuleConfig.
Record t : Type := mk {
  tiers : option (list Tier.t);
  default : option Tier.t
}.
End RuleConfig.

(** What [applyRuleConfigToCustomer] returns, and what the dashboard posts
    back to [/api/shopify/discounts]. *)
Module Recommendation.
Record t : Type := mk {
  customerId : Js.value;
  email : Js.value;
  discountPercent : Js.value;
  discountCode : Js.value;
  rationale : Js.value;
  messagingAngle : Js.value;
  expectedValue : Js.value
}.
End Recommendation.

(** The process environment ([process.env]) as read at start-up. *)
Record Env : Type := mkEnv {
  SHOPIFY_STORE : Js.value;
  SHOPIFY_API_KEY : Js.value;
  MAILERLITE_API_KEY : Js.value;
  MAX_BATCH_CUSTOMERS : option Z
}.

(** The clock of the host: [Date.now()], the implementation-defined
    [Date.parse], and [new Date().toLocaleDateString()]. *)
Record Clock : Type := mkClock {
  Date_now : float;
  Date_parse : string -> float;
  toLocaleDateString : string
}.

(* ================================================================== *)
(** * Dates *)
(* ================================================================== *)

(** [TimeClip]: a time value is an integral number of milliseconds within
    8.64e15 of the epoch, or [NaN]. *)
Definition TimeClip (t : float) : float :=
  if negb (is_finite t) then nan
  else if (8640000000000000 <? abs t)%float then nan
  else
    let i := if (t <? 0)%float then (- Js.Math_floor (- t))%float
             else Js.Math_floor t in
    (i + 0)%float.

(** The time value of [new Date(v)] for a scalar [v]. *)
Definition Date_new (clock : Clock) (v : Js.value) : float :=
  match v with
  | Js.Str s => TimeClip (Date_parse clock s)
  | _ => TimeClip (Js.ToNumber v)
  end.

(* ================================================================== *)
(** * Metrics reducer *)
(* ================================================================== *)

(** The callback of [rawCustomers.map] (the same text in both handlers). *)
Definition customerMetrics (clock : Clock) (customer : RawCustomer.t)
  : Metrics.t :=
  let totalOrders :=
    Js.ToNumber (Js.or_else (RawCustomer.orders_count customer) (Js.Num 0)) in
  let totalSpent :=
    Js.parseFloat (Js.or_else (RawCustomer.total_spent customer) (Js.Str "0.00")) in
  let lastOrderDateRaw :=
    Js.or_else (RawCustomer.updated_at customer) (RawCustomer.created_at customer) in
  let lastOrderDate :=
    if Js.truthy lastOrderDateRaw then Some (Date_new clock lastOrderDateRaw)
    else None in
  let daysSinceLastOrder :=
    match lastOrderDate with
    | Some time =>
        Js.Math_floor ((Date_now clock - time) / (1000 * 60 * 60 * 24))%float
    | None => 999%float
    end in
  {| Metrics.id := RawCustomer.id customer;
     Metrics.email := RawCustomer.email customer;
     Metrics.firstName :=
       Js.or_else (RawCustomer.first_name customer) (Js.Str "Customer");
     Metrics.lastName := Js.or_else (RawCustomer.last_name customer) (Js.Str "");
     Metrics.totalOrders := totalOrders;
     Metrics.totalSpent := totalSpent;
     Metrics.averageOrderValue :=
       if Js.gt totalOrders 0 then (totalSpent / totalOrders)%float
       else 0%float;
     Metrics.daysSinceLastOrder := daysSinceLastOrder;
     Metrics.lastOrderDate := lastOrderDate;
     Metrics.tags := Js.or_else (RawCustomer.tags customer) (Js.Str "");
     Metrics.state := Js.or_else (RawCustomer.state customer) (Js.Str "active") |}.

(* ================================================================== *)
(** * Tier rule matcher *)
(* ================================================================== *)

(** The en dash of the rationale template, as its UTF-8 bytes. *)
Definition en_dash : string :=
  String "226"%char (String "128"%char (String "147"%char EmptyString)).

(** The [for (const tier of tiers)] loop of [applyRuleConfigToCustomer]. *)
Fixpoint matchTiers (customer : Metrics.t) (tiers : list Tier.t)
  : option Recommendation.t :=
  match tiers with
  | [] => None
  | tier :: rest =>
      let minTotalSpent :=
        match Tier.minTotalSpent tier with Js.Num n => n | _ => 0%float end in
      let maxTotalSpent :=
        match Tier.maxTotalSpent tier with Js.Num n => n | _ => infinity end in
      let minDays :=
        match Tier.minDaysSinceLastOrder tier with
        | Js.Num n => n | _ => 0%float end in
      let maxDays :=
        match Tier.maxDaysSinceLastOrder tier with
        | Js.Num n => n | _ => infinity end in
      let matchesTotal :=
        Js.ge (Metrics.totalSpent customer) minTotalSpent &&
        Js.le (Metrics.totalSpent customer) maxTotalSpent in
      let matchesDays :=
        Js.ge (Metrics.daysSinceLastOrder customer) minDays &&
        Js.le (Metrics.daysSinceLastOrder customer) maxDays in
      if matchesTotal && matchesDays then
        let discountPercent := Js.or_else (Tier.discountPercent tier) (Js.Num 0) in
        let prefix := Js.or_else (Tier.discountCodePrefix tier) (Js.Str "WINBACK") in
        let code :=
          Js.or_else (Tier.discountCode tier)
            (Js.Str (Js.toUpperCase (Js.ToString prefix ++ Js.ToString discountPercent))) in
        Some {| Recommendation.customerId := Metrics.id customer;
                Recommendation.email := Metrics.email customer;
                Recommendation.discountPercent := discountPercent;
                Recommendation.discountCode := code;
                Recommendation.rationale :=
                  Js.or_else (Tier.rationale tier)
                    (Js.Str ("Rule match: spent between "
                             ++ Js.Number_toString minTotalSpent ++ en_dash
                             ++ Js.Number_toString maxTotalSpent ++ ", inactive "
                             ++ Js.Number_toString minDays ++ en_dash
                             ++ Js.Number_toString maxDays ++ " days."));
                Recommendation.messagingAngle :=
                  Js.or_else (Tier.messagingAngle tier)
                    (Js.Str "Personalized win-back offer based on your purchase history.");
                Recommendation.expectedValue :=
                  if Js.is_number (Tier.expectedValue tier)
                  then Tier.expectedValue tier else Js.Undefined |}
      else matchTiers customer rest
  end.

(** [applyRuleConfigToCustomer(customer, ruleConfig)]; [None] is [null],
    for the argument as for the result. *)
Definition applyRuleConfigToCustomer (customer : Metrics.t)
  (ruleConfig : option RuleConfig.t) : option Recommendation.t :=
  let tiers :=
    match ruleConfig with
    | Some cfg => match RuleConfig.tiers cfg with Some l => l | None => [] end
    | None => []
    end in
  let defaultTier :=
    match ruleConfig with
    | Some cfg => RuleConfig.default cfg
    | None => None
    end in
  match matchTiers customer tiers with
  | Some rec => Some rec
  | None =>
      match defaultTier with
      | Some defaultTier =>
          let discountPercent :=
            Js.or_else (Tier.discountPercent defaultTier) (Js.Num 0) in
          let prefix :=
            Js.or_else (Tier.discountCodePrefix defaultTier) (Js.Str "WINBACK") in
          let code :=
            Js.or_else (Tier.discountCode defaultTier)
              (Js.Str (Js.toUpperCase (Js.ToString prefix ++ Js.ToString discountPercent))) in
          Some {| Recommendation.customerId := Metrics.id customer;
                  Recommendation.email := Metrics.email customer;
                  Recommendation.discountPercent := discountPercent;
                  Recommendation.discountCode := code;
                  Recommendation.rationale :=
                    Js.or_else (Tier.rationale defaultTier)
                      (Js.Str "Default rule applied.");
                  Recommendation.messagingAngle :=
                    Js.or_else (Tier.messagingAngle defaultTier)
                      (Js.Str "We appreciate you and wanted to send you a special offer.");
                  Recommendation.expectedValue :=
                    if Js.is_number (Tier.expectedValue defaultTier)
                    then Tier.expectedValue defaultTier else Js.Undefined |}
      | None => None
      end
  end.

(* ================================================================== *)
(** * The HTTP world *)
(* ================================================================== *)

(** The requests the modelled handlers issue through [fetch]. *)
Inductive Request : Type :=
| ShopifyGetCustomers (limit : Z) (page_info : option string)
| ShopifyPostPriceRule (title : string) (value : string)
| ShopifyPostDiscountCode (priceRuleId : Js.value) (code : string)
| MailerLitePostGroup (name : Js.value)
| MailerLitePostSubscriber (email groupId discount_code : Js.value)
    (discount_percent : string) (messaging_angle : Js.value)
    (expected_value : string).

(** A parsed JSON object body, seen through the property paths the handlers
    read: [customers]; [price_rule.id] ([None] when [price_rule] is not an
    object, so that reading [.id] throws); [data?.id]. *)
Record JsonObject : Type := mkJson {
  customers : option (list RawCustomer.t);
  price_rule_id : option Js.value;
  data_id : Js.value
}.

Inductive Body : Type :=
| BodyNotJson                 (* [response.json()] rejects *)
| BodyNull                    (* the JSON text [null] *)
| BodyJson (o : JsonObject).

Record Response : Type := mkResponse {
  ok : bool;
  status : Z;
  text : string;
  body : Body;
  link : option string       (* [response.headers.get('link')] *)
}.

Inductive FetchResult : Type :=
| NetworkFailure (message : string)     (* the [fetch] promise rejects *)
| Responded (response : Response).

(** What a [throw] or a rejected promise carries. *)
Inductive Error : Type :=
| FetchError (message : string)
| JsonError
| TypeError
| ShopifyApiError (status : Z) (errorText : string)
| PriceRuleCreationFailed (errorData : Body)
| DiscountCodeCreationFailed (errorData : Body)
| MailerLiteGroupFailed (groupData : Body).

(** The result of running a piece of handler code: a value, an exception,
    or no result within the given number of loop iterations. *)
Inductive Outcome (A : Type) : Type :=
| Ok (a : A)
| Throw (e : Error)
| OutOfFuel.

Arguments Ok {A} a.
Arguments Throw {A} e.
Arguments OutOfFuel {A}.

Section Effects.

(** The remote services: a state of type [W] and the answer to each request
    in a given state. *)
Context {W : Type}.
Variable upstream : W -> Request -> FetchResult * W.

(** The remote state together with the exchanges made so far. *)
Record World : Type := mkWorld {
  remote : W;
  exchanges : list (Request * FetchResult)
}.

Definition Eff (A : Type) : Type := World -> Outcome A * World.

Definition ret {A} (a : A) : Eff A := fun w => (Ok a, w).

Definition throw {A} (e : Error) : Eff A := fun w => (Throw e, w).

Definition out_of_fuel {A} : Eff A := fun w => (OutOfFuel, w).

Definition bind {A B} (m : Eff A) (k : A -> Eff B) : Eff B :=
  fun w =>
    match m w with
    | (Ok a, w') => k a w'
    | (Throw e, w') => (Throw e, w')
    | (OutOfFuel, w') => (OutOfFuel, w')
    end.

(** [try { m } catch (error) { handler }] *)
Definition try_catch {A} (m : Eff A) (handler : Error -> Eff A) : Eff A :=
  fun w =>
    match m w with
    | (Throw e, w') => handler e w'
    | r => r
    end.

(** [await fetch(...)] *)
Definition fetch (request : Request) : Eff Response :=
  fun w =>
    let (result, remote') := upstream (remote w) request in
    let w' := {| remote := remote';
                 exchanges := (exchanges w ++ [(request, result)])%list |} in
    match result with
    | NetworkFailure message => (Throw (FetchError message), w')
    | Responded response => (Ok response, w')
    end.

(** [await response.json()] *)
Definition response_json (response : Response) : Eff Body :=
  match body response with
  | BodyNotJson => throw JsonError
  | b => ret b
  end.

End Effects.

Arguments World W : clear implicits.
Arguments Eff W A : clear implicits.

Declare Scope eff_scope.
Delimit Scope eff_scope with eff.
Notation "x <- m ;; k" := (bind m (fun x => k))
  (at level 100, m at next level, right associativity) : eff_scope.
Notation "' p <- m ;; k" := (bind m (fun p => k))
  (at level 100, p pattern, m at next level, right associativity) : eff_scope.
Open Scope eff_scope.

(* ================================================================== *)
(** * Pagination fetcher *)
(* ================================================================== *)

Definition rel_next : string := "rel=" ++ Js.dquote ++ "next" ++ Js.dquote.

Definition is_cursor_char (c : ascii) : bool :=
  negb (Ascii.eqb c "&"%char || Ascii.eqb c ">"%char).

(** [s.match(/page_info=([^&>]+)/)]: the first capture group of the
    leftmost match, [None] when there is no match. *)
Fixpoint match_page_info (s : string) : option string :=
  let here :=
    if Js.starts_with "page_info=" s then
      let (cursor, _) := Js.span is_cursor_char (Js.drop_chars 10 s) in
      if Js.is_empty cursor then None else Some cursor
    else None in
  match here with
  | Some cursor => Some cursor
  | None =>
      match s with
      | EmptyString => None
      | String _ r => match_page_info r
      end
  end.

(** The truthiness of a string or [null]. *)
Definition truthy_string (s : option string) : bool :=
  match s with
  | Some s => negb (Js.is_empty s)
  | None => false
  end.

(** "Parse Link header for pagination": the new values of [pageInfo] and
    [done]. *)
Definition parseLinkHeader (linkHeader pageInfo : option string)
  : option string * bool :=
  if negb (truthy_string linkHeader) then (pageInfo, true)
  else
    let links := Js.split ","%char
                   (match linkHeader with Some h => h | None => "" end) in
    let nextLink := find (Js.includes rel_next) links in
    if negb (truthy_string nextLink) then (pageInfo, true)
    else
      let pageInfo :=
        match_page_info (match nextLink with Some l => l | None => "" end) in
      (pageInfo, negb (truthy_string pageInfo)).

(** [array.slice(0, n)] *)
Definition slice0 {A} (n : Z) (l : list A) : list A :=
  if n <? 0 then firstn (Z.to_nat (Z.max (Z.of_nat (List.length l) + n) 0)) l
  else firstn (Z.to_nat n) l.

Section Fetcher.

Context {W : Type}.
Variable upstream : W -> Request -> FetchResult * W.

(** The [while (!done && allCustomers.length < limitTotal)] loop followed by
    the final [slice]; [fuel] bounds the number of iterations.  [limitTotal]
    is a record count, hence an integer. *)
Fixpoint fetchLoop (fuel : nat) (limitTotal : Z)
  (allCustomers : list RawCustomer.t) (pageInfo : option string)
  (done : bool) : Eff W (list RawCustomer.t) :=
  if negb done && (Z.of_nat (List.length allCustomers) <? limitTotal) then
    match fuel with
    | O => out_of_fuel
    | S fuel' =>
        let perPage := Z.min 250 (limitTotal - Z.of_nat (List.length allCustomers)) in
        let url :=
          if truthy_string pageInfo then ShopifyGetCustomers perPage pageInfo
          else ShopifyGetCustomers perPage None in
        response <- fetch upstream url ;;
        if negb (ok response) then
          throw (ShopifyApiError (status response) (text response))
        else
          data <- response_json response ;;
          match data with
          | BodyNull => throw TypeError
          | _ =>
              let customers :=
                match data with
                | BodyJson o =>
                    match customers o with Some l => l | None => [] end
                | _ => []
                end in
              let allCustomers := (allCustomers ++ customers)%list in
              let (pageInfo, done) := parseLinkHeader (link response) pageInfo in
              fetchLoop fuel' limitTotal allCustomers pageInfo done
          end
    end
  else ret (slice0 limitTotal allCustomers).

Definition fetchShopifyCustomersPaginated (fuel : nat) (limitTotal : Z)
  : Eff W (list RawCustomer.t) :=
  fetchLoop fuel limitTotal [] None false.

End Fetcher.

(* ================================================================== *)
(** * Plain objects used as maps *)
(* ================================================================== *)

(** The object [uniqueCodes = {}]: own properties holding numbers, kept in
    insertion order, in front of [Object.prototype]. *)
Module JsObject.

Definition t : Type := list (string * float).

(** The property names [Object.prototype] answers to, all with truthy
    values. *)
Definition prototype_keys : list string :=
  [ "constructor"; "__defineGetter__"; "__defineSetter__"; "hasOwnProperty";
    "__lookupGetter__"; "__lookupSetter__"; "isPrototypeOf";
    "propertyIsEnumerable"; "toString"; "valueOf"; "__proto__";
    "toLocaleString" ].

Fixpoint get_own (o : t) (key : string) : option float :=
  match o with
  | [] => None
  | (k, v) :: rest => if String.eqb k key then Some v else get_own rest key
  end.

(** The truthiness of [o[key]]. *)
Definition get_truthy (o : t) (key : string) : bool :=
  match get_own o key with
  | Some v => Js.truthy (Js.Num v)
  | None => existsb (String.eqb key) prototype_keys
  end.

Fixpoint replace (o : t) (key : string) (v : float) : t :=
  match o with
  | [] => []
  | (k, v0) :: rest =>
      if String.eqb k key then (k, v) :: rest
      else (k, v0) :: replace rest key v
  end.

(** [o[key] = v] for a number [v]; the [__proto__] setter ignores it. *)
Definition set (o : t) (key : string) (v : float) : t :=
  if String.eqb key "__proto__" then o
  else match get_own o key with
       | Some _ => replace o key v
       | None => (o ++ [(key, v)])%list
       end.

(** An array index: the canonical decimal form of an integer below
    [2^32 - 1]. *)
Definition array_index (key : string) : option Z :=
  let n := Js.digits_value 0 key in
  if negb (Js.is_empty key) && Js.is_empty (snd (Js.span Js.is_digit key))
     && String.eqb (Js.decimal_of_Z n) key && (n <=? 4294967294)
  then Some n else None.

Fixpoint insert_index (e : Z * (string * float))
  (l : list (Z * (string * float))) : list (Z * (string * float)) :=
  match l with
  | [] => [e]
  | h :: rest => if fst e <=? fst h then e :: l else h :: insert_index e rest
  end.

Definition index_entries (o : t) : list (Z * (string * float)) :=
  fold_right
    (fun kv acc =>
       match array_index (fst kv) with
       | Some n => insert_index (n, kv) acc
       | None => acc
       end) [] o.

Definition is_index (kv : string * float) : bool :=
  match array_index (fst kv) with Some _ => true | None => false end.

(** [Object.entries(o)]: array indices in ascending order, then the other
    names in insertion order. *)
Definition entries (o : t) : list (string * float) :=
  (map snd (index_entries o) ++ filter (fun kv => negb (is_index kv)) o)%list.

End JsObject.

(* ================================================================== *)
(** * Handlers *)
(* ================================================================== *)

Inductive Payload : Type :=
| ErrorMessage (error : string)
| ErrorCaught (error : Error)
| DiscountsResult (createdCodes : list (string * float))
    (failedCodes : list (string * Error))
| BatchResult (pricingStrategy : Js.value) (totalCustomersFetched : nat)
    (totalRecommendations : nat)
    (sampleRecommendations : list Recommendation.t)
    (mailerLiteResult : option (Js.value * Z)).

(** [res.status(status).json(payload)] *)
Record Reply : Type := mkReply {
  reply_status : Z;
  reply_payload : Payload
}.

(** The body of [POST /api/reactivation/batch].  [maxCustomers] is an
    integer when present. *)
Record BatchBody : Type := mkBatchBody {
  pricingStrategy : Js.value;
  ruleConfig : option RuleConfig.t;
  campaignName : Js.value;
  maxCustomers : option Z;
  sendToMailerLite : Js.value
}.

(** "Group recommendations by discount code to avoid duplicates": the
    [recommendations.forEach] callback. *)
Definition collectCode (uniqueCodes : JsObject.t) (rec : Recommendation.t)
  : JsObject.t :=
  if Js.truthy (Recommendation.discountCode rec) then
    match Recommendation.discountPercent rec with
    | Js.Num discountPercent =>
        let key := Js.ToString (Recommendation.discountCode rec) in
        if negb (JsObject.get_truthy uniqueCodes key)
        then JsObject.set uniqueCodes key discountPercent
        else uniqueCodes
    | _ => uniqueCodes
    end
  else uniqueCodes.

Definition collectUniqueCodes (recommendations : list Recommendation.t)
  : JsObject.t :=
  fold_left collectCode recommendations [].

(** The filter loop of the batch endpoint. *)
Fixpoint batchRecommendations (ruleConfig : option RuleConfig.t)
  (customersWithMetrics : list Metrics.t) : list Recommendation.t :=
  match customersWithMetrics with
  | [] => []
  | c :: rest =>
      match applyRuleConfigToCustomer c ruleConfig with
      | Some rec =>
          if Js.gt_number (Recommendation.discountPercent rec) 0
             && Js.truthy (Recommendation.email rec)
          then rec :: batchRecommendations ruleConfig rest
          else batchRecommendations ruleConfig rest
      | None => batchRecommendations ruleConfig rest
      end
  end.

(** [String(v ?? '')] *)
Definition string_or_empty (v : Js.value) : string :=
  match v with
  | Js.Undefined | Js.Null => ""
  | _ => Js.ToString v
  end.

Section Handlers.

Context {W : Type}.
Variable upstream : W -> Request -> FetchResult * W.
Variable env : Env.
Variable clock : Clock.

(** The [try] block of the discount loop for one [code, percentage] entry.
    The price rule is a percentage rule over all line items, once per
    customer, usage limit 1, valid for seven days from now. *)
Definition createDiscountCode (code : string) (percentage : float)
  : Eff W unit :=
  priceRuleResponse <-
    fetch upstream
      (ShopifyPostPriceRule (code ++ " - AI Dynamic Pricing")
                            ("-" ++ Js.Number_toString percentage)) ;;
  if negb (ok priceRuleResponse) then
    errorData <- response_json priceRuleResponse ;;
    throw (PriceRuleCreationFailed errorData)
  else
    priceRuleData <- response_json priceRuleResponse ;;
    priceRuleId <-
      match priceRuleData with
      | BodyJson o =>
          match price_rule_id o with
          | Some id => ret id
          | None => throw TypeError
          end
      | _ => throw TypeError
      end ;;
    discountCodeResponse <-
      fetch upstream (ShopifyPostDiscountCode priceRuleId code) ;;
    if negb (ok discountCodeResponse) then
      errorData <- response_json discountCodeResponse ;;
      throw (DiscountCodeCreationFailed errorData)
    else ret tt.

(** [for (const [code, percentage] of Object.entries(uniqueCodes))] *)
Fixpoint createDiscountCodes (entries : list (string * float))
  (createdCodes : list (string * float)) (failedCodes : list (string * Error))
  : Eff W (list (string * float) * list (string * Error)) :=
  match entries with
  | [] => ret (createdCodes, failedCodes)
  | (code, percentage) :: rest =>
      r <- try_catch
             (_ <- createDiscountCode code percentage ;;
              ret (createdCodes ++ [(code, percentage)], failedCodes)%list)
             (fun error =>
                ret (createdCodes, failedCodes ++ [(code, error)])%list) ;;
      createDiscountCodes rest (fst r) (snd r)
  end.

(** [app.post('/api/shopify/discounts', ...)]; [recommendations] is [None]
    when the property is not an array. *)
Definition postShopifyDiscounts
  (recommendations : option (list Recommendation.t)) : Eff W Reply :=
  try_catch
    (if negb (Js.truthy (SHOPIFY_API_KEY env))
        || negb (Js.truthy (SHOPIFY_STORE env)) then
       ret (mkReply 400 (ErrorMessage "Shopify credentials not configured"))
     else
       match recommendations with
       | None | Some [] =>
           ret (mkReply 400
                  (ErrorMessage "No recommendations provided to create discounts."))
       | Some recommendations =>
           let uniqueCodes := collectUniqueCodes recommendations in
           r <- createDiscountCodes (JsObject.entries uniqueCodes) [] [] ;;
           ret (mkReply 200 (DiscountsResult (fst r) (snd r)))
       end)
    (fun error => ret (mkReply 500 (ErrorCaught error))).

(** The subscriber loop of the batch endpoint: a rejected [fetch] is logged
    and skipped, any response counts as added. *)
Fixpoint addSubscribers (groupId : Js.value)
  (recommendations : list Recommendation.t) (addedCount : Z) : Eff W Z :=
  match recommendations with
  | [] => ret addedCount
  | rec :: rest =>
      addedCount <-
        try_catch
          (_ <- fetch upstream
                  (MailerLitePostSubscriber
                     (Recommendation.email rec) groupId
                     (Recommendation.discountCode rec)
                     (string_or_empty (Recommendation.discountPercent rec))
                     (Js.or_else (Recommendation.messagingAngle rec) (Js.Str ""))
                     (string_or_empty (Recommendation.expectedValue rec))) ;;
           ret (addedCount + 1))
          (fun err => ret addedCount) ;;
      addSubscribers groupId rest addedCount
  end.

(** [app.post('/api/reactivation/batch', ...)] *)
Definition postReactivationBatch (fuel : nat) (reqBody : BatchBody)
  : Eff W Reply :=
  try_catch
    (let pricingStrategy :=
       match pricingStrategy reqBody with
       | Js.Undefined => Js.Str "reactivation"
       | v => v
       end in
     match ruleConfig reqBody with
     | None =>
         ret (mkReply 400
                (ErrorMessage "ruleConfig is required to run batch reactivation."))
     | Some _ =>
         if negb (Js.truthy (SHOPIFY_API_KEY env))
            || negb (Js.truthy (SHOPIFY_STORE env)) then
           ret (mkReply 400 (ErrorMessage "Shopify credentials not configured"))
         else
           let batchLimit :=
             Z.min
               (match maxCustomers reqBody with
                | Some n => if n =? 0 then 7000 else n
                | None => 7000
                end)
               (match MAX_BATCH_CUSTOMERS env with
                | Some n => n
                | None => 10000
                end) in
           rawCustomers <- fetchShopifyCustomersPaginated upstream fuel batchLimit ;;
           let customersWithMetrics := map (customerMetrics clock) rawCustomers in
           let recommendations :=
             batchRecommendations (ruleConfig reqBody) customersWithMetrics in
           let respond mailerLiteResult :=
             ret (mkReply 200
                    (BatchResult pricingStrategy
                       (List.length customersWithMetrics)
                       (List.length recommendations)
                       (firstn 20 recommendations)
                       mailerLiteResult)) in
           if Js.truthy (sendToMailerLite reqBody) then
             if negb (Js.truthy (MAILERLITE_API_KEY env)) then
               ret (mkReply 400
                      (ErrorMessage
                         "MAILERLITE_API_KEY not configured, cannot send directly to MailerLite."))
             else
               groupResponse <-
                 fetch upstream
                   (MailerLitePostGroup
                      (Js.or_else (campaignName reqBody)
                         (Js.Str ("Dynamic Pricing Batch - "
                                  ++ Js.ToString pricingStrategy ++ " - "
                                  ++ toLocaleDateString clock)))) ;;
               groupData <- response_json groupResponse ;;
               match groupData with
               | BodyJson o =>
                   let groupId := data_id o in
                   if negb (Js.truthy groupId) then
                     throw (MailerLiteGroupFailed groupData)
                   else
                     addedCount <- addSubscribers groupId recommendations 0 ;;
                     respond (Some (groupId, addedCount))
               | _ => throw TypeError
               end
           else respond None
     end)
    (fun error => ret (mkReply 500 (ErrorCaught error))).

End Handlers.

(* ================================================================== *)
(** * Vocabulary of the specification *)
(* ================================================================== *)

(** A bound of a tier: the number when one is given, the default when the
    property is unset (or anything but a number). *)
Definition bound_or (default : float) (v : Js.value) : float :=
  match v with
  | Js.Num n => n
  | _ => default
  end.

(** [lo <= x <= hi], both ends included. *)
Definition within (x lo hi : float) : bool := Js.ge x lo && Js.le x hi.

(** "totalSpent within [minTotalSpent, maxTotalSpent] AND daysSinceLastOrder
    within [minDaysSinceLastOrder, maxDaysSinceLastOrder]", with the
    defaults [0] and [+infinity]. *)
Definition tier_applies (customer : Metrics.t) (tier : Tier.t) : bool :=
  within (Metrics.totalSpent customer)
         (bound_or 0 (Tier.minTotalSpent tier))
         (bound_or infinity (Tier.maxTotalSpent tier))
  && within (Metrics.daysSinceLastOrder customer)
            (bound_or 0 (Tier.minDaysSinceLastOrder tier))
            (bound_or infinity (Tier.maxDaysSinceLastOrder tier)).

(** "percent from the tier (0 if unset)" *)
Definition tier_percent (tier : Tier.t) : Js.value :=
  Js.or_else (Tier.discountPercent tier) (Js.Num 0).

(** "synthesized prefix+percent uppercased", the prefix defaulting to
    WINBACK. *)
Definition synthesized_code (tier : Tier.t) : string :=
  Js.toUpperCase
    (Js.ToString (Js.or_else (Tier.discountCodePrefix tier) (Js.Str "WINBACK"))
     ++ Js.ToString (tier_percent tier)).




(** The construction of a recommendation from a customer and a tier, up to
    the two generic texts used when the tier has no rationale or no
    messaging angle. *)
Definition build_recommendation (genericRationale genericAngle : string)
  (customer : Metrics.t) (tier : Tier.t) : Recommendation.t :=
  {| Recommendation.customerId := Metrics.id customer;
     Recommendation.email := Metrics.email customer;
     Recommendation.discountPercent := tier_percent tier;
     Recommendation.discountCode :=
       Js.or_else (Tier.discountCode tier) (Js.Str (synthesized_code tier));
     Recommendation.rationale :=
       Js.or_else (Tier.rationale tier) (Js.Str genericRationale);
     Recommendation.messagingAngle :=
       Js.or_else (Tier.messagingAngle tier) (Js.Str genericAngle);
     Recommendation.expectedValue :=
       match Tier.expectedValue tier with
       | Js.Num n => Js.Num n
       | _ => Js.Undefined
       end |}.

Definition rule_match_rationale (tier : Tier.t) : string :=
  "Rule match: spent between "
  ++ Js.Number_toString (bound_or 0 (Tier.minTotalSpent tier)) ++ en_dash
  ++ Js.Number_toString (bound_or infinity (Tier.maxTotalSpent tier))
  ++ ", inactive "
  ++ Js.Number_toString (bound_or 0 (Tier.minDaysSinceLastOrder tier)) ++ en_dash
  ++ Js.Number_toString (bound_or infinity (Tier.maxDaysSinceLastOrder tier))
  ++ " days.".

Definition tier_recommendation (customer : Metrics.t) (tier : Tier.t)
  : Recommendation.t :=
  build_recommendation (rule_match_rationale tier)
    "Personalized win-back offer based on your purchase history."
    customer tier.

Definition default_recommendation (customer : Metrics.t) (tier : Tier.t)
  : Recommendation.t :=
  build_recommendation "Default rule applied."
    "We appreciate you and wanted to send you a special offer."
    customer tier.

(** The tiers and the default a (possibly null) rule configuration
    provides. *)
Definition tiers_of (ruleConfig : option RuleConfig.t) : list Tier.t :=
  match ruleConfig with
  | Some cfg => match RuleConfig.tiers cfg with Some l => l | None => [] end
  | None => []
  end.

Definition default_of (ruleConfig : option RuleConfig.t) : option Tier.t :=
  match ruleConfig with
  | Some cfg => RuleConfig.default cfg
  | None => None
  end.

(** A tier with spend bounds [lo, hi] and a percentage; its other
    properties are those of [base]. *)
Definition spend_tier (lo hi percent : float) (base : Tier.t) : Tier.t :=
  {| Tier.minTotalSpent := Js.Num lo;
     Tier.maxTotalSpent := Js.Num hi;
     Tier.minDaysSinceLastOrder := Tier.minDaysSinceLastOrder base;
     Tier.maxDaysSinceLastOrder := Tier.maxDaysSinceLastOrder base;
     Tier.discountPercent := Js.Num percent;
     Tier.discountCodePrefix := Tier.discountCodePrefix base;
     Tier.discountCode := Tier.discountCode base;
     Tier.rationale := Tier.rationale base;
     Tier.messagingAngle := Tier.messagingAngle base;
     Tier.expectedValue := Tier.expectedValue base |}.

(** A tier that only names a code prefix (possibly none) and a percentage. *)
Definition prefix_tier (prefix : Js.value) (percent : float) : Tier.t :=
  {| Tier.minTotalSpent := Js.Undefined;
     Tier.maxTotalSpent := Js.Undefined;
     Tier.minDaysSinceLastOrder := Js.Undefined;
     Tier.maxDaysSinceLastOrder := Js.Undefined;
     Tier.discountPercent := Js.Num percent;
     Tier.discountCodePrefix := prefix;
     Tier.discountCode := Js.Undefined;
     Tier.rationale := Js.Undefined;
     Tier.messagingAngle := Js.Undefined;
     Tier.expectedValue := Js.Undefined |}.

(** The test of the batch filter: [rec.discountPercent > 0 && rec.email]. *)
Definition kept (rec : Recommendation.t) : bool :=
  Js.gt_number (Recommendation.discountPercent rec) 0
  && Js.truthy (Recommendation.email rec).

(** Every recommendation the matcher produces for a list of customers. *)
Definition matched (ruleConfig : option RuleConfig.t)
  (customers : list Metrics.t) : list Recommendation.t :=
  flat_map
    (fun c =>
       match applyRuleConfigToCustomer c ruleConfig with
       | Some rec => [rec]
       | None => []
       end) customers.

(** The day bounds of a tier alone. *)
Definition days_within (customer : Metrics.t) (tier : Tier.t) : bool :=
  within (Metrics.daysSinceLastOrder customer)
         (bound_or 0 (Tier.minDaysSinceLastOrder tier))
         (bound_or infinity (Tier.maxDaysSinceLastOrder tier)).

(** Two tiers whose spend ranges overlap on [50, 100]. *)
Definition overlapping_tiers (base1 base2 : Tier.t) : list Tier.t :=
  [spend_tier 0 100 10 base1; spend_tier 50 150 20 base2].

(** The raw timestamp the reducer reads: [updated_at || created_at]. *)
Definition last_activity (customer : RawCustomer.t) : Js.value :=
  Js.or_else (RawCustomer.updated_at customer) (RawCustomer.created_at customer).

(** A spend string is unparseable when, leading white space apart, it does
    not start with a decimal literal. *)
Definition unparseable (s : string) : Prop :=
  Js.signed_literal (Js.trim_start s) = None.

(** The customers a response delivers to the fetcher:
    [data.customers || []]. *)
Definition page_of (result : FetchResult) : list RawCustomer.t :=
  match result with
  | Responded response =>
      match body response with
      | BodyJson o => match customers o with Some l => l | None => [] end
      | _ => []
      end
  | NetworkFailure _ => []
  end.

Definition pages_of (xs : list (Request * FetchResult)) : list RawCustomer.t :=
  flat_map (fun x => page_of (snd x)) xs.

(** Every request asks for [min(250, limitTotal - accumulated)] customers,
    [accumulated] counting the customers received before it. *)
Fixpoint pages_requested (limitTotal accumulated : Z)
  (xs : list (Request * FetchResult)) : Prop :=
  match xs with
  | [] => True
  | (request, result) :: rest =>
      (exists cursor,
          request = ShopifyGetCustomers
                      (Z.min 250 (limitTotal - accumulated)) cursor)
      /\ pages_requested limitTotal
           (accumulated + Z.of_nat (List.length (page_of result))) rest
  end.

(** The cursor a request carries: [pageInfo] when truthy. *)
Definition effective_cursor (pageInfo : option string) : option string :=
  if truthy_string pageInfo then pageInfo else None.

(** Every character of a string satisfies [p]. *)
Fixpoint all_chars (p : ascii -> bool) (s : string) : bool :=
  match s with
  | EmptyString => true
  | String c r => p c && all_chars p r
  end.

(** A string that is empty or starts with a character outside [p]. *)
Definition stops (p : ascii -> bool) (s : string) : bool :=
  match s with
  | EmptyString => true
  | String c _ => negb (p c)
  end.

(** Every character but [d]. *)
Definition other_than (d c : ascii) : bool := negb (Ascii.eqb c d).

(** ** Shopify's Link header *)

(** One entry of the header: the address of a page, which carries the
    cursor as its [page_info] parameter, and the relation of that page to
    the one being answered. *)
Definition link_entry (url cursor rel : string) : string :=
  "<" ++ url ++ "page_info=" ++ cursor ++ ">; rel=" ++ Js.dquote ++ rel ++ Js.dquote.

(** The header of a page with the given previous and next cursors: absent
    when there is neither, and the previous entry before the next one,
    separated by a comma and a space, when there are both. *)
Definition shopify_link (url : string) (previous next : option string)
  : option string :=
  match previous, next with
  | None, None => None
  | Some p, None => Some (link_entry url p "previous")
  | None, Some n => Some (link_entry url n "next")
  | Some p, Some n =>
      Some (link_entry url p "previous" ++ ", " ++ link_entry url n "next")
  end.

(** The part of an address before [page_info=] holds no comma, no double
    quote and no underscore. *)
Definition is_url_char (c : ascii) : bool :=
  negb (Ascii.eqb c ","%char || Ascii.eqb c "034"%char || Ascii.eqb c "_"%char).

Definition plain_url (url : string) : bool := all_chars is_url_char url.

(** A cursor is a non-empty text without [&], [>], comma or double quote. *)
Definition is_token_char (c : ascii) : bool :=
  negb (Ascii.eqb c "&"%char || Ascii.eqb c ">"%char
        || Ascii.eqb c ","%char || Ascii.eqb c "034"%char).

Definition cursor_token (cursor : string) : bool :=
  negb (Js.is_empty cursor) && all_chars is_token_char cursor.

Definition optional_token (cursor : option string) : bool :=
  match cursor with
  | Some c => cursor_token c
  | None => true
  end.

(** The text of an entry before its relation, and the relation mark of a
    previous entry. *)
Definition entry_target (url cursor : string) : string :=
  "<" ++ url ++ "page_info=" ++ cursor.

Definition previous_mark : string :=
  ">; rel=" ++ Js.dquote ++ "previous" ++ Js.dquote.

(** The cursor that stands for position [k] of the store: none for the
    first page, [cursor k] after [k] records. *)
Definition position_cursor (cursor : nat -> string) (k : nat) : option string :=
  match k with
  | O => None
  | S _ => Some (cursor k)
  end.

(** An upstream that serves [total] records in pages of at most 250: a
    request for [limit] records (between 1 and 250) from position [k] is
    answered with [min(limit, total - k)] records, under a Link header of
    Shopify's format whose next entry is there exactly when records remain
    after the page, and then carries the cursor of the position after it.
    The header is given as text; how the fetcher reads it is no part of
    the assumption. *)
Definition serves_in_pages {W : Type} (upstream : W -> Request -> FetchResult * W)
  (total : nat) (cursor : nat -> string) : Prop :=
  (forall k, cursor_token (cursor (S k)) = true)
  /\ forall w limit k,
      1 <= limit <= 250 ->
      (k = 0 \/ k < total)%nat ->
      exists response w' url previous,
        upstream w (ShopifyGetCustomers limit (position_cursor cursor k))
        = (Responded response, w')
        /\ ok response = true
        /\ (exists o, body response = BodyJson o)
        /\ List.length (page_of (Responded response))
           = Nat.min (Z.to_nat limit) (total - k)
        /\ plain_url url = true
        /\ optional_token previous = true
        /\ link response
           = shopify_link url previous
               (if (k + List.length (page_of (Responded response)) <? total)%nat
                then Some (cursor (k + List.length (page_of (Responded response)))%nat)
                else None).

(** The Link header of a response names no next page: it is absent (or
    empty), or none of its comma-separated entries is marked [rel="next"],
    or no [page_info] value can be read from the first such entry. *)
Definition no_next_page (linkHeader : option string) : Prop :=
  truthy_string linkHeader = false
  \/ (exists h, linkHeader = Some h
                /\ find (Js.includes rel_next) (Js.split ","%char h) = None)
  \/ (exists h nextLink,
         linkHeader = Some h
         /\ find (Js.includes rel_next) (Js.split ","%char h) = Some nextLink
         /\ match_page_info nextLink = None).

(** A computation settles when it returns or throws in every world: it does
    not depend on an iteration bound. *)
Definition settles {W A : Type} (m : Eff W A) : Prop :=
  forall w, exists w',
    (exists a, m w = (Ok a, w')) \/ (exists e, m w = (Throw e, w')).

(** The status an endpoint answered with, if it answered. *)
Definition status_of (outcome : Outcome Reply) : option Z :=
  match outcome with
  | Ok reply => Some (reply_status reply)
  | _ => None
  end.

(** The request the subscriber loop issues for a recommendation. *)
Definition subscriber_request (groupId : Js.value) (rec : Recommendation.t)
  : Request :=
  MailerLitePostSubscriber
    (Recommendation.email rec) groupId (Recommendation.discountCode rec)
    (string_or_empty (Recommendation.discountPercent rec))
    (Js.or_else (Recommendation.messagingAngle rec) (Js.Str ""))
    (string_or_empty (Recommendation.expectedValue rec)).

Definition is_subscriber_request (request : Request) : bool :=
  match request with
  | MailerLitePostSubscriber _ _ _ _ _ _ => true
  | _ => false
  end.

(** The candidates of a batch: what the matcher returns for the metrics of
    the fetched customers. *)
Definition candidates (clock : Clock) (ruleConfig : option RuleConfig.t)
  (rawCustomers : list RawCustomer.t) : list Recommendation.t :=
  matched ruleConfig (map (customerMetrics clock) rawCustomers).

(** A recommendation the grouping step takes into account: it has a truthy
    code and a number as percentage. *)
Definition collectable (rec : Recommendation.t) : bool :=
  Js.truthy (Recommendation.discountCode rec)
  && Js.is_number (Recommendation.discountPercent rec).

Definition code_key (rec : Recommendation.t) : string :=
  Js.ToString (Recommendation.discountCode rec).

(* ================================================================== *)
(** * Sample inputs *)
(* ================================================================== *)

(** 1 January 2024, 00:00 UTC; the parser knows the two timestamps the
    samples use. *)
Definition sample_clock : Clock :=
  {| Date_now := 1704067200000;
     Date_parse := fun s =>
       if String.eqb s "2023-10-23T00:00:00Z" then 1698019200000%float
       else if String.eqb s "2024-01-03T00:00:00Z" then 1704240000000%float
       else nan;
     toLocaleDateString := "1/1/2024" |}.

(** The same instant and the same parser on a host with another locale. *)
Definition later_clock : Clock :=
  {| Date_now := Date_now sample_clock;
     Date_parse := Date_parse sample_clock;
     toLocaleDateString := "01.01.2024" |}.

Definition raw_customer
  (email orders_count total_spent updated_at created_at : Js.value)
  : RawCustomer.t :=
  {| RawCustomer.id := Js.Num 1;
     RawCustomer.email := email;
     RawCustomer.first_name := Js.Str "Ada";
     RawCustomer.last_name := Js.Undefined;
     RawCustomer.orders_count := orders_count;
     RawCustomer.total_spent := total_spent;
     RawCustomer.updated_at := updated_at;
     RawCustomer.created_at := created_at;
     RawCustomer.tags := Js.Undefined;
     RawCustomer.state := Js.Undefined |}.

(** Three orders, 150.00 spent, last seen 70 days ago. *)
Definition lapsed_customer : RawCustomer.t :=
  raw_customer (Js.Str "ada@example.com") (Js.Num 3) (Js.Str "150.00")
    (Js.Str "2023-10-23T00:00:00Z") Js.Undefined.

Definition garbled_spend_customer : RawCustomer.t :=
  raw_customer (Js.Str "eve@example.com") (Js.Num 3) (Js.Str "abc")
    Js.Undefined Js.Undefined.

(** A spend of 42.50 written after a no-break space (U+00A0) and before a
    currency. *)
Definition padded_spend_customer : RawCustomer.t :=
  raw_customer (Js.Str "fay@example.com") (Js.Num 1)
    (Js.Str (String "194"%char (String "160"%char "42.50 USD")))
    Js.Undefined Js.Undefined.

(** Created two days after [Date_now sample_clock]. *)
Definition future_customer : RawCustomer.t :=
  raw_customer (Js.Str "bob@example.com") Js.Undefined Js.Undefined Js.Undefined
    (Js.Str "2024-01-03T00:00:00Z").

(** No email, no order count, no spend, no timestamps. *)
Definition bare_customer : RawCustomer.t :=
  raw_customer Js.Null Js.Undefined Js.Undefined Js.Undefined Js.Undefined.

Definition sample_metrics : Metrics.t :=
  {| Metrics.id := Js.Num 1;
     Metrics.email := Js.Str "ada@example.com";
     Metrics.firstName := Js.Str "Ada";
     Metrics.lastName := Js.Str "";
     Metrics.totalOrders := 3;
     Metrics.totalSpent := 75;
     Metrics.averageOrderValue := 25;
     Metrics.daysSinceLastOrder := 70;
     Metrics.lastOrderDate := None;
     Metrics.tags := Js.Str "";
     Metrics.state := Js.Str "active" |}.

Definition high_spend_config : RuleConfig.t :=
  {| RuleConfig.tiers := Some [spend_tier 200 500 30 Tier.empty];
     RuleConfig.default := Some (prefix_tier Js.Undefined 20) |}.



Definition winback20_config : RuleConfig.t :=
  {| RuleConfig.tiers := Some [prefix_tier Js.Undefined 20];
     RuleConfig.default := Some (prefix_tier Js.Undefined 20) |}.

(** 20% for customers inactive for 60 to 999 days, and an empty default
    tier (0%). *)
Definition winback_tier : Tier.t :=
  {| Tier.minTotalSpent := Js.Undefined;
     Tier.maxTotalSpent := Js.Undefined;
     Tier.minDaysSinceLastOrder := Js.Num 60;
     Tier.maxDaysSinceLastOrder := Js.Num 999;
     Tier.discountPercent := Js.Num 20;
     Tier.discountCodePrefix := Js.Str "WINBACK";
     Tier.discountCode := Js.Undefined;
     Tier.rationale := Js.Undefined;
     Tier.messagingAngle := Js.Undefined;
     Tier.expectedValue := Js.Undefined |}.

Definition winback_rules : RuleConfig.t :=
  {| RuleConfig.tiers := Some [winback_tier];
     RuleConfig.default := Some Tier.empty |}.

Definition demo_records : list RawCustomer.t :=
  [lapsed_customer; future_customer; bare_customer].

Definition demo_cursor (position : nat) : string :=
  match position with
  | 1%nat => "page1"
  | 2%nat => "page2"
  | _ => "start"
  end.

Definition demo_offset (cursor : option string) : nat :=
  match cursor with
  | Some s =>
      if String.eqb s "page1" then 1%nat
      else if String.eqb s "page2" then 2%nat
      else 0%nat
  | None => 0%nat
  end.

Definition demo_url : string :=
  "https://demo.myshopify.com/admin/api/2024-10/customers.json?limit=2&page_info=".

(** A Link header in Shopify's format, with a previous and a next entry. *)
Definition demo_link (next : nat) : option string :=
  if (next <? 3)%nat then
    Some ("<" ++ demo_url ++ "start>; rel=" ++ Js.dquote ++ "previous" ++ Js.dquote
          ++ ", <" ++ demo_url ++ demo_cursor next ++ ">; rel="
          ++ Js.dquote ++ "next" ++ Js.dquote)
  else None.

Definition json_customers (page : list RawCustomer.t) : Body :=
  BodyJson {| customers := Some page; price_rule_id := None;
              data_id := Js.Undefined |}.

Definition json_created (id : Js.value) : Body :=
  BodyJson {| customers := None; price_rule_id := Some id; data_id := id |}.

Definition json_errors : Body :=
  BodyJson {| customers := None; price_rule_id := None; data_id := Js.Undefined |}.

Definition respond_ok (b : Body) (linkHeader : option string) : FetchResult :=
  Responded {| ok := true; status := 200; text := ""; body := b;
               link := linkHeader |}.

(** A store with three customers behind a well-behaved paginated endpoint;
    the discount code BROKEN is refused, everything else is accepted.  The
    remote state counts the requests served. *)
Definition demo_upstream (served : nat) (request : Request) : FetchResult * nat :=
  match request with
  | ShopifyGetCustomers limit cursor =>
      let page :=
        firstn (Z.to_nat limit) (skipn (demo_offset cursor) demo_records) in
      (respond_ok (json_customers page)
         (demo_link (demo_offset cursor + List.length page)), S served)
  | ShopifyPostPriceRule _ _ =>
      (respond_ok (json_created (Js.Num 1001)) None, S served)
  | ShopifyPostDiscountCode _ code =>
      if String.eqb code "BROKEN" then
        (Responded {| ok := false; status := 422; text := "";
                      body := json_errors; link := None |}, S served)
      else (respond_ok (json_created (Js.Num 2002)) None, S served)
  | MailerLitePostGroup _ =>
      (respond_ok (json_created (Js.Str "group-1")) None, S served)
  | MailerLitePostSubscriber _ _ _ _ _ _ =>
      (respond_ok (json_created (Js.Str "subscriber-1")) None, S served)
  end.

(** The same store behind an endpoint that answers every request with all
    three customers at once, whatever the requested limit, under a given
    Link header. *)
Definition oversized_upstream (header : option string) (served : nat)
  (request : Request) : FetchResult * nat :=
  (respond_ok (json_customers demo_records) header, S served).

(** A Link header with an entry for the previous page only. *)
Definition previous_only_link : string :=
  "<" ++ demo_url ++ "start>; rel=" ++ Js.dquote ++ "previous" ++ Js.dquote.

(** A Link header whose next entry carries no [page_info] value. *)
Definition next_without_cursor_link : string :=
  "<https://demo.myshopify.com/admin/api/2024-10/customers.json?limit=2>; rel="
  ++ Js.dquote ++ "next" ++ Js.dquote.

(** The same store behind an endpoint that serves one record per page,
    whatever the requested limit. *)
Definition trickle_upstream (served : nat) (request : Request)
  : FetchResult * nat :=
  match request with
  | ShopifyGetCustomers limit cursor =>
      let page := firstn 1 (skipn (demo_offset cursor) demo_records) in
      (respond_ok (json_customers page)
         (demo_link (demo_offset cursor + List.length page)), S served)
  | _ => (NetworkFailure "connect ECONNREFUSED", S served)
  end.

(** A store with 600 customers behind an endpoint that serves at most 250
    records per page; the cursor for position [k] is a text of [k]
    characters. *)
Fixpoint tally (k : nat) : string :=
  match k with
  | O => EmptyString
  | S k' => String "c"%char (tally k')
  end.

Definition numbered_customer (n : nat) : RawCustomer.t :=
  {| RawCustomer.id := Js.Num (PrimFloat.of_uint63 (Uint63.of_Z (Z.of_nat n)));
     RawCustomer.email := Js.Undefined;
     RawCustomer.first_name := Js.Undefined;
     RawCustomer.last_name := Js.Undefined;
     RawCustomer.orders_count := Js.Num 1;
     RawCustomer.total_spent := Js.Str "10.00";
     RawCustomer.updated_at := Js.Undefined;
     RawCustomer.created_at := Js.Undefined;
     RawCustomer.tags := Js.Undefined;
     RawCustomer.state := Js.Undefined |}.

Definition warehouse_records : list RawCustomer.t :=
  map numbered_customer (seq 1 600).

Definition warehouse_url (limit : Z) : string :=
  "https://warehouse.myshopify.com/admin/api/2024-10/customers.json?limit="
  ++ Js.decimal_of_Z limit ++ "&".

Definition warehouse_upstream (served : nat) (request : Request)
  : FetchResult * nat :=
  match request with
  | ShopifyGetCustomers limit cursor =>
      let position :=
        match cursor with Some c => String.length c | None => 0%nat end in
      let page :=
        firstn (Z.to_nat (Z.min limit 250)) (skipn position warehouse_records) in
      let next := (position + List.length page)%nat in
      (respond_ok (json_customers page)
         (shopify_link (warehouse_url limit)
            (if (0 <? position)%nat then Some "back" else None)
            (if (next <? 600)%nat then Some (tally next) else None)),
       S served)
  | _ => (NetworkFailure "connect ECONNREFUSED", S served)
  end.

Definition fresh_world : World nat := {| remote := 0%nat; exchanges := [] |}.

Definition demo_env : Env :=
  {| SHOPIFY_STORE := Js.Str "demo";
     SHOPIFY_API_KEY := Js.Str "shpat_demo";
     MAILERLITE_API_KEY := Js.Str "ml_demo";
     MAX_BATCH_CUSTOMERS := None |}.

Definition env_without_shopify : Env :=
  {| SHOPIFY_STORE := Js.Undefined;
     SHOPIFY_API_KEY := Js.Undefined;
     MAILERLITE_API_KEY := Js.Str "ml_demo";
     MAX_BATCH_CUSTOMERS := None |}.

(** A recommendation as the dashboard posts it back. *)
Definition coded (code percent : Js.value) : Recommendation.t :=
  {| Recommendation.customerId := Js.Num 1;
     Recommendation.email := Js.Str "ada@example.com";
     Recommendation.discountPercent := percent;
     Recommendation.discountCode := code;
     Recommendation.rationale := Js.Undefined;
     Recommendation.messagingAngle := Js.Undefined;
     Recommendation.expectedValue := Js.Undefined |}.

Definition zero_then_twenty : list Recommendation.t :=
  [coded (Js.Str "SAVE") (Js.Num 0); coded (Js.Str "SAVE") (Js.Num 20)].

Definition mixed_codes : list Recommendation.t :=
  [coded (Js.Str "BROKEN") (Js.Num 10); coded (Js.Str "SAVE15") (Js.Num 15);
   coded (Js.Str "SAVE15") (Js.Num 30); coded (Js.Str "toString") (Js.Num 5);
   coded (Js.Num 7) (Js.Num 7); coded Js.Undefined (Js.Num 5);
   coded (Js.Str "TEXT") (Js.Str "15")].

Definition batch_request : BatchBody :=
  {| pricingStrategy := Js.Undefined;
     ruleConfig := Some winback_rules;
     campaignName := Js.Undefined;
     maxCustomers := Some 5;
     sendToMailerLite := Js.Bool true |}.

(* ================================================================== *)
(** * The customers endpoint *)
(* ================================================================== *)

(** The limits read from the environment at start-up, integers when set:
    [Number(process.env.MAX_CUSTOMERS_ANALYZED || '1000')] and
    [Number(process.env.MAX_CUSTOMERS_FOR_AI || '250')]. *)
Record Limits : Type := mkLimits {
  MAX_CUSTOMERS_ANALYZED_env : option Z;
  MAX_CUSTOMERS_FOR_AI_env : option Z
}.

Definition MAX_CUSTOMERS_ANALYZED (limits : Limits) : Z :=
  match MAX_CUSTOMERS_ANALYZED_env limits with
  | Some n => n
  | None => 1000
  end.

Definition MAX_CUSTOMERS_FOR_AI (limits : Limits) : Z :=
  match MAX_CUSTOMERS_FOR_AI_env limits with
  | Some n => n
  | None => 250
  end.

Inductive CustomersPayload : Type :=
| CustomersError (error : string)
| CustomersCaught (error : Error)
| CustomersList (customers : list Metrics.t) (total : nat) (maxAnalyzed : Z).

Record CustomersReply : Type := mkCustomersReply {
  customers_status : Z;
  customers_payload : CustomersPayload
}.

Section CustomersEndpoint.

Context {W : Type}.
Variable upstream : W -> Request -> FetchResult * W.
Variable env : Env.
Variable limits : Limits.
Variable clock : Clock.

(** [app.get('/api/shopify/customers', ...)] *)
Definition getShopifyCustomers (fuel : nat) : Eff W CustomersReply :=
  try_catch
    (if negb (Js.truthy (SHOPIFY_API_KEY env))
        || negb (Js.truthy (SHOPIFY_STORE env)) then
       ret (mkCustomersReply 400
              (CustomersError "Shopify credentials not configured"))
     else
       rawCustomers <-
         fetchShopifyCustomersPaginated upstream fuel
           (MAX_CUSTOMERS_ANALYZED limits) ;;
       let customersWithMetrics := map (customerMetrics clock) rawCustomers in
       ret (mkCustomersReply 200
              (CustomersList customersWithMetrics
                 (List.length customersWithMetrics)
                 (MAX_CUSTOMERS_ANALYZED limits))))
    (fun error => ret (mkCustomersReply 500 (CustomersCaught error))).

End CustomersEndpoint.

(* ================================================================== *)
(** * The campaign endpoint *)
(* ================================================================== *)

(** A JSON request body as the handlers destructure it: its scalar
    properties and its array-valued properties (arrays of
    recommendations), by name.  [campaignName] and [pricingStrategy] are
    scalars when present. *)
Record PostBody : Type := mkPostBody {
  scalars : list (string * Js.value);
  arrays : list (string * list Recommendation.t)
}.

(** [body[key]] for a scalar property, [undefined] when absent. *)
Definition scalar (reqBody : PostBody) (key : string) : Js.value :=
  match find (fun p => String.eqb (fst p) key) (scalars reqBody) with
  | Some p => snd p
  | None => Js.Undefined
  end.

(** [body[key]] when it is an array, [None] when [Array.isArray] fails. *)
Definition array (reqBody : PostBody) (key : string)
  : option (list Recommendation.t) :=
  match find (fun p => String.eqb (fst p) key) (arrays reqBody) with
  | Some p => Some (snd p)
  | None => None
  end.

(** The request to [https://connect.mailerlite.com/api/campaigns]; the
    type, the sender and the HTML of the email are constants. *)
Inductive CampaignRequest : Type :=
| MailerLitePostCampaign (name : Js.value) (subject : string)
    (groupId : Js.value).

Inductive CampaignPayload : Type :=
| CampaignError (error : string)
| CampaignCaught (error : Error)
| CampaignResult (addedCount : Z) (groupId : Js.value) (campaignId : Js.value).

Record CampaignReply : Type := mkCampaignReply {
  campaign_status : Z;
  campaign_payload : CampaignPayload
}.

(** The sheaf-of-rice emoji of the subject line, as its UTF-8 bytes. *)
Definition sheaf_of_rice : string :=
  String "240"%char (String "159"%char (String "140"%char
    (String "190"%char EmptyString))).

(** [`${pricingStrategy === 'reactivation' ? ... : ...} <emoji>`] *)
Definition emailSubject (pricingStrategy : Js.value) : string :=
  (match pricingStrategy with
   | Js.Str s =>
       if String.eqb s "reactivation" then "We Miss You!"
       else "Special Offer Just For You"
   | _ => "Special Offer Just For You"
   end) ++ " " ++ sheaf_of_rice.

Section CampaignEndpoint.

Context {W : Type}.
Variable upstream : W -> Request -> FetchResult * W.
Variable campaigns : W -> CampaignRequest -> FetchResult * W.
Variable env : Env.
Variable clock : Clock.

(** [await fetch('https://connect.mailerlite.com/api/campaigns', ...)]; the
    exchange log keeps the requests of type [Request] only. *)
Definition fetch_campaign (request : CampaignRequest) : Eff W Response :=
  fun w =>
    let (result, remote') := campaigns (remote w) request in
    let w' := {| remote := remote'; exchanges := exchanges w |} in
    match result with
    | NetworkFailure message => (Throw (FetchError message), w')
    | Responded response => (Ok response, w')
    end.

(** [app.post('/api/mailerlite/campaign', ...)]; [reqBody] is [None] when
    [req.body] is undefined.  The [throw new Error('Failed to create
    MailerLite group')] stands directly under the handler's [try], whose
    [catch] answers 500 with the message of the error. *)
Definition postMailerLiteCampaign (reqBody : option PostBody)
  : Eff W CampaignReply :=
  try_catch
    (match reqBody with
     | None => throw TypeError
     | Some reqBody =>
         let campaignName := scalar reqBody "campaignName" in
         let pricingStrategy := scalar reqBody "pricingStrategy" in
         let selectedRecommendations := array reqBody "selectedRecommendations" in
         if negb (Js.truthy (MAILERLITE_API_KEY env)) then
           ret (mkCampaignReply 400
                  (CampaignError "MailerLite API key not configured"))
         else
           match selectedRecommendations with
           | None | Some [] =>
               ret (mkCampaignReply 400
                      (CampaignError "No selected recommendations provided."))
           | Some selectedRecommendations =>
               groupResponse <-
                 fetch upstream
                   (MailerLitePostGroup
                      (Js.or_else campaignName
                         (Js.Str ("Dynamic Pricing - "
                                  ++ Js.ToString pricingStrategy ++ " - "
                                  ++ toLocaleDateString clock)))) ;;
               groupData <- response_json groupResponse ;;
               match groupData with
               | BodyJson o =>
                   let groupId := data_id o in
                   if negb (Js.truthy groupId) then
                     ret (mkCampaignReply 500
                            (CampaignError "Failed to create MailerLite group"))
                   else
                     addedCount <-
                       addSubscribers upstream groupId selectedRecommendations 0 ;;
                     campaignResponse <-
                       fetch_campaign
                         (MailerLitePostCampaign
                            (Js.or_else campaignName
                               (Js.Str ("Dynamic Pricing - "
                                        ++ Js.ToString pricingStrategy)))
                            (emailSubject pricingStrategy) groupId) ;;
                     campaignData <- response_json campaignResponse ;;
                     match campaignData with
                     | BodyJson o' =>
                         ret (mkCampaignReply 200
                                (CampaignResult addedCount groupId
                                   (Js.or_else (data_id o') Js.Null)))
                     | _ => throw TypeError
                     end
               | _ => throw TypeError
               end
           end
     end)
    (fun error => ret (mkCampaignReply 500 (CampaignCaught error))).

End CampaignEndpoint.

(** Two answers that differ at most in their status. *)
Definition same_but_status (r1 r2 : FetchResult) : Prop :=
  match r1, r2 with
  | NetworkFailure m1, NetworkFailure m2 => m1 = m2
  | Responded a, Responded b =>
      text a = text b /\ body a = body b /\ link a = link b
  | _, _ => False
  end.

(** Two services that differ at most in the status of their answers. *)
Definition same_service_but_status {W R : Type}
  (service1 service2 : W -> R -> FetchResult * W) : Prop :=
  forall s request,
    same_but_status (fst (service1 s request)) (fst (service2 s request))
    /\ snd (service1 s request) = snd (service2 s request).

(** Two runs agree when they end alike, with results related by [R], and
    leave the remote state the same. *)
Definition agree {W A : Type} (R : A -> A -> Prop)
  (r1 r2 : Outcome A * World W) : Prop :=
  match fst r1, fst r2 with
  | Ok a, Ok b => R a b
  | Throw e1, Throw e2 => e1 = e2
  | OutOfFuel, OutOfFuel => True
  | _, _ => False
  end
  /\ remote (snd r1) = remote (snd r2).

Definition same_body (a b : Response) : Prop := body a = body b.


(* ================================================================== *)
(** * Routes *)
(* ================================================================== *)

Inductive Method : Type := GET | POST.

(** The handlers of [server.js], in the order of their registration. *)
Inductive Handler : Type :=
| Health
| ShopifyCustomers
| AiAnalyze
| Glp1Plan            (* answers the meal plan as JSON *)
| ShopifyDiscounts
| MailerLiteCampaign
| Glp1PlanHtml        (* answers [{ planHtml }] *)
| ReactivationBatch.

Definition method_eqb (a b : Method) : bool :=
  match a, b with
  | GET, GET | POST, POST => true
  | _, _ => false
  end.

(** The [app.get] and [app.post] calls, top to bottom. *)
Definition routes : list (Method * string * Handler) :=
  [ (GET, "/api/health", Health);
    (GET, "/api/shopify/customers", ShopifyCustomers);
    (POST, "/api/ai/analyze", AiAnalyze);
    (POST, "/api/glp1/plan", Glp1Plan);
    (POST, "/api/shopify/discounts", ShopifyDiscounts);
    (POST, "/api/mailerlite/campaign", MailerLiteCampaign);
    (POST, "/api/glp1/plan", Glp1PlanHtml);
    (POST, "/api/reactivation/batch", ReactivationBatch) ].

(** The handler that answers a request: the first registered route whose
    method is the request's and whose path pattern matches; none of the
    handlers passes the request on.  [matches pattern path] is the path
    matching of the router. *)
Definition dispatch (matches : string -> string -> bool) (method : Method)
  (path : string) : option Handler :=
  match find (fun route =>
                method_eqb (fst (fst route)) method
                && matches (snd (fst route)) path) routes with
  | Some route => Some (snd route)
  | None => None
  end.

(* ================================================================== *)
(** * The dashboard *)
(* ================================================================== *)

(** A customer as the dashboard holds it: the properties of the parsed
    JSON the segment helpers read. *)
Module DashboardCustomer.
Record t : Type := mk {
  id : Js.value;
  totalOrders : Js.value;
  totalSpent : Js.value;
  averageOrderValue : Js.value;
  daysSinceLastOrder : Js.value
}.
End DashboardCustomer.

(** [v >= n], [v <= n] with a number on the right: the left operand is
    converted with [ToNumber]. *)
Definition ge_number (v : Js.value) (n : float) : bool :=
  Js.ge (Js.ToNumber v) n.

Definition le_number (v : Js.value) (n : float) : bool :=
  Js.le (Js.ToNumber v) n.

(** [a === b] on scalars. *)
Definition strict_equal (a b : Js.value) : bool :=
  match a, b with
  | Js.Undefined, Js.Undefined => true
  | Js.Null, Js.Null => true
  | Js.Bool x, Js.Bool y => Bool.eqb x y
  | Js.Num x, Js.Num y => (x =? y)%float
  | Js.Str x, Js.Str y => String.eqb x y
  | _, _ => false
  end.

(** [SameValueZero], the comparison of [Array.prototype.includes]. *)
Definition same_value_zero (a b : Js.value) : bool :=
  match a, b with
  | Js.Num x, Js.Num y => (is_nan x && is_nan y) || (x =? y)%float
  | _, _ => strict_equal a b
  end.

(** [array.includes(v)] *)
Definition includes (array : list Js.value) (v : Js.value) : bool :=
  existsb (fun x => same_value_zero x v) array.

(** The filters of [autoSelectForStrategy]. *)
Definition retention_filter (c : DashboardCustomer.t) : bool :=
  ge_number (DashboardCustomer.totalOrders c) 2
  && le_number (DashboardCustomer.daysSinceLastOrder c) 60
  && ge_number (DashboardCustomer.daysSinceLastOrder c) 0.

Definition reactivation_filter (c : DashboardCustomer.t) : bool :=
  Js.gt_number (DashboardCustomer.daysSinceLastOrder c) 60.

Definition upsell_filter (c : DashboardCustomer.t) : bool :=
  Js.gt_number (DashboardCustomer.totalSpent c) 100
  || Js.gt_number (DashboardCustomer.averageOrderValue c) 50.

Definition acquisition_filter (c : DashboardCustomer.t) : bool :=
  strict_equal (DashboardCustomer.totalOrders c) (Js.Num 0)
  || Js.gt_number (DashboardCustomer.daysSinceLastOrder c) 365.

(** [autoSelectForStrategy(strategyKey, allCustomers)]; [customers] is the
    state of the component, [allCustomers] is [None] when the argument is
    missing. *)
Definition autoSelectForStrategy (customers : list DashboardCustomer.t)
  (strategyKey : Js.value) (allCustomers : option (list DashboardCustomer.t))
  : list Js.value :=
  let list := match allCustomers with Some l => l | None => customers end in
  match list with
  | [] => []
  | _ =>
      if strict_equal strategyKey (Js.Str "retention") then
        map DashboardCustomer.id (filter retention_filter list)
      else if strict_equal strategyKey (Js.Str "reactivation") then
        map DashboardCustomer.id (filter reactivation_filter list)
      else if strict_equal strategyKey (Js.Str "upsell") then
        map DashboardCustomer.id (filter upsell_filter list)
      else if strict_equal strategyKey (Js.Str "acquisition") then
        map DashboardCustomer.id (filter acquisition_filter list)
      else []
  end.

(** The state update of [toggleCustomerSelection(customerId)]. *)
Definition toggleCustomerSelection (customerId : Js.value)
  (prev : list Js.value) : list Js.value :=
  if includes prev customerId
  then filter (fun id => negb (strict_equal id customerId)) prev
  else (prev ++ [customerId])%list.

(** A number as it arrives through [res.json] and [resp.json()]:
    [JSON.stringify] writes NaN and the infinities as [null]. *)
Definition json_number (n : float) : Js.value :=
  if is_finite n then Js.Num n else Js.Null.

(** A scalar through JSON; a property whose value is [undefined] is left
    out, and reads as [undefined]. *)
Definition json_scalar (v : Js.value) : Js.value :=
  match v with
  | Js.Num n => json_number n
  | _ => v
  end.

(** A customer of the customers endpoint as the dashboard receives it. *)
Definition received (c : Metrics.t) : DashboardCustomer.t :=
  {| DashboardCustomer.id := json_scalar (Metrics.id c);
     DashboardCustomer.totalOrders := json_number (Metrics.totalOrders c);
     DashboardCustomer.totalSpent := json_number (Metrics.totalSpent c);
     DashboardCustomer.averageOrderValue :=
       json_number (Metrics.averageOrderValue c);
     DashboardCustomer.daysSinceLastOrder :=
       json_number (Metrics.daysSinceLastOrder c) |}.

(** ** The campaign requests of the dashboards *)

(** A recommendation through [JSON.stringify] and the body parser of the
    server. *)
Definition json_recommendation (rec : Recommendation.t) : Recommendation.t :=
  {| Recommendation.customerId := json_scalar (Recommendation.customerId rec);
     Recommendation.email := json_scalar (Recommendation.email rec);
     Recommendation.discountPercent :=
       json_scalar (Recommendation.discountPercent rec);
     Recommendation.discountCode := json_scalar (Recommendation.discountCode rec);
     Recommendation.rationale := json_scalar (Recommendation.rationale rec);
     Recommendation.messagingAngle :=
       json_scalar (Recommendation.messagingAngle rec);
     Recommendation.expectedValue :=
       json_scalar (Recommendation.expectedValue rec) |}.

(** The body the dashboard of [dynamic-pricing-ai-frontend.jsx] posts to
    the campaign endpoint, from its state and the selected
    recommendations. *)
Definition createDiscountsAndCampaign_campaign_body (clock : Clock)
  (campaignName pricingStrategy : string)
  (selectedRecommendations : list Recommendation.t) : PostBody :=
  {| scalars :=
       [("campaignName",
         Js.or_else (Js.Str campaignName)
           (Js.Str ("Dynamic Pricing - " ++ pricingStrategy ++ " - "
                    ++ toLocaleDateString clock)));
        ("pricingStrategy", Js.Str pricingStrategy)];
     arrays := [("selectedRecommendations",
                 map json_recommendation selectedRecommendations)] |}.

(** The body the dashboard of [part_001] posts to the campaign endpoint. *)
Definition sendMailerLiteCampaign_campaign_body
  (campaignName pricingStrategy : string)
  (selectedRecommendations : list Recommendation.t) : PostBody :=
  {| scalars := [("campaignName", Js.Str campaignName);
                 ("pricingStrategy", Js.Str pricingStrategy)];
     arrays := [("recommendations",
                 map json_recommendation selectedRecommendations)] |}.


(* ================================================================== *)
(** * Vocabulary of the further properties *)
(* ================================================================== *)

(** ** The requests of a fetch *)

(** A response the fetcher accepts as a page: a 2xx status and a JSON object
    as body. *)
Definition page_ok (result : FetchResult) : bool :=
  match result with
  | Responded response =>
      ok response
      && match body response with BodyJson _ => true | _ => false end
  | NetworkFailure _ => false
  end.

(** What the fetcher throws on an answer it does not accept. *)
Definition failure_of (result : FetchResult) : option Error :=
  match result with
  | NetworkFailure message => Some (FetchError message)
  | Responded response =>
      if negb (ok response) then
        Some (ShopifyApiError (status response) (text response))
      else
        match body response with
        | BodyNotJson => Some JsonError
        | BodyNull => Some TypeError
        | BodyJson _ => None
        end
  end.

(** The exchanges of one run of the loop, from [accumulated] customers and
    the cursor [cursor]: each request asks for
    [min(250, limitTotal - accumulated)] customers at the current cursor,
    with [accumulated < limitTotal]; a request is followed by another one
    only after an accepted page whose Link header yields the next cursor. *)
Fixpoint session (limitTotal accumulated : Z) (cursor : option string)
  (xs : list (Request * FetchResult)) : Prop :=
  match xs with
  | [] => True
  | (request, result) :: rest =>
      accumulated < limitTotal
      /\ request = ShopifyGetCustomers
                     (Z.min 250 (limitTotal - accumulated)) cursor
      /\ match rest with
         | [] => True
         | _ :: _ =>
             page_ok result = true
             /\ exists response next,
                 result = Responded response
                 /\ parseLinkHeader (link response) cursor = (Some next, false)
                 /\ session limitTotal
                      (accumulated + Z.of_nat (List.length (page_of result)))
                      (Some next) rest
         end
  end.


(** The page size a request asks for. *)
Definition requested_limit (request : Request) : option Z :=
  match request with
  | ShopifyGetCustomers limit _ => Some limit
  | _ => None
  end.

(** An upstream that never finishes: every page is empty and names a next
    page. *)
Definition stalls {W : Type} (upstream : W -> Request -> FetchResult * W)
  : Prop :=
  forall w limit cursor,
  exists response w',
    upstream w (ShopifyGetCustomers limit cursor) = (Responded response, w')
    /\ page_ok (Responded response) = true
    /\ page_of (Responded response) = []
    /\ forall pageInfo,
        snd (parseLinkHeader (link response) pageInfo) = false.

(** ** The requests of the discount loop *)

(** The price rule request for a [code, percentage] entry. *)
Definition price_rule_request (entry : string * float) : Request :=
  ShopifyPostPriceRule (fst entry ++ " - AI Dynamic Pricing")
                       ("-" ++ Js.Number_toString (snd entry)).

Definition is_price_rule_request (request : Request) : bool :=
  match request with
  | ShopifyPostPriceRule _ _ => true
  | _ => false
  end.

(** The id of the price rule an answer grants: the answer is 2xx and its
    body is a JSON object with a [price_rule] object. *)
Definition granted (result : FetchResult) : option Js.value :=
  match result with
  | Responded response =>
      if ok response then
        match body response with
        | BodyJson o => price_rule_id o
        | _ => None
        end
      else None
  | NetworkFailure _ => None
  end.

(** An answer with a 2xx status. *)
Definition accepted (result : FetchResult) : bool :=
  match result with
  | Responded response => ok response
  | NetworkFailure _ => false
  end.

(** The exchanges of one pass of the discount loop, and whether the code
    was created: the price rule request alone when no rule is granted;
    otherwise the price rule request followed by the discount code request
    under the granted rule, the code being created when that second request
    is accepted. *)
Inductive attempt (entry : string * float)
  : list (Request * FetchResult) -> bool -> Prop :=
| rule_refused (r1 : FetchResult) :
    granted r1 = None ->
    attempt entry [(price_rule_request entry, r1)] false
| code_requested (r1 r2 : FetchResult) (id : Js.value) :
    granted r1 = Some id ->
    attempt entry
      [(price_rule_request entry, r1);
       (ShopifyPostDiscountCode id (fst entry), r2)]
      (accepted r2).

(** The entries whose pass created the code. *)
Definition made (entries : list (string * float))
  (passes : list (list (Request * FetchResult) * bool))
  : list (string * float) :=
  map fst (filter (fun p => snd (snd p)) (combine entries passes)).

Definition not_made (entries : list (string * float))
  (passes : list (list (Request * FetchResult) * bool))
  : list string :=
  map (fun p => fst (fst p))
    (filter (fun p => negb (snd (snd p))) (combine entries passes)).

(** The credentials test of the Shopify endpoints. *)
Definition shopify_configured (env : Env) : bool :=
  Js.truthy (SHOPIFY_API_KEY env) && Js.truthy (SHOPIFY_STORE env).

(** ** The requests of a batch *)

Definition is_customers_request (request : Request) : bool :=
  match request with
  | ShopifyGetCustomers _ _ => true
  | _ => false
  end.

Definition is_group_request (request : Request) : bool :=
  match request with
  | MailerLitePostGroup _ => true
  | _ => false
  end.

(** A request that creates something in the Shopify store. *)
Definition is_shopify_write (request : Request) : bool :=
  match request with
  | ShopifyPostPriceRule _ _ | ShopifyPostDiscountCode _ _ => true
  | _ => false
  end.

(** The [fetch] promise resolved, with whatever status. *)
Definition answered (x : Request * FetchResult) : bool :=
  match snd x with
  | Responded _ => true
  | NetworkFailure _ => false
  end.

(** The number of customers a batch asks the fetcher for. *)
Definition batchLimit (env : Env) (reqBody : BatchBody) : Z :=
  Z.min
    (match maxCustomers reqBody with
     | Some n => if n =? 0 then 7000 else n
     | None => 7000
     end)
    (match MAX_BATCH_CUSTOMERS env with
     | Some n => n
     | None => 10000
     end).

(** The exchanges of the MailerLite part of a batch: none, or the group
    request followed by subscriber requests only. *)
Definition mail_session (xs : list (Request * FetchResult)) : Prop :=
  match xs with
  | [] => True
  | (request, _) :: subscribers =>
      is_group_request request = true
      /\ Forall (fun x => is_subscriber_request (fst x) = true) subscribers
  end.

(* ================================================================== *)
(** * Further sample inputs *)
(* ================================================================== *)

(** An endpoint whose every page is empty and names a next page. *)
Definition stall_upstream (served : nat) (request : Request)
  : FetchResult * nat :=
  (respond_ok (json_customers []) (demo_link 1), S served).

(** A store that answers the first page and throttles every request that
    carries a cursor. *)
Definition throttling_upstream (served : nat) (request : Request)
  : FetchResult * nat :=
  match request with
  | ShopifyGetCustomers _ (Some _) =>
      (Responded {| ok := false; status := 429;
                    text := "Exceeded 2 calls per second for api client.";
                    body := BodyNotJson; link := None |}, S served)
  | _ => trickle_upstream served request
  end.

(** A spend of 150.00 and a timestamp that [Date.parse] does not
    understand. *)
Definition undated_customer : RawCustomer.t :=
  raw_customer (Js.Str "dan@example.com") (Js.Num 3) (Js.Str "150.00")
    (Js.Str "yesterday") Js.Undefined.

(** A MailerLite whose key has been revoked: every request is answered
    401. *)
Definition unauthorized_upstream (served : nat) (request : Request)
  : FetchResult * nat :=
  (Responded {| ok := false; status := 401; text := "Unauthenticated.";
                body := json_errors; link := None |}, S served).

Definition default_limits : Limits :=
  {| MAX_CUSTOMERS_ANALYZED_env := None; MAX_CUSTOMERS_FOR_AI_env := None |}.

Definition tight_limits : Limits :=
  {| MAX_CUSTOMERS_ANALYZED_env := Some 2; MAX_CUSTOMERS_FOR_AI_env := Some 1 |}.

Definition roomy_limits : Limits :=
  {| MAX_CUSTOMERS_ANALYZED_env := Some 520; MAX_CUSTOMERS_FOR_AI_env := None |}.

(** A campaign service that refuses every campaign with 422 and a JSON
    body of errors. *)
Definition demo_campaigns (served : nat) (request : CampaignRequest)
  : FetchResult * nat :=
  (Responded {| ok := false; status := 422; text := "";
                body := json_errors; link := None |}, S served).

(** A campaign service answering 201 with the id of the campaign, and the
    same service with every answer relabelled 500. *)
Definition accepting_campaigns (served : nat) (request : CampaignRequest)
  : FetchResult * nat :=
  (Responded {| ok := true; status := 201; text := "";
                body := json_created (Js.Str "campaign-1"); link := None |},
   S served).

Definition relabelled_campaigns (served : nat) (request : CampaignRequest)
  : FetchResult * nat :=
  (Responded {| ok := false; status := 500; text := "";
                body := json_created (Js.Str "campaign-1"); link := None |},
   S served).

(** Every answer of [demo_upstream] relabelled 500. *)
Definition failing_upstream (served : nat) (request : Request)
  : FetchResult * nat :=
  match demo_upstream served request with
  | (Responded response, served') =>
      (Responded {| ok := false; status := 500; text := text response;
                    body := body response; link := link response |}, served')
  | r => r
  end.

Definition campaign_selection : list Recommendation.t :=
  [coded (Js.Str "SAVE15") (Js.Num 15); coded (Js.Str "FREE") (Js.Num 0)].

Definition loyal_customer : DashboardCustomer.t :=
  {| DashboardCustomer.id := Js.Num 1;
     DashboardCustomer.totalOrders := Js.Num 4;
     DashboardCustomer.totalSpent := Js.Num 180;
     DashboardCustomer.averageOrderValue := Js.Num 45;
     DashboardCustomer.daysSinceLastOrder := Js.Num 12 |}.

Definition cold_customer : DashboardCustomer.t :=
  {| DashboardCustomer.id := Js.Num 2;
     DashboardCustomer.totalOrders := Js.Num 1;
     DashboardCustomer.totalSpent := Js.Num 30;
     DashboardCustomer.averageOrderValue := Js.Num 30;
     DashboardCustomer.daysSinceLastOrder := Js.Num 400 |}.

(* ================================================================== *)
(** * Facts about the runtime fragment *)
(* ================================================================== *)

Lemma le_zero_not_gt (x : float) : Js.le x 0 = true -> Js.gt x 0 = false.
Proof.
  unfold Js.le, Js.gt.
  rewrite leb_spec, ltb_spec. change (Prim2SF 0) with (S754_zero false).
  destruct (Prim2SF x) as [s|s| |s m e]; try destruct s;
    cbv [SFleb SFltb SFcompare]; congruence.
Qed.

Lemma gt_zero_nonzero (x : float) : Js.gt x 0 = true -> (x =? 0)%float = false.
Proof.
  unfold Js.gt.
  rewrite eqb_spec, ltb_spec. change (Prim2SF 0) with (S754_zero false).
  destruct (Prim2SF x) as [s|s| |s m e]; try destruct s;
    cbv [SFeqb SFltb SFcompare]; congruence.
Qed.

Lemma eq_zero_not_gt (x : float) : (x =? 0)%float = true -> Js.gt x 0 = false.
Proof.
  intros H. destruct (Js.gt x 0) eqn:E; [|reflexivity].
  apply gt_zero_nonzero in E. congruence.
Qed.

Lemma or_else_falsy (a b : Js.value) : Js.truthy a = false -> Js.or_else a b = b.
Proof. intros H. unfold Js.or_else. now rewrite H. Qed.

Lemma or_else_truthy (a b : Js.value) : Js.truthy a = true -> Js.or_else a b = a.
Proof. intros H. unfold Js.or_else. now rewrite H. Qed.

Lemma day_in_milliseconds : (1000 * 60 * 60 * 24)%float = 86400000%float.
Proof. reflexivity. Qed.

Lemma In_firstn {A} (n : nat) (l : list A) (x : A) :
  In x (firstn n l) -> In x l.
Proof.
  revert l. induction n as [|n IH]; intros [|a l]; cbn [firstn In]; try tauto.
  intros [H|H]; [now left|right; now apply IH].
Qed.

Lemma slice0_firstn {A} (n : Z) (l : list A) :
  0 <= n -> slice0 n l = firstn (Z.to_nat n) l.
Proof.
  intros Hn. unfold slice0.
  destruct (Z.ltb_spec n 0) as [Hneg|_]; [lia|reflexivity].
Qed.

Lemma slice0_length {A} (n : Z) (l : list A) :
  0 <= n ->
  Z.of_nat (List.length (slice0 n l)) = Z.min n (Z.of_nat (List.length l)).
Proof.
  intros Hn. unfold slice0.
  destruct (n <? 0) eqn:E; [lia|].
  rewrite length_firstn. lia.
Qed.

(* ================================================================== *)
(** * The tier rule matcher *)
(* ================================================================== *)

(** One iteration of the loop, in the vocabulary of the specification. *)
Lemma matchTiers_step (customer : Metrics.t) (tier : Tier.t) (rest : list Tier.t) :
  matchTiers customer (tier :: rest) =
  if tier_applies customer tier then Some (tier_recommendation customer tier)
  else matchTiers customer rest.
Proof.
  unfold tier_applies, within, tier_recommendation, build_recommendation,
    rule_match_rationale, synthesized_code, tier_percent, bound_or.
  cbn [matchTiers].
  destruct (Tier.expectedValue tier); reflexivity.
Qed.

Lemma matchTiers_none (customer : Metrics.t) (tiers : list Tier.t) :
  (forall t, In t tiers -> tier_applies customer t = false) ->
  matchTiers customer tiers = None.
Proof.
  induction tiers as [|tier rest IH]; intros Hnone; [reflexivity|].
  rewrite matchTiers_step, (Hnone tier (or_introl eq_refl)).
  apply IH. intros t Ht. apply Hnone. now right.
Qed.

Lemma matchTiers_first (customer : Metrics.t) (before after : list Tier.t)
  (tier : Tier.t) :
  (forall t, In t before -> tier_applies customer t = false) ->
  tier_applies customer tier = true ->
  matchTiers customer (before ++ tier :: after)
  = Some (tier_recommendation customer tier).
Proof.
  induction before as [|b before IH]; intros Hbefore Htier.
  - cbn [app]. now rewrite matchTiers_step, Htier.
  - cbn [app]. rewrite matchTiers_step, (Hbefore b (or_introl eq_refl)).
    apply IH; [|exact Htier]. intros t Ht. apply Hbefore. now right.
Qed.


Lemma applyRuleConfigToCustomer_cases (customer : Metrics.t)
  (ruleConfig : option RuleConfig.t) :
  applyRuleConfigToCustomer customer ruleConfig =
  match matchTiers customer (tiers_of ruleConfig) with
  | Some rec => Some rec
  | None =>
      match default_of ruleConfig with
      | Some defaultTier => Some (default_recommendation customer defaultTier)
      | None => None
      end
  end.
Proof.
  unfold applyRuleConfigToCustomer, tiers_of, default_of, default_recommendation,
    build_recommendation, synthesized_code, tier_percent.
  destruct (matchTiers customer _); [reflexivity|].
  destruct ruleConfig as [cfg|]; [|reflexivity].
  destruct (RuleConfig.default cfg) as [d|]; [|reflexivity].
  destruct (Tier.expectedValue d); reflexivity.
Qed.



(** Claim C1.  The matcher walks [config.tiers] in list order and returns
    the recommendation built from the first tier whose spend and day bounds
    both hold, the bounds being inclusive and an unset bound standing for 0
    (lower) or +infinity (upper).  In particular, with the overlapping tiers
    spend [0,100] at 10% and spend [50,150] at 20%, a customer who spent 75
    and satisfies the day bounds of both tiers matches both tiers and is
    given 10%. *)
Theorem tier_matcher_first_match_wins :
  (forall customer ruleConfig before tier after,
      tiers_of ruleConfig = (before ++ tier :: after)%list ->
      (forall t, In t before -> tier_applies customer t = false) ->
      tier_applies customer tier = true ->
      applyRuleConfigToCustomer customer ruleConfig
      = Some (tier_recommendation customer tier))
  /\ (forall customer tier,
      tier_applies customer tier
      = (((bound_or 0 (Tier.minTotalSpent tier) <=? Metrics.totalSpent customer)
          && (Metrics.totalSpent customer <=? bound_or infinity (Tier.maxTotalSpent tier)))
         && ((bound_or 0 (Tier.minDaysSinceLastOrder tier)
              <=? Metrics.daysSinceLastOrder customer)
             && (Metrics.daysSinceLastOrder customer
                 <=? bound_or infinity (Tier.maxDaysSinceLastOrder tier))))%float)
  /\ (forall default, bound_or default Js.Undefined = default)
  /\ (forall customer base1 base2 default,
      Metrics.totalSpent customer = 75%float ->
      days_within customer base1 = true ->
      days_within customer base2 = true ->
      tier_applies customer (spend_tier 0 100 10 base1) = true
      /\ tier_applies customer (spend_tier 50 150 20 base2) = true
      /\ exists rec,
          applyRuleConfigToCustomer customer
            (Some {| RuleConfig.tiers := Some (overlapping_tiers base1 base2);
                     RuleConfig.default := default |}) = Some rec
          /\ Recommendation.discountPercent rec = Js.Num 10).
Proof.
  split; [|split; [|split]].
  - intros customer ruleConfig before tier after Htiers Hbefore Htier.
    rewrite applyRuleConfigToCustomer_cases, Htiers.
    now rewrite (matchTiers_first customer before after tier Hbefore Htier).
  - reflexivity.
  - reflexivity.
  - intros customer base1 base2 default Hspent H1 H2.
    assert (A1 : tier_applies customer (spend_tier 0 100 10 base1) = true).
    { unfold tier_applies. cbn [spend_tier Tier.minTotalSpent Tier.maxTotalSpent
        Tier.minDaysSinceLastOrder Tier.maxDaysSinceLastOrder bound_or].
      rewrite Hspent. unfold days_within in H1. rewrite H1. reflexivity. }
    assert (A2 : tier_applies customer (spend_tier 50 150 20 base2) = true).
    { unfold tier_applies. cbn [spend_tier Tier.minTotalSpent Tier.maxTotalSpent
        Tier.minDaysSinceLastOrder Tier.maxDaysSinceLastOrder bound_or].
      rewrite Hspent. unfold days_within in H2. rewrite H2. reflexivity. }
    split; [exact A1|]. split; [exact A2|].
    exists (tier_recommendation customer (spend_tier 0 100 10 base1)).
    split; [|reflexivity].
    rewrite applyRuleConfigToCustomer_cases.
    unfold tiers_of, overlapping_tiers. cbn [RuleConfig.tiers].
    now rewrite matchTiers_step, A1.
Qed.

(** The overlapping tiers on a customer who spent 75 and was last seen 70
    days ago: both tiers apply, the first one is used. *)
Lemma tier_matcher_first_match_wins_witness :
  applyRuleConfigToCustomer sample_metrics
    (Some {| RuleConfig.tiers := Some (overlapping_tiers Tier.empty Tier.empty);
             RuleConfig.default := None |})
  = Some (tier_recommendation sample_metrics (spend_tier 0 100 10 Tier.empty))
  /\ tier_applies sample_metrics (spend_tier 50 150 20 Tier.empty) = true
  /\ exists rec,
       applyRuleConfigToCustomer sample_metrics
         (Some {| RuleConfig.tiers := Some (overlapping_tiers Tier.empty Tier.empty);
                  RuleConfig.default := None |}) = Some rec
       /\ Recommendation.discountPercent rec = Js.Num 10.
Proof.
  split.
  - apply (proj1 tier_matcher_first_match_wins sample_metrics _ []
             (spend_tier 0 100 10 Tier.empty) [spend_tier 50 150 20 Tier.empty]).
    + reflexivity.
    + intros t [].
    + vm_compute. reflexivity.
  - apply (proj2 (proj2 (proj2 tier_matcher_first_match_wins))
             sample_metrics Tier.empty Tier.empty None).
    + reflexivity.
    + vm_compute. reflexivity.
    + vm_compute. reflexivity.
Defined.

(** Claim C5.  When no tier of [config.tiers] applies to the customer, the
    matcher returns the recommendation built from [config.default] by the
    same construction as for a matching tier (only the generic rationale
    and messaging texts are the default rule's own), without testing any
    bound; when there is no default either, it returns null. *)
Theorem default_tier_when_no_tier_matches :
  forall customer ruleConfig,
    (forall t, In t (tiers_of ruleConfig) -> tier_applies customer t = false) ->
    applyRuleConfigToCustomer customer ruleConfig
    = match default_of ruleConfig with
      | Some defaultTier =>
          Some (build_recommendation "Default rule applied."
                  "We appreciate you and wanted to send you a special offer."
                  customer defaultTier)
      | None => None
      end.
Proof.
  intros customer ruleConfig Hnone.
  rewrite applyRuleConfigToCustomer_cases, (matchTiers_none _ _ Hnone).
  reflexivity.
Qed.

(** A customer who spent 75 against a single tier for spend [200, 500]:
    the default is used when there is one, null is returned otherwise. *)
Lemma default_tier_when_no_tier_matches_witness :
  applyRuleConfigToCustomer sample_metrics (Some high_spend_config)
  = Some (default_recommendation sample_metrics (prefix_tier Js.Undefined 20))
  /\ applyRuleConfigToCustomer sample_metrics
       (Some {| RuleConfig.tiers := RuleConfig.tiers high_spend_config;
                RuleConfig.default := None |}) = None.
Proof.
  split.
  - apply (default_tier_when_no_tier_matches sample_metrics (Some high_spend_config)).
    intros t [<-|[]]. vm_compute. reflexivity.
  - apply (default_tier_when_no_tier_matches sample_metrics
             (Some {| RuleConfig.tiers := RuleConfig.tiers high_spend_config;
                      RuleConfig.default := None |})).
    intros t [<-|[]]. vm_compute. reflexivity.
Defined.






(* ================================================================== *)
(** * The metrics reducer *)
(* ================================================================== *)

(** Claim C9.  In the metrics object computed for any raw customer,
    [averageOrderValue] is [totalSpent / totalOrders] when
    [totalOrders > 0] and 0 otherwise, in particular when [totalOrders] is
    zero; the division is evaluated only under the test [totalOrders > 0],
    under which the divisor is not zero. *)
Theorem averageOrderValue_guarded :
  forall clock customer,
    (Js.gt (Metrics.totalOrders (customerMetrics clock customer)) 0 = true ->
       Metrics.averageOrderValue (customerMetrics clock customer)
       = (Metrics.totalSpent (customerMetrics clock customer)
          / Metrics.totalOrders (customerMetrics clock customer))%float
       /\ (Metrics.totalOrders (customerMetrics clock customer) =? 0)%float = false)
    /\ ((Metrics.totalOrders (customerMetrics clock customer) =? 0)%float = true ->
        Metrics.averageOrderValue (customerMetrics clock customer) = 0%float)
    /\ (Js.gt (Metrics.totalOrders (customerMetrics clock customer)) 0 = false ->
        Metrics.averageOrderValue (customerMetrics clock customer) = 0%float).
Proof.
  intros clock customer.
  cbn [customerMetrics Metrics.totalOrders Metrics.averageOrderValue
       Metrics.totalSpent].
  set (totalOrders := Js.ToNumber _).
  split; [|split].
  - intros H. rewrite H. split; [reflexivity|]. now apply gt_zero_nonzero.
  - intros H. now rewrite (eq_zero_not_gt _ H).
  - intros H. now rewrite H.
Qed.

(** 150.00 over three orders is 50; no orders gives 0. *)
Lemma averageOrderValue_guarded_witness :
  Metrics.averageOrderValue (customerMetrics sample_clock lapsed_customer) = 50%float
  /\ Metrics.averageOrderValue (customerMetrics sample_clock bare_customer) = 0%float.
Proof.
  split.
  - destruct (proj1 (averageOrderValue_guarded sample_clock lapsed_customer)) as [H _].
    + vm_compute. reflexivity.
    + rewrite H. vm_compute. reflexivity.
  - apply (proj1 (proj2 (averageOrderValue_guarded sample_clock bare_customer))).
    vm_compute. reflexivity.
Defined.

(** Claim C3, where it fails: the spend string "abc" is present and
    unparseable, and the reducer's [totalSpent] for it is not 0.00 (it is
    NaN). *)
Lemma unparseable_spend_is_not_zero :
  RawCustomer.total_spent garbled_spend_customer = Js.Str "abc"
  /\ Metrics.totalSpent (customerMetrics sample_clock garbled_spend_customer)
     <> 0%float.
Proof.
  split; [reflexivity|].
  intros H. apply (f_equal is_nan) in H. vm_compute in H. discriminate H.
Qed.

(** Claim C3, amended.  The reducer is a total function of the raw record
    and of the clock: it has a result for every record, which carries the
    record's [id] and [email], and the result depends on the clock through
    [Date.now()] and [Date.parse] only, so that it is a pure function of
    the record for a fixed reading of the clock.  A missing (or otherwise
    falsy) order count gives [totalOrders = 0]; a missing (or otherwise
    falsy) spend gives [totalSpent = 0.00]; a present spend string that,
    leading white space apart, does not start with a decimal literal gives
    [totalSpent = NaN], and one that does gives the value of that literal;
    a record with neither [updated_at] nor [created_at] gives
    [daysSinceLastOrder = 999]; otherwise [daysSinceLastOrder] is the floor
    of (now - timestamp) / 86400000 ms for the timestamp
    [updated_at || created_at], which is not clamped: it is negative (here
    -2) for a timestamp in the future. *)
Theorem metrics_reducer_rules :
  forall clock customer,
    (exists metrics,
        customerMetrics clock customer = metrics
        /\ Metrics.id metrics = RawCustomer.id customer
        /\ Metrics.email metrics = RawCustomer.email customer)
    /\ (forall clock',
          Date_now clock' = Date_now clock ->
          (forall s, Date_parse clock' s = Date_parse clock s) ->
          customerMetrics clock' customer = customerMetrics clock customer)
    /\ (Js.truthy (RawCustomer.orders_count customer) = false ->
        Metrics.totalOrders (customerMetrics clock customer) = 0%float)
    /\ (Js.truthy (RawCustomer.total_spent customer) = false ->
        Metrics.totalSpent (customerMetrics clock customer) = 0%float)
    /\ (forall s, RawCustomer.total_spent customer = Js.Str s ->
                  s <> "" -> unparseable s ->
        Metrics.totalSpent (customerMetrics clock customer) = nan)
    /\ (forall s value rest,
          RawCustomer.total_spent customer = Js.Str s ->
          s <> "" ->
          Js.signed_literal (Js.trim_start s) = Some (value, rest) ->
          Metrics.totalSpent (customerMetrics clock customer) = value)
    /\ (Js.truthy (RawCustomer.updated_at customer) = false ->
        Js.truthy (RawCustomer.created_at customer) = false ->
        Metrics.daysSinceLastOrder (customerMetrics clock customer) = 999%float)
    /\ (Js.truthy (last_activity customer) = true ->
        Metrics.daysSinceLastOrder (customerMetrics clock customer)
        = Js.Math_floor
            ((Date_now clock - Date_new clock (last_activity customer))
             / 86400000)%float)
    /\ Metrics.daysSinceLastOrder (customerMetrics sample_clock future_customer)
       = (-2)%float.
Proof.
  intros clock customer.
  split; [|split].
  - eexists. split; [reflexivity|]. split; reflexivity.
  - intros clock' Hnow Hparse.
    assert (Hdate : forall v, Date_new clock' v = Date_new clock v).
    { intros v. destruct v; cbn [Date_new]; try reflexivity. now rewrite Hparse. }
    unfold customerMetrics. now rewrite Hnow, Hdate.
  - cbn [customerMetrics Metrics.totalOrders Metrics.totalSpent
         Metrics.daysSinceLastOrder].
    fold (last_activity customer).
    split; [|split; [|split; [|split; [|split; [|split]]]]].
    + intros H. now rewrite (or_else_falsy _ _ H).
    + intros H. rewrite (or_else_falsy _ _ H). vm_compute. reflexivity.
    + intros s Hs Hne Hun. rewrite Hs.
      rewrite or_else_truthy by (destruct s; [congruence|reflexivity]).
      unfold Js.parseFloat, Js.parseFloat_string. cbn [Js.ToString].
      unfold unparseable in Hun. now rewrite Hun.
    + intros s value rest Hs Hne Hlit. rewrite Hs.
      rewrite or_else_truthy by (destruct s; [congruence|reflexivity]).
      unfold Js.parseFloat, Js.parseFloat_string. cbn [Js.ToString].
      now rewrite Hlit.
    + intros Hu Hc. unfold last_activity.
      now rewrite (or_else_falsy _ _ Hu), Hc.
    + intros H. rewrite H. now rewrite day_in_milliseconds.
    + vm_compute. reflexivity.
Qed.

(** The rules on the sample customers; the spend of the padded customer
    starts with a no-break space. *)
Lemma metrics_reducer_rules_witness :
  Metrics.totalOrders (customerMetrics sample_clock bare_customer) = 0%float
  /\ Metrics.totalSpent (customerMetrics sample_clock bare_customer) = 0%float
  /\ Metrics.totalSpent (customerMetrics sample_clock garbled_spend_customer) = nan
  /\ Metrics.totalSpent (customerMetrics sample_clock padded_spend_customer)
     = 42.5%float
  /\ Metrics.daysSinceLastOrder (customerMetrics sample_clock bare_customer)
     = 999%float
  /\ Metrics.daysSinceLastOrder (customerMetrics sample_clock lapsed_customer)
     = 70%float
  /\ customerMetrics later_clock lapsed_customer
     = customerMetrics sample_clock lapsed_customer.
Proof.
  destruct (metrics_reducer_rules sample_clock bare_customer)
    as (_ & _ & H1 & H2 & _ & _ & H4 & _).
  destruct (metrics_reducer_rules sample_clock garbled_spend_customer)
    as (_ & _ & _ & _ & H3 & _).
  destruct (metrics_reducer_rules sample_clock padded_spend_customer)
    as (_ & _ & _ & _ & _ & H3' & _).
  destruct (metrics_reducer_rules sample_clock lapsed_customer)
    as (_ & Hpure & _ & _ & _ & _ & _ & H5 & _).
  split; [apply H1; reflexivity|].
  split; [apply H2; reflexivity|].
  split; [apply (H3 "abc"); [reflexivity|discriminate|reflexivity]|].
  split; [apply (H3' (String "194"%char (String "160"%char "42.50 USD"))
                    42.5%float " USD");
          [reflexivity|discriminate|vm_compute; reflexivity]|].
  split; [apply H4; reflexivity|].
  split; [rewrite H5 by reflexivity; vm_compute; reflexivity|].
  apply Hpure; [reflexivity|intros s; reflexivity].
Defined.

(* ================================================================== *)
(** * Reading Shopify's Link header *)
(* ================================================================== *)

Lemma all_chars_app (p : ascii -> bool) (a b : string) :
  all_chars p (a ++ b) = all_chars p a && all_chars p b.
Proof.
  induction a as [|c a IH]; cbn [append all_chars]; [reflexivity|].
  now rewrite IH, andb_assoc.
Qed.

Lemma all_chars_weaken (p q : ascii -> bool) (s : string) :
  (forall c, p c = true -> q c = true) ->
  all_chars p s = true -> all_chars q s = true.
Proof.
  intros Hpq. induction s as [|c s IH]; cbn [all_chars]; [reflexivity|].
  intros H. apply andb_true_iff in H. destruct H as [Hc Hs].
  now rewrite (Hpq _ Hc), IH.
Qed.

Lemma split_plain (sep : ascii) (a : string) :
  all_chars (other_than sep) a = true -> Js.split sep a = [a].
Proof.
  induction a as [|c a IH]; cbn [all_chars Js.split]; [reflexivity|].
  intros H. apply andb_true_iff in H. destruct H as [Hc Ha].
  apply negb_true_iff in Hc. now rewrite Hc, IH.
Qed.

Lemma split_app (sep : ascii) (a b : string) :
  all_chars (other_than sep) a = true ->
  Js.split sep (a ++ String sep b) = a :: Js.split sep b.
Proof.
  induction a as [|c a IH]; cbn [append all_chars Js.split].
  - now rewrite Ascii.eqb_refl.
  - intros H. apply andb_true_iff in H. destruct H as [Hc Ha].
    apply negb_true_iff in Hc. now rewrite Hc, IH.
Qed.

Ltac settle_chars :=
  repeat match goal with
    | |- context [Ascii.eqb ?a ?c] =>
        is_var c;
        let E := fresh "E" in
        destruct (Ascii.eqb a c) eqn:E;
        [apply Ascii.eqb_eq in E; subst c | reflexivity]
    end.

Lemma starts_with_rel_next_previous (x : string) :
  all_chars (other_than "034"%char) x = true ->
  Js.starts_with rel_next (x ++ previous_mark) = false.
Proof.
  intros H.
  destruct x as [|c1 [|c2 [|c3 [|c4 [|c5 x]]]]];
    cbn -[Ascii.eqb]; settle_chars; try reflexivity.
  cbn in H. discriminate H.
Qed.

Lemma includes_rel_next_previous (x : string) :
  all_chars (other_than "034"%char) x = true ->
  Js.includes rel_next (x ++ previous_mark) = false.
Proof.
  induction x as [|c x IH]; intros H.
  - reflexivity.
  - change (Js.includes rel_next (String c x ++ previous_mark))
      with (Js.starts_with rel_next (String c x ++ previous_mark)
            || Js.includes rel_next (x ++ previous_mark)).
    rewrite (starts_with_rel_next_previous _ H).
    cbn [all_chars] in H. apply andb_true_iff in H. now rewrite IH.
Qed.

Lemma includes_suffix (p x : string) :
  Js.starts_with p p = true -> Js.includes p (x ++ p) = true.
Proof.
  intros Hp. induction x as [|c x IH].
  - cbn [append]. destruct p; cbn [Js.includes]; now rewrite Hp.
  - cbn [append Js.includes]. rewrite IH. apply orb_true_r.
Qed.

Lemma starts_with_page_info_later (c : ascii) (pre tail : string) :
  all_chars (other_than "_"%char) (String c pre) = true ->
  Js.starts_with "page_info=" (String c pre ++ "page_info=" ++ tail) = false.
Proof.
  intros H.
  destruct pre as [|c2 [|c3 [|c4 [|c5 pre]]]];
    cbn -[Ascii.eqb]; settle_chars; try reflexivity.
  cbn in H. discriminate H.
Qed.

Lemma span_token (p : ascii -> bool) (a b : string) :
  all_chars p a = true -> stops p b = true -> Js.span p (a ++ b) = (a, b).
Proof.
  intros Ha Hb. induction a as [|c a IH].
  - cbn [append]. destruct b as [|d b]; [reflexivity|].
    cbn [stops] in Hb. apply negb_true_iff in Hb. cbn [Js.span]. now rewrite Hb.
  - cbn [all_chars] in Ha. apply andb_true_iff in Ha. destruct Ha as [Hc Ha].
    cbn [append Js.span]. now rewrite Hc, (IH Ha).
Qed.

Lemma match_page_info_eq (s : string) :
  match_page_info s
  = match (if Js.starts_with "page_info=" s then
             let (cursor, _) := Js.span is_cursor_char (Js.drop_chars 10 s) in
             if Js.is_empty cursor then None else Some cursor
           else None) with
    | Some cursor => Some cursor
    | None =>
        match s with
        | EmptyString => None
        | String _ r => match_page_info r
        end
    end.
Proof. destruct s; reflexivity. Qed.

Lemma match_page_info_entry (pre cursor rest : string) :
  all_chars (other_than "_"%char) pre = true ->
  cursor_token cursor = true ->
  match_page_info (pre ++ "page_info=" ++ cursor ++ String ">"%char rest)
  = Some cursor.
Proof.
  intros Hpre Hcur. unfold cursor_token in Hcur.
  apply andb_true_iff in Hcur. destruct Hcur as [Hne Hall].
  induction pre as [|c pre IH].
  - rewrite match_page_info_eq.
    change (Js.starts_with "page_info=" ("" ++ "page_info=" ++ cursor ++ String ">"%char rest))
      with true.
    change (Js.drop_chars 10 ("" ++ "page_info=" ++ cursor ++ String ">"%char rest))
      with (cursor ++ String ">"%char rest).
    rewrite span_token.
    + destruct cursor; [discriminate Hne|reflexivity].
    + apply (all_chars_weaken is_token_char); [|exact Hall].
      intros ch. unfold is_token_char, is_cursor_char.
      destruct (Ascii.eqb ch "&"), (Ascii.eqb ch ">"); cbn; congruence.
    + reflexivity.
  - rewrite match_page_info_eq.
    rewrite (starts_with_page_info_later _ _ _ Hpre).
    cbn [all_chars] in Hpre. apply andb_true_iff in Hpre.
    cbn [append]. now apply IH.
Qed.

Lemma append_assoc (a b c : string) : (a ++ b) ++ c = a ++ b ++ c.
Proof.
  induction a as [|x a IH]; cbn [append]; [reflexivity|now rewrite IH].
Qed.

Lemma is_url_char_spec (c : ascii) :
  is_url_char c = true ->
  other_than ","%char c = true /\ other_than "034"%char c = true
  /\ other_than "_"%char c = true.
Proof.
  unfold is_url_char, other_than.
  destruct (Ascii.eqb c ","), (Ascii.eqb c "034"), (Ascii.eqb c "_"); cbn;
    intuition congruence.
Qed.

Lemma is_token_char_spec (c : ascii) :
  is_token_char c = true ->
  other_than ","%char c = true /\ other_than "034"%char c = true.
Proof.
  unfold is_token_char, other_than.
  destruct (Ascii.eqb c "&"), (Ascii.eqb c ">"), (Ascii.eqb c ","),
    (Ascii.eqb c "034"); cbn; intuition congruence.
Qed.

Lemma cursor_token_chars (cursor : string) :
  cursor_token cursor = true -> all_chars is_token_char cursor = true.
Proof.
  unfold cursor_token. intros H. now apply andb_true_iff in H.
Qed.

Lemma link_entry_previous (url cursor : string) :
  link_entry url cursor "previous" = entry_target url cursor ++ previous_mark.
Proof.
  unfold link_entry, entry_target, previous_mark.
  now rewrite !append_assoc.
Qed.

Lemma link_entry_next (url cursor : string) :
  link_entry url cursor "next" = (entry_target url cursor ++ ">; ") ++ rel_next.
Proof.
  unfold link_entry, entry_target, rel_next.
  now rewrite !append_assoc.
Qed.

Lemma entry_target_chars (p : ascii -> bool) (url cursor : string) :
  p "<"%char = true -> all_chars p "page_info=" = true ->
  all_chars p url = true -> all_chars p cursor = true ->
  all_chars p (entry_target url cursor) = true.
Proof.
  intros H1 H2 Hu Hc. unfold entry_target.
  rewrite !all_chars_app, Hu, H2, Hc. cbn [all_chars]. now rewrite H1.
Qed.

Lemma link_entry_commas (url cursor rel : string) :
  plain_url url = true -> cursor_token cursor = true ->
  all_chars (other_than ","%char) rel = true ->
  all_chars (other_than ","%char) (link_entry url cursor rel) = true.
Proof.
  intros Hu Hc Hr. unfold link_entry.
  rewrite !all_chars_app, Hr.
  rewrite (all_chars_weaken is_url_char (other_than ","%char) url);
    [|intros c H; apply (is_url_char_spec c H)|exact Hu].
  rewrite (all_chars_weaken is_token_char (other_than ","%char) cursor);
    [|intros c H; apply (is_token_char_spec c H)|now apply cursor_token_chars].
  reflexivity.
Qed.

Lemma previous_entry_is_not_next (url cursor : string) :
  plain_url url = true -> cursor_token cursor = true ->
  Js.includes rel_next (link_entry url cursor "previous") = false.
Proof.
  intros Hu Hc. rewrite link_entry_previous.
  apply includes_rel_next_previous, entry_target_chars; try reflexivity.
  - apply (all_chars_weaken is_url_char); [|exact Hu].
    intros c H. apply (is_url_char_spec c H).
  - apply (all_chars_weaken is_token_char); [|now apply cursor_token_chars].
    intros c H. apply (is_token_char_spec c H).
Qed.

Lemma next_entry_is_next (lead url cursor : string) :
  Js.includes rel_next (lead ++ link_entry url cursor "next") = true.
Proof.
  rewrite link_entry_next, <- append_assoc.
  now apply includes_suffix.
Qed.

Lemma next_entry_cursor (lead url cursor : string) :
  all_chars (other_than "_"%char) lead = true ->
  plain_url url = true -> cursor_token cursor = true ->
  match_page_info (lead ++ link_entry url cursor "next") = Some cursor.
Proof.
  intros Hl Hu Hc.
  replace (lead ++ link_entry url cursor "next")
    with ((lead ++ "<" ++ url) ++ "page_info=" ++ cursor
          ++ String ">"%char ("; rel=" ++ Js.dquote ++ "next" ++ Js.dquote)).
  - apply match_page_info_entry; [|exact Hc].
    rewrite all_chars_app, Hl. cbn [append all_chars andb].
    change (other_than "_" "<") with true. cbn [andb].
    apply (all_chars_weaken is_url_char); [|exact Hu].
    intros c H. apply (is_url_char_spec c H).
  - unfold link_entry. rewrite !append_assoc. reflexivity.
Qed.

(** The parser reads a header of Shopify's format in full: the cursor of
    its next entry when it has one, and the end of the pages otherwise. *)
Lemma parseLinkHeader_shopify_link (url : string) (previous next pageInfo : option string) :
  plain_url url = true ->
  optional_token previous = true ->
  optional_token next = true ->
  parseLinkHeader (shopify_link url previous next) pageInfo
  = match next with
    | Some cursor => (Some cursor, false)
    | None => (pageInfo, true)
    end.
Proof.
  intros Hu Hp Hn. unfold parseLinkHeader.
  destruct previous as [p|], next as [n|]; cbn [optional_token] in Hp, Hn;
    cbn [shopify_link truthy_string].
  - replace (Js.is_empty (link_entry url p "previous" ++ ", " ++ link_entry url n "next"))
      with false by (unfold link_entry; reflexivity).
    cbn [negb].
    change (link_entry url p "previous" ++ ", " ++ link_entry url n "next")
      with (link_entry url p "previous"
            ++ String ","%char (" " ++ link_entry url n "next")).
    rewrite split_app by (now apply link_entry_commas).
    rewrite split_plain.
    + cbn [find]. rewrite (previous_entry_is_not_next _ _ Hu Hp).
      rewrite next_entry_is_next. cbn [truthy_string].
      replace (Js.is_empty (" " ++ link_entry url n "next")) with false by reflexivity.
      cbn [negb]. rewrite (next_entry_cursor " " url n eq_refl Hu Hn).
      cbn [truthy_string]. unfold cursor_token in Hn.
      apply andb_true_iff in Hn. destruct Hn as [Hn _]. now rewrite Hn.
    + cbn [append all_chars]. change (other_than "," " ") with true.
      cbn [andb]. now apply link_entry_commas.
  - replace (Js.is_empty (link_entry url p "previous"))
      with false by (unfold link_entry; reflexivity).
    cbn [negb]. rewrite split_plain by (now apply link_entry_commas).
    cbn [find]. rewrite (previous_entry_is_not_next _ _ Hu Hp). reflexivity.
  - replace (Js.is_empty (link_entry url n "next"))
      with false by (unfold link_entry; reflexivity).
    cbn [negb]. rewrite split_plain by (now apply link_entry_commas).
    cbn [find].
    pose proof (next_entry_is_next "" url n) as Hnext.
    pose proof (next_entry_cursor "" url n eq_refl Hu Hn) as Hcursor.
    change ("" ++ link_entry url n "next") with (link_entry url n "next")
      in Hnext, Hcursor.
    rewrite Hnext. cbn [truthy_string].
    replace (Js.is_empty (link_entry url n "next"))
      with false by (unfold link_entry; reflexivity).
    cbn [negb]. rewrite Hcursor.
    cbn [truthy_string]. unfold cursor_token in Hn.
    apply andb_true_iff in Hn. destruct Hn as [Hn _]. now rewrite Hn.
  - reflexivity.
Qed.

Lemma position_cursor_effective (cursor : nat -> string) (k : nat) :
  (forall k, cursor_token (cursor (S k)) = true) ->
  effective_cursor (position_cursor cursor k) = position_cursor cursor k.
Proof.
  intros Htok. destruct k as [|k]; [reflexivity|].
  unfold effective_cursor. cbn [position_cursor truthy_string].
  specialize (Htok k). unfold cursor_token in Htok.
  apply andb_true_iff in Htok. destruct Htok as [Hne _]. now rewrite Hne.
Qed.

(* ================================================================== *)
(** * The pagination fetcher *)
(* ================================================================== *)

Section FetcherFacts.

Context {W : Type}.
Variable upstream : W -> Request -> FetchResult * W.

Lemma fetchLoop_exit (fuel : nat) (limitTotal : Z)
  (allCustomers : list RawCustomer.t) (pageInfo : option string) (done : bool)
  (w : World W) :
  negb done && (Z.of_nat (List.length allCustomers) <? limitTotal) = false ->
  fetchLoop upstream fuel limitTotal allCustomers pageInfo done w
  = (Ok (slice0 limitTotal allCustomers), w).
Proof.
  intros H. destruct fuel; cbn [fetchLoop]; rewrite H; reflexivity.
Qed.

Lemma fetchLoop_exchanges (fuel : nat) (limitTotal : Z) :
  forall allCustomers pageInfo done w l w',
    fetchLoop upstream fuel limitTotal allCustomers pageInfo done w = (Ok l, w') ->
    exists new,
      exchanges w' = (exchanges w ++ new)%list
      /\ pages_requested limitTotal (Z.of_nat (List.length allCustomers)) new
      /\ l = slice0 limitTotal (allCustomers ++ pages_of new)%list.
Proof.
  induction fuel as [|fuel IH]; intros allCustomers pageInfo done w l w' Hrun.
  - cbn [fetchLoop] in Hrun.
    destruct (negb done && _) eqn:Hcond; [discriminate Hrun|].
    injection Hrun as <- <-. exists []. rewrite !app_nil_r.
    repeat split.
  - cbn [fetchLoop] in Hrun.
    destruct (negb done && _) eqn:Hcond.
    + unfold bind, fetch in Hrun.
      set (request := if truthy_string pageInfo then _ else _) in Hrun.
      assert (Hreq : exists cursor,
                 request = ShopifyGetCustomers
                             (Z.min 250 (limitTotal - Z.of_nat (List.length allCustomers)))
                             cursor).
      { subst request. destruct (truthy_string pageInfo); eexists; reflexivity. }
      destruct (upstream (remote w) request) as [result remote'] eqn:Hup.
      destruct result as [message|response]; [discriminate Hrun|].
      destruct (negb (ok response)) eqn:Hok; [discriminate Hrun|].
      unfold response_json in Hrun.
      destruct (body response) as [| |o] eqn:Hbody; try discriminate Hrun.
      cbn [ret] in Hrun.
      destruct (parseLinkHeader (link response) pageInfo) as [pageInfo' done'].
      apply IH in Hrun. destruct Hrun as (new & Hex & Hpages & Hl).
      cbn [exchanges] in Hex.
      exists ((request, Responded response) :: new).
      split; [now rewrite Hex, <- app_assoc|].
      split.
      * cbn [pages_requested]. split; [exact Hreq|].
        unfold page_of. rewrite Hbody.
        rewrite length_app, Nat2Z.inj_add in Hpages. exact Hpages.
      * rewrite Hl. unfold pages_of. cbn [flat_map snd page_of].
        rewrite Hbody. now rewrite <- app_assoc.
    + injection Hrun as <- <-. exists []. rewrite !app_nil_r. repeat split.
Qed.

(** What the loop returns when it stops, for a prefix of the records that
    is complete once [done] is set. *)
Lemma exit_length (limitTotal : Z) (total : nat)
  (allCustomers : list RawCustomer.t) (done : bool) :
  0 <= limitTotal ->
  (List.length allCustomers <= total)%nat ->
  (done = true -> List.length allCustomers = total) ->
  negb done && (Z.of_nat (List.length allCustomers) <? limitTotal) = false ->
  Z.of_nat (List.length (slice0 limitTotal allCustomers))
  = Z.min limitTotal (Z.of_nat total).
Proof.
  intros Hlimit Hle Hdone Hcond. rewrite slice0_length by exact Hlimit.
  destruct (Z.ltb_spec (Z.of_nat (List.length allCustomers)) limitTotal) as [Hlt|Hge].
  - rewrite andb_true_r in Hcond. apply negb_false_iff in Hcond.
    specialize (Hdone Hcond). lia.
  - lia.
Qed.

Lemma parseLinkHeader_continue (linkHeader pageInfo next : option string) :
  parseLinkHeader linkHeader pageInfo = (next, false) ->
  truthy_string next = true.
Proof.
  unfold parseLinkHeader.
  destruct (negb (truthy_string linkHeader)); [discriminate|].
  destruct (negb (truthy_string (find _ _))); [discriminate|].
  intros [= <- H]. now apply negb_false_iff in H.
Qed.

Lemma fetchLoop_serves_in_pages (limitTotal : Z) (total : nat)
  (cursor : nat -> string) :
  0 <= limitTotal ->
  serves_in_pages upstream total cursor ->
  forall fuel allCustomers done w,
    (List.length allCustomers <= total)%nat ->
    (done = true -> List.length allCustomers = total) ->
    (done = false ->
     List.length allCustomers = 0%nat
     \/ (List.length allCustomers < total)%nat
     \/ limitTotal <= Z.of_nat (List.length allCustomers)) ->
    (done = true
     \/ limitTotal - Z.of_nat (List.length allCustomers) <= 250 * Z.of_nat fuel) ->
    exists l w',
      fetchLoop upstream fuel limitTotal allCustomers
        (position_cursor cursor (List.length allCustomers)) done w = (Ok l, w')
      /\ Z.of_nat (List.length l) = Z.min limitTotal (Z.of_nat total).
Proof.
  intros Hlimit (Htok & Hserve).
  induction fuel as [|fuel IH];
    intros allCustomers done w Hle Hdone Hpos Hfuel.
  - assert (Hcond : negb done && (Z.of_nat (List.length allCustomers) <? limitTotal) = false).
    { destruct done; [reflexivity|]. destruct Hfuel as [|Hfuel]; [discriminate|].
      cbn [negb andb]. apply Z.ltb_ge. lia. }
    rewrite (fetchLoop_exit _ _ _ _ _ _ Hcond). do 2 eexists. split; [reflexivity|].
    now apply exit_length with (done := done).
  - destruct (negb done && (Z.of_nat (List.length allCustomers) <? limitTotal)) eqn:Hcond.
    + apply andb_true_iff in Hcond. destruct Hcond as [Hnd Hlt].
      apply negb_true_iff in Hnd. apply Z.ltb_lt in Hlt. subst done.
      specialize (Hpos eq_refl).
      destruct Hfuel as [|Hfuel]; [discriminate|].
      set (k := List.length allCustomers) in *.
      set (perPage := Z.min 250 (limitTotal - Z.of_nat k)).
      assert (Hper : 1 <= perPage <= 250) by (subst perPage; lia).
      assert (Hk : (k = 0 \/ k < total)%nat) by lia.
      destruct (Hserve (remote w) perPage k Hper Hk)
        as (response & remote' & url & previous
            & Hup & Hok & [o Hbody] & Hlen & Hurl & Hprev & Hlink).
      cbn [fetchLoop]. fold k.
      replace (negb false && (Z.of_nat k <? limitTotal))
        with true by (symmetry; cbn [negb andb]; now apply Z.ltb_lt).
      fold perPage. unfold bind, fetch.
      replace (if truthy_string (position_cursor cursor k)
               then ShopifyGetCustomers perPage (position_cursor cursor k)
               else ShopifyGetCustomers perPage None)
        with (ShopifyGetCustomers perPage (position_cursor cursor k)).
      2:{ rewrite <- (position_cursor_effective cursor k Htok) at 1.
          unfold effective_cursor.
          now destruct (truthy_string (position_cursor cursor k)). }
      rewrite Hup, Hok. cbn [negb]. unfold response_json. rewrite Hbody. cbn [ret].
      unfold page_of in Hlen, Hlink. rewrite Hbody in Hlen, Hlink.
      set (page := match customers o with Some l => l | None => [] end) in *.
      rewrite Hlink.
      destruct (Nat.ltb_spec (k + List.length page) total) as [Hmore|Hall].
      * rewrite parseLinkHeader_shopify_link; [|exact Hurl|exact Hprev|].
        2:{ cbn [optional_token].
            destruct (k + List.length page)%nat as [|k'] eqn:Hk'; [lia|apply Htok]. }
        assert (Hk' : (k + List.length page = List.length (allCustomers ++ page))%nat)
          by (rewrite length_app; reflexivity).
        replace (Some (cursor (k + List.length page)%nat))
          with (position_cursor cursor (List.length (allCustomers ++ page))).
        2:{ rewrite <- Hk'. destruct (k + List.length page)%nat eqn:E; [lia|reflexivity]. }
        apply IH.
        -- lia.
        -- discriminate.
        -- intros _. right. left. lia.
        -- right. rewrite <- Hk'. lia.
      * rewrite parseLinkHeader_shopify_link; [|exact Hurl|exact Hprev|reflexivity].
        rewrite (fetchLoop_exit fuel limitTotal (allCustomers ++ page)%list
                   (position_cursor cursor k) true) by reflexivity.
        do 2 eexists. split; [reflexivity|].
        apply exit_length with (done := true); try assumption.
        -- rewrite length_app. fold k. lia.
        -- intros _. rewrite length_app. fold k. lia.
        -- reflexivity.
    + rewrite (fetchLoop_exit _ _ _ _ _ _ Hcond). do 2 eexists. split; [reflexivity|].
      now apply exit_length with (done := done).
Qed.

End FetcherFacts.

(** Claim C2.  For a limit of at least 0: against an upstream that answers
    each page request (for 1 to 250 records) with min(requested size,
    records remaining) records and supplies, in a Link header of Shopify's
    format, a next cursor exactly when records remain, the fetcher returns
    (given one loop iteration for every 250 records of [limitTotal]) a list
    of length exactly min(limitTotal, total available); and whatever the
    upstream does, a returned list has at most [limitTotal] elements, every
    page having been requested with
    [limit = min(250, limitTotal - accumulated)] and the result being the
    first [limitTotal] records of the accumulated pages, all of them when
    there are no more. *)
Theorem fetch_paginated_length :
  forall (W : Type) (upstream : W -> Request -> FetchResult * W)
         (limitTotal : Z),
    0 <= limitTotal ->
    (forall total cursor,
        serves_in_pages upstream total cursor ->
        forall fuel w,
          limitTotal <= 250 * Z.of_nat fuel ->
          exists l w',
            fetchShopifyCustomersPaginated upstream fuel limitTotal w = (Ok l, w')
            /\ Z.of_nat (List.length l) = Z.min limitTotal (Z.of_nat total))
    /\ (forall fuel w l w',
        fetchShopifyCustomersPaginated upstream fuel limitTotal w = (Ok l, w') ->
        Z.of_nat (List.length l) <= limitTotal
        /\ exists new,
            exchanges w' = (exchanges w ++ new)%list
            /\ pages_requested limitTotal 0 new
            /\ l = firstn (Z.to_nat limitTotal) (pages_of new)
            /\ Z.of_nat (List.length l)
               = Z.min limitTotal (Z.of_nat (List.length (pages_of new)))).
Proof.
  intros W upstream limitTotal Hlimit. split.
  - intros total cursor Hserve fuel w Hfuel.
    apply (fetchLoop_serves_in_pages upstream limitTotal total cursor Hlimit Hserve
             fuel [] false w).
    + cbn. lia.
    + discriminate.
    + intros _. now left.
    + right. cbn [List.length]. lia.
  - intros fuel w l w' Hrun.
    destruct (fetchLoop_exchanges upstream _ _ _ _ _ _ _ _ Hrun)
      as (new & Hex & Hpages & Hl).
    cbn [app] in Hl.
    split.
    + rewrite Hl, slice0_length by exact Hlimit. lia.
    + exists new. split; [exact Hex|]. split; [exact Hpages|].
      split.
      * rewrite Hl. now apply slice0_firstn.
      * rewrite Hl. now apply slice0_length.
Qed.

Lemma tally_length (k : nat) : String.length (tally k) = k.
Proof. induction k as [|k IH]; cbn [tally String.length]; congruence. Qed.

Lemma tally_token (k : nat) : cursor_token (tally (S k)) = true.
Proof.
  unfold cursor_token. cbn [tally Js.is_empty negb andb].
  induction k as [|k IH]; [reflexivity|].
  cbn [tally all_chars] in IH |- *. now rewrite IH.
Qed.

Lemma warehouse_url_plain (limit : Z) :
  1 <= limit <= 250 -> plain_url (warehouse_url limit) = true.
Proof.
  intros Hlimit.
  assert (H : forallb (fun n => plain_url (warehouse_url (Z.of_nat n))) (seq 1 250) = true)
    by (vm_compute; reflexivity).
  rewrite forallb_forall in H. specialize (H (Z.to_nat limit)).
  rewrite Z2Nat.id in H by lia. apply H, in_seq. lia.
Qed.

Lemma warehouse_serves_in_pages :
  serves_in_pages warehouse_upstream 600 tally.
Proof.
  split; [exact tally_token|].
  intros served limit k Hlimit Hk.
  assert (Hpos : match position_cursor tally k with
                 | Some c => String.length c
                 | None => 0%nat
                 end = k).
  { destruct k as [|k]; [reflexivity|]. cbn [position_cursor]. apply tally_length. }
  assert (Hlen : List.length (firstn (Z.to_nat (Z.min limit 250))
                                (skipn k warehouse_records))
                 = Nat.min (Z.to_nat limit) (600 - k)).
  { rewrite length_firstn, length_skipn. unfold warehouse_records.
    rewrite length_map, length_seq. lia. }
  eexists _, _, (warehouse_url limit), (if (0 <? k)%nat then Some "back" else None).
  cbn [warehouse_upstream]. rewrite Hpos.
  split; [reflexivity|]. split; [reflexivity|]. split; [eexists; reflexivity|].
  cbn [page_of respond_ok body json_customers customers link].
  split; [exact Hlen|]. split; [now apply warehouse_url_plain|].
  split; [now destruct (0 <? k)%nat|]. reflexivity.
Qed.

(** The three-customer store, whose Link headers are written out in
    full, serves in pages too. *)
Lemma demo_upstream_serves_in_pages :
  serves_in_pages demo_upstream 3 demo_cursor.
Proof.
  split.
  { intros [|[|k]]; reflexivity. }
  intros served limit k Hlimit Hk.
  assert (Hoff : demo_offset (position_cursor demo_cursor k) = k).
  { destruct k as [|[|[|k]]]; try reflexivity. lia. }
  assert (Hlen : List.length (firstn (Z.to_nat limit) (skipn k demo_records))
                 = Nat.min (Z.to_nat limit) (3 - k)).
  { now rewrite length_firstn, length_skipn. }
  exists {| ok := true; status := 200; text := "";
            body := json_customers (firstn (Z.to_nat limit) (skipn k demo_records));
            link := demo_link (k + Nat.min (Z.to_nat limit) (3 - k)) |},
         (S served),
         "https://demo.myshopify.com/admin/api/2024-10/customers.json?limit=2&",
         (if (k + Nat.min (Z.to_nat limit) (3 - k) <? 3)%nat
          then Some "start" else None).
  cbn [demo_upstream]. rewrite Hoff.
  split; [unfold respond_ok; now rewrite Hlen|].
  split; [reflexivity|]. split; [eexists; reflexivity|].
  cbn [page_of body json_customers customers link]. rewrite Hlen.
  split; [reflexivity|]. split; [reflexivity|].
  split; [now destruct (_ <? 3)%nat|].
  assert (Hnext : (1 <= k + Nat.min (Z.to_nat limit) (3 - k))%nat) by lia.
  destruct (k + Nat.min (Z.to_nat limit) (3 - k))%nat as [|[|[|next]]];
    [lia| | |]; reflexivity.
Qed.

(** A limit of 520 against the store of 600 customers: 520 customers, from
    three requests, for 250, 250 and 20 customers, the second and the third
    under the cursor of the page before.  A limit of 2 against the
    three-customer store behind the endpoint that serves one record per
    page: two requests, for 2 and then 1 customers.  And a limit of 2
    against the endpoint that answers with all three customers at once: the
    first two of them.  A limit of 5 against the three-customer store, whose
    Link headers are written out in full: its three customers. *)
Lemma fetch_paginated_length_witness :
  (exists l w',
      fetchShopifyCustomersPaginated warehouse_upstream 3 520 fresh_world = (Ok l, w')
      /\ Z.of_nat (List.length l) = Z.min 520 600
      /\ map fst (exchanges w')
         = [ShopifyGetCustomers 250 None;
            ShopifyGetCustomers 250 (Some (tally 250));
            ShopifyGetCustomers 20 (Some (tally 500))])
  /\ (exists l w',
        fetchShopifyCustomersPaginated demo_upstream 1 5 fresh_world = (Ok l, w')
        /\ Z.of_nat (List.length l) = Z.min 5 3)
  /\ (exists new,
        exchanges (snd (fetchShopifyCustomersPaginated trickle_upstream 2 2 fresh_world))
        = (exchanges fresh_world ++ new)%list
        /\ pages_requested 2 0 new)
  /\ (exists new,
        List.length (pages_of new) = 3%nat
        /\ [lapsed_customer; future_customer] = firstn 2 (pages_of new)).
Proof.
  split; [|split; [|split]].
  - destruct (proj1 (fetch_paginated_length nat warehouse_upstream 520 ltac:(lia))
                600%nat tally warehouse_serves_in_pages 3%nat fresh_world
                ltac:(lia))
      as (l & w' & Hrun & Hlen).
    exists l, w'. split; [exact Hrun|]. split; [exact Hlen|].
    replace w' with (snd (fetchShopifyCustomersPaginated warehouse_upstream 3 520
                            fresh_world)) by (now rewrite Hrun).
    vm_compute. reflexivity.
  - apply (proj1 (fetch_paginated_length nat demo_upstream 5 ltac:(lia))
             3%nat demo_cursor demo_upstream_serves_in_pages 1%nat fresh_world).
    lia.
  - destruct (proj2 (fetch_paginated_length nat trickle_upstream 2 ltac:(lia))
                2%nat fresh_world
                [lapsed_customer; future_customer]
                (snd (fetchShopifyCustomersPaginated trickle_upstream 2 2 fresh_world)))
      as (_ & new & Hex & Hpages & _).
    + vm_compute. reflexivity.
    + exists new. split; assumption.
  - destruct (proj2 (fetch_paginated_length nat (oversized_upstream None) 2 ltac:(lia))
                1%nat fresh_world
                [lapsed_customer; future_customer]
                (snd (fetchShopifyCustomersPaginated (oversized_upstream None) 1 2
                        fresh_world)))
      as (_ & new & Hex & _ & Hl & _).
    + vm_compute. reflexivity.
    + exists new. split; [|exact Hl].
      assert (Hnew : new = exchanges (snd (fetchShopifyCustomersPaginated
                                             (oversized_upstream None) 1 2 fresh_world)))
        by (rewrite Hex; reflexivity).
      rewrite Hnew. vm_compute. reflexivity.
Defined.

Lemma parseLinkHeader_no_next (linkHeader pageInfo : option string) :
  no_next_page linkHeader -> snd (parseLinkHeader linkHeader pageInfo) = true.
Proof.
  unfold parseLinkHeader.
  intros [H|[(h & -> & Hfind)|(h & nextLink & -> & Hfind & Hmatch)]].
  - now rewrite H.
  - destruct (negb (truthy_string (Some h))); [reflexivity|].
    now rewrite Hfind.
  - destruct (negb (truthy_string (Some h))); [reflexivity|].
    rewrite Hfind.
    destruct (negb (truthy_string (Some nextLink))); [reflexivity|].
    now rewrite Hmatch.
Qed.

(** Claim C8.  For a positive limit, when the response to the first page
    request carries no Link header, or a Link header without an entry
    marked [rel="next"], or such an entry from which no [page_info] value
    can be read, the fetcher issues exactly that one request; when the
    response is a successful page it returns the page's records cut to
    [limitTotal]: the first [limitTotal] records of the page, all of them
    when the page has no more, so that the result has
    min(limitTotal, records of the page) elements. *)
Theorem single_request_without_next_link :
  forall (W : Type) (upstream : W -> Request -> FetchResult * W)
         (limitTotal : Z) (fuel : nat) (w : World W)
         (response : Response) (remote' : W),
    0 < limitTotal ->
    upstream (remote w) (ShopifyGetCustomers (Z.min 250 limitTotal) None)
    = (Responded response, remote') ->
    no_next_page (link response) ->
    exists outcome,
      fetchShopifyCustomersPaginated upstream (S fuel) limitTotal w
      = (outcome,
         {| remote := remote';
            exchanges :=
              (exchanges w
               ++ [(ShopifyGetCustomers (Z.min 250 limitTotal) None,
                    Responded response)])%list |})
      /\ (ok response = true ->
          (exists o, body response = BodyJson o) ->
          outcome = Ok (firstn (Z.to_nat limitTotal)
                          (page_of (Responded response)))
          /\ Z.of_nat (List.length (firstn (Z.to_nat limitTotal)
                                      (page_of (Responded response))))
             = Z.min limitTotal
                 (Z.of_nat (List.length (page_of (Responded response))))
          /\ page_of (Responded response)
             = (firstn (Z.to_nat limitTotal) (page_of (Responded response))
                ++ skipn (Z.to_nat limitTotal) (page_of (Responded response)))%list).
Proof.
  intros W upstream limitTotal fuel w response remote' Hpos Hup Hlink.
  unfold fetchShopifyCustomersPaginated. cbn [fetchLoop List.length negb andb].
  replace (Z.of_nat 0 <? limitTotal) with true
    by (symmetry; apply Z.ltb_lt; cbn; lia).
  cbn [truthy_string]. unfold bind, fetch.
  replace (limitTotal - Z.of_nat 0) with limitTotal by (cbn; lia).
  rewrite Hup.
  destruct (ok response) eqn:Hok; cbn [negb].
  - unfold response_json, page_of.
    destruct (body response) as [| |o] eqn:Hbody; cbn [ret throw app].
    + eexists. split; [reflexivity|]. intros _ [o' Ho']. discriminate Ho'.
    + eexists. split; [reflexivity|]. intros _ [o' Ho']. discriminate Ho'.
    + pose proof (parseLinkHeader_no_next (link response) None Hlink) as Hdone.
      destruct (parseLinkHeader (link response) None) as [pageInfo' done'].
      cbn [snd] in Hdone. subst done'.
      rewrite fetchLoop_exit by reflexivity.
      eexists. split; [reflexivity|]. intros _ _.
      split; [|split].
      * unfold slice0.
        replace (limitTotal <? 0) with false by (symmetry; apply Z.ltb_ge; lia).
        reflexivity.
      * rewrite length_firstn. lia.
      * symmetry. apply firstn_skipn.
  - eexists. split; [reflexivity|]. discriminate.
Qed.

(** A limit of 2 against an endpoint that answers with all three customers
    at once, under each of the three kinds of Link header: the first two
    customers are returned after one request. *)
Lemma single_request_without_next_link_witness :
  fst (fetchShopifyCustomersPaginated (oversized_upstream None) 1 2 fresh_world)
  = Ok [lapsed_customer; future_customer]
  /\ fst (fetchShopifyCustomersPaginated
            (oversized_upstream (Some previous_only_link)) 1 2 fresh_world)
     = Ok [lapsed_customer; future_customer]
  /\ fetchShopifyCustomersPaginated
       (oversized_upstream (Some next_without_cursor_link)) 1 2 fresh_world
     = (Ok [lapsed_customer; future_customer],
        {| remote := 1%nat;
           exchanges :=
             [(ShopifyGetCustomers 2 None,
               Responded {| ok := true; status := 200; text := "";
                            body := json_customers demo_records;
                            link := Some next_without_cursor_link |})] |}).
Proof.
  assert (Hcase : forall header,
             no_next_page header ->
             fetchShopifyCustomersPaginated (oversized_upstream header) 1 2
               fresh_world
             = (Ok [lapsed_customer; future_customer],
                {| remote := 1%nat;
                   exchanges :=
                     [(ShopifyGetCustomers 2 None,
                       Responded {| ok := true; status := 200; text := "";
                                    body := json_customers demo_records;
                                    link := header |})] |})).
  { intros header Hnone.
    destruct (single_request_without_next_link nat (oversized_upstream header)
                2 0 fresh_world
                {| ok := true; status := 200; text := "";
                   body := json_customers demo_records; link := header |} 1%nat)
      as (outcome & Hrun & Hok).
    - lia.
    - reflexivity.
    - exact Hnone.
    - destruct Hok as (-> & _ & _); [reflexivity|eexists; reflexivity|].
      exact Hrun. }
  split; [|split].
  - rewrite Hcase; [reflexivity|]. left. reflexivity.
  - rewrite Hcase; [reflexivity|].
    right. left. eexists. split; reflexivity.
  - apply Hcase.
    right. right. eexists _, _. split; [reflexivity|]. split; reflexivity.
Defined.

(* ================================================================== *)
(** * The discount and batch endpoints *)
(* ================================================================== *)

Section HandlerFacts.

Context {W : Type}.
Variable upstream : W -> Request -> FetchResult * W.

Lemma settles_ret {A} (a : A) : settles (@ret W A a).
Proof. intros w. exists w. left. now exists a. Qed.

Lemma settles_throw {A} (e : Error) : settles (@throw W A e).
Proof. intros w. exists w. right. now exists e. Qed.

Lemma settles_fetch (request : Request) : settles (fetch upstream request).
Proof.
  intros w. unfold fetch.
  destruct (upstream (remote w) request) as [[message|response] remote'];
    eexists; [right|left]; eexists; reflexivity.
Qed.

Lemma settles_response_json (response : Response) :
  settles (@response_json W response).
Proof.
  unfold response_json.
  destruct (body response); [apply settles_throw|apply settles_ret..].
Qed.

Lemma settles_bind {A B} (m : Eff W A) (k : A -> Eff W B) :
  settles m -> (forall a, settles (k a)) -> settles (bind m k).
Proof.
  intros Hm Hk w. unfold bind.
  destruct (Hm w) as (w1 & [[a ->]|[e ->]]).
  - apply Hk.
  - exists w1. right. now exists e.
Qed.

Lemma settles_try_catch {A} (m : Eff W A) (handler : Error -> Eff W A) :
  settles m -> (forall e, settles (handler e)) -> settles (try_catch m handler).
Proof.
  intros Hm Hh w. unfold try_catch.
  destruct (Hm w) as (w1 & [[a ->]|[e ->]]).
  - exists w1. left. now exists a.
  - apply Hh.
Qed.

Lemma createDiscountCode_settles (code : string) (percentage : float) :
  settles (createDiscountCode upstream code percentage).
Proof.
  unfold createDiscountCode.
  apply settles_bind; [apply settles_fetch|]. intros priceRuleResponse.
  destruct (negb (ok priceRuleResponse)).
  - apply settles_bind; [apply settles_response_json|].
    intros errorData. apply settles_throw.
  - apply settles_bind; [apply settles_response_json|]. intros priceRuleData.
    apply settles_bind.
    + destruct priceRuleData as [| |o]; try apply settles_throw.
      destruct (price_rule_id o); [apply settles_ret|apply settles_throw].
    + intros priceRuleId.
      apply settles_bind; [apply settles_fetch|]. intros discountCodeResponse.
      destruct (negb (ok discountCodeResponse)); [|apply settles_ret].
      apply settles_bind; [apply settles_response_json|].
      intros errorData. apply settles_throw.
Qed.

Lemma createDiscountCodes_settles (entries : list (string * float)) :
  forall createdCodes failedCodes w,
  exists created failed w',
    createDiscountCodes upstream entries createdCodes failedCodes w
    = (Ok ((createdCodes ++ created)%list, (failedCodes ++ failed)%list), w')
    /\ Permutation (map fst created ++ map fst failed) (map fst entries)
    /\ incl created entries.
Proof.
  induction entries as [|[code percentage] rest IH];
    intros createdCodes failedCodes w.
  - exists [], [], w. rewrite !app_nil_r. repeat split; [constructor|].
    intros x [].
  - cbn [createDiscountCodes]. unfold bind at 1. unfold try_catch, bind at 1.
    destruct (createDiscountCode_settles code percentage w) as (w1 & [[[] H]|[e H]]);
      rewrite H; cbn [ret fst snd].
    + destruct (IH (createdCodes ++ [(code, percentage)])%list failedCodes w1)
        as (created & failed & w' & Hrun & Hperm & Hincl).
      exists ((code, percentage) :: created), failed, w'.
      rewrite Hrun, <- app_assoc. split; [reflexivity|]. split.
      * cbn [map fst app]. now constructor.
      * intros x [<-|Hx]; [now left|right; now apply Hincl].
    + destruct (IH createdCodes (failedCodes ++ [(code, e)])%list w1)
        as (created & failed & w' & Hrun & Hperm & Hincl).
      exists created, ((code, e) :: failed), w'.
      rewrite Hrun, <- app_assoc. split; [reflexivity|]. split.
      * cbn [map fst]. now apply Permutation_sym, Permutation_cons_app, Permutation_sym.
      * intros x Hx. right. now apply Hincl.
Qed.

End HandlerFacts.

(** Claim C4, where it fails: without Shopify credentials the discounts
    endpoint answers 400, not 500. *)
Lemma missing_credentials_answered_with_400 :
  status_of (fst (postShopifyDiscounts demo_upstream env_without_shopify
                    (Some mixed_codes) fresh_world)) = Some 400
  /\ status_of (fst (postShopifyDiscounts demo_upstream env_without_shopify
                       (Some mixed_codes) fresh_world)) <> Some 500.
Proof. split; [reflexivity|discriminate]. Qed.

(** Claim C4, amended.  [POST /api/shopify/discounts] answers 400 when the
    Shopify credentials are absent (this is tested first), and 400 when the
    recommendations are absent or empty.  Otherwise it answers 200 with
    [{createdCodes, failedCodes}]: every collected code ends in exactly one
    of the two lists, and a code whose creation throws is appended to
    [failedCodes] while the loop goes on with the remaining codes. *)
Theorem discounts_endpoint_replies :
  forall (W : Type) (upstream : W -> Request -> FetchResult * W) (env : Env)
         (recommendations : option (list Recommendation.t)) (w : World W),
    (Js.truthy (SHOPIFY_API_KEY env) = false \/ Js.truthy (SHOPIFY_STORE env) = false ->
       postShopifyDiscounts upstream env recommendations w
       = (Ok (mkReply 400 (ErrorMessage "Shopify credentials not configured")), w))
    /\ (Js.truthy (SHOPIFY_API_KEY env) = true ->
        Js.truthy (SHOPIFY_STORE env) = true ->
        recommendations = None \/ recommendations = Some [] ->
        postShopifyDiscounts upstream env recommendations w
        = (Ok (mkReply 400
                 (ErrorMessage "No recommendations provided to create discounts.")),
           w))
    /\ (Js.truthy (SHOPIFY_API_KEY env) = true ->
        Js.truthy (SHOPIFY_STORE env) = true ->
        forall first others,
          recommendations = Some (first :: others) ->
          exists createdCodes failedCodes w',
            postShopifyDiscounts upstream env recommendations w
            = (Ok (mkReply 200 (DiscountsResult createdCodes failedCodes)), w')
            /\ Permutation
                 (map fst createdCodes ++ map fst failedCodes)
                 (map fst (JsObject.entries (collectUniqueCodes (first :: others))))
            /\ incl createdCodes
                 (JsObject.entries (collectUniqueCodes (first :: others))))
    /\ (forall code percentage rest createdCodes failedCodes error w1,
          createDiscountCode upstream code percentage w = (Throw error, w1) ->
          createDiscountCodes upstream ((code, percentage) :: rest)
            createdCodes failedCodes w
          = createDiscountCodes upstream rest createdCodes
              (failedCodes ++ [(code, error)])%list w1).
Proof.
  intros W upstream env recommendations w.
  split; [|split; [|split]].
  - intros H. unfold postShopifyDiscounts, try_catch.
    replace (negb (Js.truthy (SHOPIFY_API_KEY env))
             || negb (Js.truthy (SHOPIFY_STORE env))) with true; [reflexivity|].
    destruct H as [-> | ->]; [reflexivity|]. now rewrite orb_true_r.
  - intros Hkey Hstore Hrecs. unfold postShopifyDiscounts, try_catch.
    rewrite Hkey, Hstore. cbn [negb orb].
    destruct Hrecs as [-> | ->]; reflexivity.
  - intros Hkey Hstore first others ->.
    unfold postShopifyDiscounts, try_catch. rewrite Hkey, Hstore. cbn [negb orb].
    unfold bind.
    destruct (createDiscountCodes_settles upstream
                (JsObject.entries (collectUniqueCodes (first :: others))) [] [] w)
      as (created & failed & w' & Hrun & Hperm & Hincl).
    rewrite Hrun. cbn [app fst snd ret].
    exists created, failed, w'. repeat split; assumption.
  - intros code percentage rest createdCodes failedCodes error w1 Hfail.
    cbn [createDiscountCodes]. unfold bind at 1. unfold try_catch, bind at 1.
    rewrite Hfail. reflexivity.
Qed.

(** The three replies on the sample store; the code BROKEN fails, 7 and
    SAVE15 are created. *)
Lemma discounts_endpoint_replies_witness :
  postShopifyDiscounts demo_upstream env_without_shopify (Some mixed_codes) fresh_world
  = (Ok (mkReply 400 (ErrorMessage "Shopify credentials not configured")), fresh_world)
  /\ postShopifyDiscounts demo_upstream demo_env (Some []) fresh_world
     = (Ok (mkReply 400
              (ErrorMessage "No recommendations provided to create discounts.")),
        fresh_world)
  /\ exists createdCodes failedCodes w',
      postShopifyDiscounts demo_upstream demo_env (Some mixed_codes) fresh_world
      = (Ok (mkReply 200 (DiscountsResult createdCodes failedCodes)), w')
      /\ Permutation (map fst createdCodes ++ map fst failedCodes)
           ["7"; "BROKEN"; "SAVE15"].
Proof.
  split; [|split].
  - apply (proj1 (discounts_endpoint_replies nat demo_upstream env_without_shopify
                    (Some mixed_codes) fresh_world)).
    left. reflexivity.
  - apply (proj1 (proj2 (discounts_endpoint_replies nat demo_upstream demo_env
                           (Some []) fresh_world))).
    + reflexivity.
    + reflexivity.
    + right. reflexivity.
  - destruct (proj1 (proj2 (proj2 (discounts_endpoint_replies nat demo_upstream demo_env
                                     (Some mixed_codes) fresh_world)))
                eq_refl eq_refl _ _ eq_refl)
      as (createdCodes & failedCodes & w' & Hrun & Hperm & _).
    exists createdCodes, failedCodes, w'. split; [exact Hrun|exact Hperm].
Defined.

(** ** The grouping of recommendations by code *)

Lemma get_own_None (o : JsObject.t) (key : string) :
  JsObject.get_own o key = None <-> ~ In key (map fst o).
Proof.
  induction o as [|[k v] rest IH]; cbn [JsObject.get_own map fst In].
  - tauto.
  - destruct (String.eqb_spec k key) as [->|Hne].
    + split; [discriminate|]. intros H. exfalso. apply H. now left.
    + rewrite IH. tauto.
Qed.

Lemma replace_keys (o : JsObject.t) (key : string) (v : float) :
  map fst (JsObject.replace o key v) = map fst o.
Proof.
  induction o as [|[k v0] rest IH]; [reflexivity|].
  cbn [JsObject.replace]. destruct (String.eqb k key); cbn [map fst]; congruence.
Qed.

Lemma set_keys_NoDup (o : JsObject.t) (key : string) (v : float) :
  NoDup (map fst o) -> NoDup (map fst (JsObject.set o key v)).
Proof.
  intros Hnd. unfold JsObject.set.
  destruct (String.eqb key "__proto__"); [exact Hnd|].
  destruct (JsObject.get_own o key) eqn:E.
  - now rewrite replace_keys.
  - rewrite map_app. cbn [map fst].
    apply get_own_None in E.
    apply NoDup_app; [exact Hnd|repeat constructor; intros []|].
    intros x Hx [<-|[]]. exact (E Hx).
Qed.

Lemma collectCode_NoDup (o : JsObject.t) (rec : Recommendation.t) :
  NoDup (map fst o) -> NoDup (map fst (collectCode o rec)).
Proof.
  intros Hnd. unfold collectCode.
  destruct (Js.truthy _); [|exact Hnd].
  destruct (Recommendation.discountPercent rec); try exact Hnd.
  destruct (negb _); [now apply set_keys_NoDup|exact Hnd].
Qed.

Lemma fold_collectCode_NoDup (recommendations : list Recommendation.t) :
  forall o, NoDup (map fst o) ->
            NoDup (map fst (fold_left collectCode recommendations o)).
Proof.
  induction recommendations as [|rec rest IH]; intros o Hnd; [exact Hnd|].
  cbn [fold_left]. apply IH. now apply collectCode_NoDup.
Qed.

Lemma insert_index_perm (e : Z * (string * float)) (l : list (Z * (string * float))) :
  Permutation (JsObject.insert_index e l) (e :: l).
Proof.
  induction l as [|h rest IH]; cbn [JsObject.insert_index]; [reflexivity|].
  destruct (fst e <=? fst h); [reflexivity|].
  rewrite IH. apply perm_swap.
Qed.

Lemma index_entries_perm (o : JsObject.t) :
  Permutation (map snd (JsObject.index_entries o)) (filter JsObject.is_index o).
Proof.
  induction o as [|kv rest IH]; [reflexivity|].
  unfold JsObject.index_entries. cbn [fold_right filter].
  fold (JsObject.index_entries rest).
  unfold JsObject.is_index at 1.
  destruct (JsObject.array_index (fst kv)) as [n|]; [|exact IH].
  rewrite insert_index_perm. cbn [map snd]. now constructor.
Qed.

Lemma filter_partition_perm {A} (f : A -> bool) (l : list A) :
  Permutation (filter f l ++ filter (fun x => negb (f x)) l) l.
Proof.
  induction l as [|a rest IH]; [reflexivity|].
  cbn [filter]. destruct (f a); cbn [negb app].
  - now constructor.
  - apply Permutation_sym, Permutation_cons_app, Permutation_sym, IH.
Qed.

Lemma entries_perm (o : JsObject.t) : Permutation (JsObject.entries o) o.
Proof.
  unfold JsObject.entries.
  rewrite index_entries_perm. apply filter_partition_perm.
Qed.

(** Creation is attempted for pairwise distinct codes. *)
Lemma collected_codes_distinct (recommendations : list Recommendation.t) :
  NoDup (map fst (JsObject.entries (collectUniqueCodes recommendations))).
Proof.
  apply (Permutation_NoDup
           (Permutation_sym (Permutation_map fst (entries_perm _)))).
  apply fold_collectCode_NoDup. constructor.
Qed.

(** A recommendation without a code, or whose percentage is not a number,
    leaves the grouping as it is. *)
Lemma collectCode_skips (o : JsObject.t) (rec : Recommendation.t) :
  collectable rec = false -> collectCode o rec = o.
Proof.
  unfold collectable, collectCode.
  destruct (Js.truthy _); [|reflexivity].
  destruct (Recommendation.discountPercent rec); cbn; congruence.
Qed.

Lemma collectUniqueCodes_skips (recommendations : list Recommendation.t) :
  collectUniqueCodes recommendations
  = collectUniqueCodes (filter collectable recommendations).
Proof.
  unfold collectUniqueCodes. generalize (@nil (string * float)).
  induction recommendations as [|rec rest IH]; intros o; [reflexivity|].
  cbn [fold_left filter].
  destruct (collectable rec) eqn:E.
  - cbn [fold_left]. apply IH.
  - rewrite (collectCode_skips _ _ E). apply IH.
Qed.

Lemma get_own_replace_other (o : JsObject.t) (k key : string) (v : float) :
  k <> key ->
  JsObject.get_own (JsObject.replace o k v) key = JsObject.get_own o key.
Proof.
  intros Hne. induction o as [|[k0 v0] rest IH]; [reflexivity|].
  cbn [JsObject.replace]. destruct (String.eqb_spec k0 k) as [->|Hk].
  - cbn [JsObject.get_own]. now destruct (String.eqb_spec k key).
  - cbn [JsObject.get_own]. now rewrite IH.
Qed.

Lemma get_own_app (o1 o2 : JsObject.t) (key : string) :
  JsObject.get_own (o1 ++ o2)%list key
  = match JsObject.get_own o1 key with
    | Some v => Some v
    | None => JsObject.get_own o2 key
    end.
Proof.
  induction o1 as [|[k v] rest IH]; [reflexivity|].
  cbn [app JsObject.get_own]. now destruct (String.eqb k key).
Qed.

Lemma get_own_set_other (o : JsObject.t) (k key : string) (v : float) :
  k <> key ->
  JsObject.get_own (JsObject.set o k v) key = JsObject.get_own o key.
Proof.
  intros Hne. unfold JsObject.set.
  destruct (String.eqb k "__proto__"); [reflexivity|].
  destruct (JsObject.get_own o k).
  - now apply get_own_replace_other.
  - rewrite get_own_app. cbn [JsObject.get_own].
    destruct (String.eqb_spec k key); [contradiction|].
    now destruct (JsObject.get_own o key).
Qed.

Lemma get_own_set_new (o : JsObject.t) (key : string) (v : float) :
  JsObject.get_own o key = None ->
  ~ In key JsObject.prototype_keys ->
  JsObject.get_own (JsObject.set o key v) key = Some v.
Proof.
  intros Hnone Hproto. unfold JsObject.set.
  destruct (String.eqb_spec key "__proto__") as [->|_].
  - exfalso. apply Hproto. vm_compute. tauto.
  - rewrite Hnone, get_own_app, Hnone. cbn [JsObject.get_own].
    now rewrite String.eqb_refl.
Qed.

Lemma prototype_keys_lookup (key : string) :
  ~ In key JsObject.prototype_keys ->
  existsb (String.eqb key) JsObject.prototype_keys = false.
Proof.
  intros H. destruct (existsb _ _) eqn:E; [|reflexivity].
  apply existsb_exists in E. destruct E as (k & Hin & Heq).
  apply String.eqb_eq in Heq. subst k. contradiction.
Qed.

Lemma fold_collectCode_absent (key : string)
  (recommendations : list Recommendation.t) :
  (forall r, In r recommendations -> collectable r = true -> code_key r <> key) ->
  forall o, JsObject.get_own o key = None ->
            JsObject.get_own (fold_left collectCode recommendations o) key = None.
Proof.
  induction recommendations as [|rec rest IH]; intros Hother o Ho; [exact Ho|].
  cbn [fold_left]. apply IH.
  - intros r Hr. apply Hother. now right.
  - destruct (collectable rec) eqn:E.
    + pose proof (Hother rec (or_introl eq_refl) E) as Hne.
      unfold collectCode. unfold collectable in E.
      apply andb_true_iff in E. destruct E as [Hc Hn]. rewrite Hc.
      destruct (Recommendation.discountPercent rec); try exact Ho.
      fold (code_key rec). destruct (negb _); [|exact Ho].
      now rewrite get_own_set_other.
    + now rewrite collectCode_skips.
Qed.

Lemma fold_collectCode_kept (key : string) (p : float)
  (recommendations : list Recommendation.t) :
  Js.truthy (Js.Num p) = true ->
  forall o, JsObject.get_own o key = Some p ->
            JsObject.get_own (fold_left collectCode recommendations o) key = Some p.
Proof.
  intros Hp. induction recommendations as [|rec rest IH]; intros o Ho; [exact Ho|].
  cbn [fold_left]. apply IH.
  unfold collectCode.
  destruct (Js.truthy (Recommendation.discountCode rec)); [|exact Ho].
  destruct (Recommendation.discountPercent rec); try exact Ho.
  destruct (JsObject.get_truthy o _) eqn:E; cbn [negb]; [exact Ho|].
  rewrite get_own_set_other; [exact Ho|].
  intros Heq. rewrite Heq in E. unfold JsObject.get_truthy in E.
  rewrite Ho, Hp in E. discriminate E.
Qed.

(** The percentage kept for a code is that of its earliest collectable
    occurrence, provided that percentage is not zero (and the code is not a
    property name of [Object.prototype]). *)
Lemma first_nonzero_percentage_wins
  (before after : list Recommendation.t) (rec : Recommendation.t) (p : float) :
  Js.truthy (Recommendation.discountCode rec) = true ->
  Recommendation.discountPercent rec = Js.Num p ->
  Js.truthy (Js.Num p) = true ->
  ~ In (code_key rec) JsObject.prototype_keys ->
  (forall r, In r before -> collectable r = true -> code_key r <> code_key rec) ->
  JsObject.get_own (collectUniqueCodes (before ++ rec :: after)) (code_key rec)
  = Some p.
Proof.
  intros Hcode Hpct Hp Hproto Hbefore.
  unfold collectUniqueCodes. rewrite fold_left_app. cbn [fold_left].
  apply (fold_collectCode_kept _ _ _ Hp).
  pose proof (fold_collectCode_absent (code_key rec) before Hbefore [] eq_refl)
    as Habsent.
  unfold collectCode at 1. rewrite Hcode, Hpct. fold (code_key rec).
  unfold JsObject.get_truthy. rewrite Habsent.
  rewrite (prototype_keys_lookup _ Hproto). cbn [negb].
  now apply get_own_set_new.
Qed.

(** Claim C10, on the input where the code departs from it: two
    recommendations share the code SAVE, the earlier with 0 percent and the
    later with 20 percent.  One price rule is created for SAVE, and its
    value is the later 20, not the earliest 0. *)
Theorem zero_percent_first_occurrence_is_overwritten :
  collectUniqueCodes zero_then_twenty = [("SAVE", 20%float)]
  /\ map fst (exchanges (snd (postShopifyDiscounts demo_upstream demo_env
                                (Some zero_then_twenty) fresh_world)))
     = [ShopifyPostPriceRule "SAVE - AI Dynamic Pricing" "-20";
        ShopifyPostDiscountCode (Js.Num 1001) "SAVE"]
  /\ fst (postShopifyDiscounts demo_upstream demo_env
            (Some zero_then_twenty) fresh_world)
     = Ok (mkReply 200 (DiscountsResult [("SAVE", 20%float)] [])).
Proof. repeat split; vm_compute; reflexivity. Qed.

Lemma batchRecommendations_filter (ruleConfig : option RuleConfig.t)
  (customers : list Metrics.t) :
  batchRecommendations ruleConfig customers
  = filter kept (matched ruleConfig customers).
Proof.
  induction customers as [|c rest IH]; [reflexivity|].
  cbn [batchRecommendations matched flat_map].
  destruct (applyRuleConfigToCustomer c ruleConfig) as [rec|].
  - cbn [app filter]. fold (matched ruleConfig rest). fold (kept rec).
    destruct (kept rec); now rewrite IH.
  - cbn [app]. exact IH.
Qed.

Lemma kept_positive_with_email (rec : Recommendation.t) :
  kept rec = true <->
  Js.gt_number (Recommendation.discountPercent rec) 0 = true
  /\ Js.truthy (Recommendation.email rec) = true.
Proof. unfold kept. apply andb_true_iff. Qed.

Lemma dropped_when_unusable (rec : Recommendation.t) :
  Js.le (Js.ToNumber (Recommendation.discountPercent rec)) 0 = true
  \/ Js.truthy (Recommendation.email rec) = false ->
  kept rec = false.
Proof.
  unfold kept, Js.gt_number. intros [H|H].
  - now rewrite (le_zero_not_gt _ H).
  - rewrite H. apply andb_false_r.
Qed.

Section BatchFacts.

Context {W : Type}.
Variable upstream : W -> Request -> FetchResult * W.

Lemma fetchLoop_only_customer_requests (fuel : nat) (limitTotal : Z) :
  forall allCustomers pageInfo done w outcome w',
    fetchLoop upstream fuel limitTotal allCustomers pageInfo done w = (outcome, w') ->
    exists new,
      exchanges w' = (exchanges w ++ new)%list
      /\ forall request result,
          In (request, result) new -> is_subscriber_request request = false.
Proof.
  induction fuel as [|fuel IH]; intros allCustomers pageInfo done w outcome w' Hrun.
  - exists []. rewrite app_nil_r.
    cbn [fetchLoop] in Hrun.
    destruct (negb done && _); injection Hrun as <- <-; split; [reflexivity| |reflexivity|];
      intros ? ? [].
  - cbn [fetchLoop] in Hrun.
    destruct (negb done && _).
    + unfold bind, fetch in Hrun.
      set (request := if truthy_string pageInfo then _ else _) in Hrun.
      assert (Hreq : is_subscriber_request request = false).
      { subst request. now destruct (truthy_string pageInfo). }
      destruct (upstream (remote w) request) as [result remote'].
      assert (Hone : forall rq rs, In (rq, rs) [(request, result)] ->
                is_subscriber_request rq = false).
      { intros rq rs [[= <- <-]|[]]. exact Hreq. }
      destruct result as [message|response].
      { injection Hrun as <- <-. exists [(request, NetworkFailure message)].
        split; [reflexivity|exact Hone]. }
      destruct (negb (ok response)).
      { injection Hrun as <- <-. exists [(request, Responded response)].
        split; [reflexivity|exact Hone]. }
      unfold response_json in Hrun.
      destruct (body response) as [| |o].
      { injection Hrun as <- <-. exists [(request, Responded response)].
        split; [reflexivity|exact Hone]. }
      { injection Hrun as <- <-. exists [(request, Responded response)].
        split; [reflexivity|exact Hone]. }
      cbn [ret] in Hrun.
      destruct (parseLinkHeader (link response) pageInfo) as [pageInfo' done'].
      apply IH in Hrun. destruct Hrun as (new & Hex & Hnew).
      cbn [exchanges] in Hex.
      exists ((request, Responded response) :: new).
      split; [now rewrite Hex, <- app_assoc|].
      intros rq rs [Hin|Hin]; [apply (Hone rq rs); now left|exact (Hnew _ _ Hin)].
    + injection Hrun as <- <-. exists []. rewrite app_nil_r.
      split; [reflexivity|]. intros ? ? [].
Qed.

Lemma addSubscribers_exchanges (groupId : Js.value)
  (recommendations : list Recommendation.t) :
  forall addedCount w,
  exists added w' new,
    addSubscribers upstream groupId recommendations addedCount w = (Ok added, w')
    /\ exchanges w' = (exchanges w ++ new)%list
    /\ map fst new = map (subscriber_request groupId) recommendations.
Proof.
  induction recommendations as [|rec rest IH]; intros addedCount w.
  - exists addedCount, w, []. now rewrite app_nil_r.
  - cbn [addSubscribers]. unfold bind at 1. unfold try_catch, bind at 1, fetch.
    fold (subscriber_request groupId rec).
    destruct (upstream (remote w) (subscriber_request groupId rec))
      as [[message|response] remote'] eqn:Hup; cbn [ret].
    + destruct (IH addedCount
                  {| remote := remote';
                     exchanges := (exchanges w
                       ++ [(subscriber_request groupId rec, NetworkFailure message)])%list |})
        as (added & w' & new & Hrun & Hex & Hmap).
      exists added, w', ((subscriber_request groupId rec, NetworkFailure message) :: new).
      cbn [exchanges] in Hex. rewrite Hrun, Hex, <- app_assoc.
      repeat split. cbn [map fst]. now rewrite Hmap.
    + destruct (IH (addedCount + 1)
                  {| remote := remote';
                     exchanges := (exchanges w
                       ++ [(subscriber_request groupId rec, Responded response)])%list |})
        as (added & w' & new & Hrun & Hex & Hmap).
      exists added, w', ((subscriber_request groupId rec, Responded response) :: new).
      cbn [exchanges] in Hex. rewrite Hrun, Hex, <- app_assoc.
      repeat split. cbn [map fst]. now rewrite Hmap.
Qed.

End BatchFacts.

(** Claim C7.  In every run of [/api/reactivation/batch], whatever its
    outcome, each request posted to the MailerLite subscriber endpoint is
    for a result of the matcher that passes the filter
    [discountPercent > 0 && email]; and when the run answers with the batch
    summary, [totalRecommendations] counts and [sampleRecommendations]
    lists (the first 20 of) exactly those results.  A recommendation with
    [discountPercent <= 0] or without an email fails the filter, even though
    a tier matched, and is neither counted, nor listed, nor sent. *)
Theorem batch_keeps_only_usable_recommendations :
  forall (W : Type) (upstream : W -> Request -> FetchResult * W)
         (env : Env) (clock : Clock) (fuel : nat) (reqBody : BatchBody)
         (w w' : World W) (outcome : Outcome Reply),
    postReactivationBatch upstream env clock fuel reqBody w = (outcome, w') ->
    (forall rec,
        Js.le (Js.ToNumber (Recommendation.discountPercent rec)) 0 = true
        \/ Js.truthy (Recommendation.email rec) = false ->
        kept rec = false)
    /\ exists rawCustomers new,
        exchanges w' = (exchanges w ++ new)%list
        /\ (forall request result,
              In (request, result) new ->
              is_subscriber_request request = true ->
              exists groupId rec,
                request = subscriber_request groupId rec
                /\ In rec (candidates clock (ruleConfig reqBody) rawCustomers)
                /\ Js.gt_number (Recommendation.discountPercent rec) 0 = true
                /\ Js.truthy (Recommendation.email rec) = true)
        /\ (forall status strategy fetched total sample mailerLite,
              outcome = Ok (mkReply status
                              (BatchResult strategy fetched total sample mailerLite)) ->
              fetched = List.length rawCustomers
              /\ total = List.length
                           (filter kept
                              (candidates clock (ruleConfig reqBody) rawCustomers))
              /\ sample = firstn 20
                            (filter kept
                               (candidates clock (ruleConfig reqBody) rawCustomers))
              /\ (forall rec, In rec sample ->
                    Js.gt_number (Recommendation.discountPercent rec) 0 = true
                    /\ Js.truthy (Recommendation.email rec) = true)).
Proof.
  intros W upstream env clock fuel reqBody w w' outcome Hrun.
  split; [exact dropped_when_unusable|].
  assert (Hquiet : forall (l : list RawCustomer.t) pages,
            exchanges w' = (exchanges w ++ pages)%list ->
            (forall request result,
                In (request, result) pages -> is_subscriber_request request = false) ->
            (forall status strategy fetched total sample mailerLite,
                outcome <> Ok (mkReply status
                                 (BatchResult strategy fetched total sample mailerLite))) ->
            exists rawCustomers new,
              exchanges w' = (exchanges w ++ new)%list
              /\ (forall request result,
                    In (request, result) new ->
                    is_subscriber_request request = true ->
                    exists groupId rec,
                      request = subscriber_request groupId rec
                      /\ In rec (candidates clock (ruleConfig reqBody) rawCustomers)
                      /\ Js.gt_number (Recommendation.discountPercent rec) 0 = true
                      /\ Js.truthy (Recommendation.email rec) = true)
              /\ (forall status strategy fetched total sample mailerLite,
                    outcome = Ok (mkReply status
                                    (BatchResult strategy fetched total sample mailerLite)) ->
                    fetched = List.length rawCustomers
                    /\ total = List.length
                                 (filter kept
                                    (candidates clock (ruleConfig reqBody) rawCustomers))
                    /\ sample = firstn 20
                                  (filter kept
                                     (candidates clock (ruleConfig reqBody) rawCustomers))
                    /\ (forall rec, In rec sample ->
                          Js.gt_number (Recommendation.discountPercent rec) 0 = true
                          /\ Js.truthy (Recommendation.email rec) = true))).
  { intros l pages Hex Hpages Hnot. exists l, pages. split; [exact Hex|]. split.
    - intros request result Hin Hsub.
      rewrite (Hpages _ _ Hin) in Hsub. discriminate Hsub.
    - intros status strategy fetched total sample mailerLite Hout.
      exfalso. exact (Hnot _ _ _ _ _ _ Hout). }
  assert (Hnil : exchanges w = (exchanges w ++ [])%list) by now rewrite app_nil_r.
  unfold postReactivationBatch, try_catch in Hrun.
  destruct (ruleConfig reqBody) as [cfg|] eqn:Hcfg.
  2:{ injection Hrun as <- <-.
      apply (Hquiet [] []); [exact Hnil|intros ? ? []|discriminate]. }
  destruct (negb (Js.truthy (SHOPIFY_API_KEY env)) || negb (Js.truthy (SHOPIFY_STORE env))).
  { injection Hrun as <- <-.
    apply (Hquiet [] []); [exact Hnil|intros ? ? []|discriminate]. }
  unfold bind at 1 in Hrun.
  destruct (fetchShopifyCustomersPaginated upstream fuel _ w)
    as [[rawCustomers|e|] w1] eqn:Hfetch.
  2:{ cbn [ret] in Hrun. injection Hrun as <- <-.
      destruct (fetchLoop_only_customer_requests upstream _ _ _ _ _ _ _ _ Hfetch)
        as (pages & Hex1 & Hpages).
      apply (Hquiet [] pages); [exact Hex1|exact Hpages|discriminate]. }
  2:{ injection Hrun as <- <-.
      destruct (fetchLoop_only_customer_requests upstream _ _ _ _ _ _ _ _ Hfetch)
        as (pages & Hex1 & Hpages).
      apply (Hquiet [] pages); [exact Hex1|exact Hpages|discriminate]. }
  destruct (fetchLoop_only_customer_requests upstream _ _ _ _ _ _ _ _ Hfetch)
    as (pages & Hex1 & Hpagereq).
  rewrite batchRecommendations_filter in Hrun.
  fold (candidates clock (Some cfg) rawCustomers) in Hrun.
  set (recs := filter kept (candidates clock (Some cfg) rawCustomers)) in *.
  assert (Hsample : forall rec, In rec (firstn 20 recs) ->
            Js.gt_number (Recommendation.discountPercent rec) 0 = true
            /\ Js.truthy (Recommendation.email rec) = true).
  { intros rec Hin. apply kept_positive_with_email.
    apply In_firstn in Hin. apply filter_In in Hin. exact (proj2 Hin). }
  destruct (Js.truthy (sendToMailerLite reqBody)).
  - destruct (negb (Js.truthy (MAILERLITE_API_KEY env))).
    { cbn [ret] in Hrun. injection Hrun as <- <-.
      apply (Hquiet [] pages); [exact Hex1|exact Hpagereq|discriminate]. }
    unfold bind at 1, fetch in Hrun.
    set (groupRequest := MailerLitePostGroup _) in Hrun.
    destruct (upstream (remote w1) groupRequest) as [groupResult remote2].
    assert (Hgroup : forall request result,
              In (request, result) (pages ++ [(groupRequest, groupResult)])%list ->
              is_subscriber_request request = false).
    { intros request result Hin. apply in_app_or in Hin.
      destruct Hin as [Hin|[[= <- <-]|[]]]; [exact (Hpagereq _ _ Hin)|reflexivity]. }
    assert (Hex2 : forall r,
              exchanges (@mkWorld W r (exchanges w1 ++ [(groupRequest, groupResult)])%list)
              = (exchanges w ++ (pages ++ [(groupRequest, groupResult)]))%list).
    { intros r. cbn [exchanges]. now rewrite Hex1, <- app_assoc. }
    destruct groupResult as [message|groupResponse].
    { cbn [ret] in Hrun. injection Hrun as <- <-.
      apply (Hquiet [] _ (Hex2 remote2) Hgroup). discriminate. }
    unfold bind at 1, response_json in Hrun.
    destruct (body groupResponse) as [| |o].
    { cbn [throw ret] in Hrun. injection Hrun as <- <-.
      apply (Hquiet [] _ (Hex2 remote2) Hgroup). discriminate. }
    { cbn [throw ret] in Hrun. injection Hrun as <- <-.
      apply (Hquiet [] _ (Hex2 remote2) Hgroup). discriminate. }
    cbn [ret] in Hrun.
    destruct (negb (Js.truthy (data_id o))).
    { cbn [throw ret] in Hrun. injection Hrun as <- <-.
      apply (Hquiet [] _ (Hex2 remote2) Hgroup). discriminate. }
    unfold bind at 1 in Hrun.
    match type of Hrun with
    | context [addSubscribers upstream ?g ?r ?n ?w2] =>
        destruct (addSubscribers_exchanges upstream g r n w2)
          as (added & w3 & subs & Hadd & Hex3 & Hsubs)
    end.
    rewrite Hadd in Hrun. cbn [ret] in Hrun.
    injection Hrun as <- <-.
    rewrite Hex2 in Hex3.
    exists rawCustomers, ((pages ++ [(groupRequest, Responded groupResponse)]) ++ subs)%list.
    split; [now rewrite Hex3, <- !app_assoc|].
    split.
    + intros request result Hin Hsub.
      apply in_app_or in Hin. destruct Hin as [Hin|Hin].
      * rewrite (Hgroup _ _ Hin) in Hsub. discriminate Hsub.
      * assert (Hreq : In request (map (subscriber_request (data_id o)) recs)).
        { rewrite <- Hsubs. now apply (in_map fst) in Hin. }
        apply in_map_iff in Hreq. destruct Hreq as (rec & <- & Hrec).
        apply filter_In in Hrec. destruct Hrec as [Hcand Hkept].
        exists (data_id o), rec. split; [reflexivity|]. split; [exact Hcand|].
        now apply kept_positive_with_email.
    + intros status strategy fetched total sample mailerLite [= <- <- <- <- <- <-].
      split; [now rewrite length_map|]. split; [reflexivity|].
      split; [reflexivity|exact Hsample].
  - cbn [ret] in Hrun. injection Hrun as <- <-.
    exists rawCustomers, pages. split; [exact Hex1|]. split.
    + intros request result Hin Hsub.
      rewrite (Hpagereq _ _ Hin) in Hsub. discriminate Hsub.
    + intros status strategy fetched total sample mailerLite [= <- <- <- <- <- <-].
      split; [now rewrite length_map|]. split; [reflexivity|].
      split; [reflexivity|exact Hsample].
Qed.

(** The win-back rules on the three-customer store: three customers are
    fetched, one recommendation is kept (the default tier gives 0 percent,
    and one customer has no email). *)
Lemma batch_keeps_only_usable_recommendations_witness :
  exists rawCustomers new,
    exchanges (snd (postReactivationBatch demo_upstream demo_env sample_clock 10
                      batch_request fresh_world))
    = (exchanges fresh_world ++ new)%list
    /\ 3%nat = List.length rawCustomers
    /\ 1%nat = List.length
                 (filter kept (candidates sample_clock (Some winback_rules)
                                 rawCustomers)).
Proof.
  destruct (proj2 (batch_keeps_only_usable_recommendations nat demo_upstream
                     demo_env sample_clock 10 batch_request fresh_world
                     (snd (postReactivationBatch demo_upstream demo_env
                             sample_clock 10 batch_request fresh_world))
                     (fst (postReactivationBatch demo_upstream demo_env
                             sample_clock 10 batch_request fresh_world))
                     (surjective_pairing _)))
    as (rawCustomers & new & Hex & _ & Hreply).
  destruct (Hreply 200 (Js.Str "reactivation") 3%nat 1%nat
              [tier_recommendation
                 (customerMetrics sample_clock lapsed_customer) winback_tier]
              (Some (Js.Str "group-1", 1))
              ltac:(vm_compute; reflexivity))
    as (Hfetched & Htotal & _).
  exists rawCustomers, new. split; [exact Hex|]. split; [exact Hfetched|exact Htotal].
Defined.

(* ================================================================== *)
(** * The order of numbers *)
(* ================================================================== *)

Lemma SFcompare_antisym (x y : spec_float) :
  SFcompare y x = option_map CompOpp (SFcompare x y).
Proof.
  destruct x as [sx|sx| |sx mx ex], y as [sy|sy| |sy my ey];
    try (destruct sx); try (destruct sy); try reflexivity.
  - cbn [SFcompare option_map]. rewrite (Z.compare_antisym ey ex).
    destruct (ey ?= ex) eqn:E; cbn [CompOpp]; try reflexivity.
    rewrite (Pos.compare_cont_antisym mx my Eq). cbn [CompOpp].
    now destruct (Pos.compare_cont Eq mx my).
  - cbn [SFcompare option_map]. rewrite (Z.compare_antisym ey ex).
    destruct (ey ?= ex) eqn:E; cbn [CompOpp]; try reflexivity.
    now rewrite (Pos.compare_cont_antisym mx my Eq).
Qed.

Lemma le_not_gt (x y : float) : Js.le x y = true -> Js.gt x y = false.
Proof.
  unfold Js.le, Js.gt. rewrite leb_spec, ltb_spec.
  unfold SFleb, SFltb. rewrite (SFcompare_antisym (Prim2SF x) (Prim2SF y)).
  destruct (SFcompare (Prim2SF x) (Prim2SF y)) as [[]|]; cbn; congruence.
Qed.

Lemma gt_not_le (x y : float) : Js.gt x y = true -> Js.le x y = false.
Proof.
  intros H. destruct (Js.le x y) eqn:E; [|reflexivity].
  apply le_not_gt in E. congruence.
Qed.

Lemma lt_not_ge (x y : float) : Js.lt x y = true -> Js.ge x y = false.
Proof.
  unfold Js.lt, Js.ge. rewrite leb_spec, ltb_spec.
  unfold SFleb, SFltb. rewrite (SFcompare_antisym (Prim2SF x) (Prim2SF y)).
  destruct (SFcompare (Prim2SF x) (Prim2SF y)) as [[]|]; cbn; congruence.
Qed.

Lemma Prim2SF_nan (x : float) : is_nan x = true -> Prim2SF x = S754_nan.
Proof. intros H. unfold Prim2SF. now rewrite H. Qed.

Lemma nan_not_within (x lo hi : float) : is_nan x = true -> within x lo hi = false.
Proof.
  intros H. unfold within, Js.ge. rewrite leb_spec, (Prim2SF_nan x H).
  unfold SFleb, SFcompare. now destruct (Prim2SF lo).
Qed.

(* ================================================================== *)
(** * More on the pagination fetcher *)
(* ================================================================== *)

Section FetcherSessions.

Context {W : Type}.
Variable upstream : W -> Request -> FetchResult * W.

Lemma page_ok_failure (result : FetchResult) :
  page_ok result = true <-> failure_of result = None.
Proof.
  destruct result as [message|response]; cbn; [split; discriminate|].
  destruct (ok response), (body response); cbn; split; congruence.
Qed.

Lemma fetchLoop_session (fuel : nat) (limitTotal : Z) :
  forall allCustomers pageInfo done w outcome w',
    effective_cursor pageInfo = pageInfo ->
    fetchLoop upstream fuel limitTotal allCustomers pageInfo done w = (outcome, w') ->
    exists new,
      exchanges w' = (exchanges w ++ new)%list
      /\ session limitTotal (Z.of_nat (List.length allCustomers)) pageInfo new
      /\ match outcome with
         | Ok l =>
             Forall (fun x => page_ok (snd x) = true) new
             /\ l = slice0 limitTotal (allCustomers ++ pages_of new)%list
         | Throw e =>
             exists before last,
               new = (before ++ [last])%list
               /\ Forall (fun x => page_ok (snd x) = true) before
               /\ failure_of (snd last) = Some e
         | OutOfFuel => Forall (fun x => page_ok (snd x) = true) new
         end.
Proof.
  induction fuel as [|fuel IH];
    intros allCustomers pageInfo done w outcome w' Hcursor Hrun.
  - exists []. rewrite !app_nil_r. cbn [fetchLoop] in Hrun.
    destruct (negb done && _); injection Hrun as <- <-;
      (split; [reflexivity|split; [exact I|]]); [constructor|].
    split; [constructor|reflexivity].
  - cbn [fetchLoop] in Hrun.
    destruct (negb done && _) eqn:Hcond.
    2:{ injection Hrun as <- <-. exists []. rewrite !app_nil_r.
        split; [reflexivity|]. split; [exact I|]. split; [constructor|reflexivity]. }
    apply andb_true_iff in Hcond. destruct Hcond as [_ Hlt]. apply Z.ltb_lt in Hlt.
    unfold bind, fetch in Hrun.
    replace (if truthy_string pageInfo
             then ShopifyGetCustomers
                    (Z.min 250 (limitTotal - Z.of_nat (List.length allCustomers))) pageInfo
             else ShopifyGetCustomers
                    (Z.min 250 (limitTotal - Z.of_nat (List.length allCustomers))) None)
      with (ShopifyGetCustomers
              (Z.min 250 (limitTotal - Z.of_nat (List.length allCustomers))) pageInfo)
      in Hrun
      by (unfold effective_cursor in Hcursor;
          destruct (truthy_string pageInfo); congruence).
    set (request := ShopifyGetCustomers _ pageInfo) in Hrun.
    destruct (upstream (remote w) request) as [result remote'].
    assert (Hsingle : forall r : FetchResult,
               session limitTotal (Z.of_nat (List.length allCustomers)) pageInfo
                 [(request, r)]).
    { intros r. cbn [session]. repeat split; assumption. }
    assert (Hfail : forall e, failure_of result = Some e ->
               exists new,
                 exchanges {| remote := remote';
                              exchanges := (exchanges w ++ [(request, result)])%list |}
                 = (exchanges w ++ new)%list
                 /\ session limitTotal (Z.of_nat (List.length allCustomers)) pageInfo new
                 /\ exists before last,
                     new = (before ++ [last])%list
                     /\ Forall (fun x => page_ok (snd x) = true) before
                     /\ failure_of (snd last) = Some e).
    { intros e He. exists [(request, result)]. split; [reflexivity|].
      split; [apply Hsingle|]. exists [], (request, result).
      repeat split; [constructor|exact He]. }
    destruct result as [message|response].
    { injection Hrun as <- <-. apply Hfail. reflexivity. }
    destruct (negb (ok response)) eqn:Hok.
    { injection Hrun as <- <-. apply Hfail. cbn. now rewrite Hok. }
    unfold response_json in Hrun.
    destruct (body response) as [| |o] eqn:Hbody.
    { injection Hrun as <- <-. apply Hfail. cbn. now rewrite Hok, Hbody. }
    { injection Hrun as <- <-. apply Hfail. cbn. now rewrite Hok, Hbody. }
    cbn [ret] in Hrun.
    assert (Hpage : page_ok (Responded response) = true).
    { cbn. apply negb_false_iff in Hok. now rewrite Hok, Hbody. }
    destruct (parseLinkHeader (link response) pageInfo) as [pageInfo' done'] eqn:Hparse.
    assert (Hcursor' : done' = false -> effective_cursor pageInfo' = pageInfo').
    { intros ->. unfold effective_cursor.
      now rewrite (parseLinkHeader_continue _ _ _ Hparse). }
    destruct done'.
    + rewrite fetchLoop_exit in Hrun by reflexivity.
      injection Hrun as <- <-. exists [(request, Responded response)].
      split; [reflexivity|]. split; [apply Hsingle|].
      split; [repeat constructor; exact Hpage|].
      unfold pages_of. cbn [flat_map snd page_of]. rewrite Hbody.
      now rewrite app_nil_r.
    + apply IH in Hrun; [|now apply Hcursor'].
      destruct Hrun as (new & Hex & Hsession & Hend).
      cbn [exchanges] in Hex.
      exists ((request, Responded response) :: new).
      split; [now rewrite Hex, <- app_assoc|].
      assert (Hnext : exists next, pageInfo' = Some next).
      { pose proof (parseLinkHeader_continue _ _ _ Hparse) as Ht.
        destruct pageInfo' as [next|]; [now exists next|discriminate Ht]. }
      destruct Hnext as [next ->].
      split.
      * cbn [session]. split; [exact Hlt|]. split; [reflexivity|].
        destruct new as [|x new']; [exact I|].
        split; [exact Hpage|]. exists response, next.
        split; [reflexivity|]. split; [exact Hparse|].
        unfold page_of at 1. rewrite Hbody.
        rewrite length_app, Nat2Z.inj_add in Hsession. exact Hsession.
      * destruct outcome as [l|e|].
        -- destruct Hend as [Hall Hl]. split; [constructor; assumption|].
           rewrite Hl. unfold pages_of. cbn [flat_map snd page_of]. rewrite Hbody.
           now rewrite <- app_assoc.
        -- destruct Hend as (before & last & -> & Hall & Hlast).
           exists ((request, Responded response) :: before), last.
           repeat split; [constructor; assumption|exact Hlast].
        -- constructor; assumption.
Qed.

Lemma session_limits (limitTotal : Z) (xs : list (Request * FetchResult)) :
  forall accumulated cursor,
    0 <= accumulated ->
    session limitTotal accumulated cursor xs ->
    Forall (fun x => exists limit,
                requested_limit (fst x) = Some limit
                /\ 0 < limit <= 250 /\ limit <= limitTotal) xs.
Proof.
  induction xs as [|[request result] rest IH]; intros accumulated cursor Hacc Hs;
    [constructor|].
  cbn [session] in Hs. destruct Hs as (Hlt & -> & Hrest).
  constructor.
  - eexists. split; [reflexivity|]. cbn [fst]. lia.
  - destruct rest as [|x rest']; [constructor|].
    destruct Hrest as (_ & response & next & _ & _ & Hs).
    eapply IH; [|exact Hs]. lia.
Qed.

End FetcherSessions.

(** Property X1.  Whatever the upstream answers and however the run ends, the
    requests of a fetch form one cursor chain: the first request carries
    no [page_info]; every later request carries exactly the cursor read
    from the Link header of the response before it, which was an accepted
    page; and each request asks for [min(250, limitTotal - accumulated)]
    customers. *)
Theorem fetch_follows_the_cursor_chain :
  forall (W : Type) (upstream : W -> Request -> FetchResult * W)
         (fuel : nat) (limitTotal : Z) (w w' : World W)
         (outcome : Outcome (list RawCustomer.t)),
    fetchShopifyCustomersPaginated upstream fuel limitTotal w = (outcome, w') ->
    exists new,
      exchanges w' = (exchanges w ++ new)%list
      /\ session limitTotal 0 None new.
Proof.
  intros W upstream fuel limitTotal w w' outcome Hrun.
  destruct (fetchLoop_session upstream fuel limitTotal [] None false w outcome w'
              eq_refl Hrun) as (new & Hex & Hs & _).
  exists new. split; assumption.
Qed.

Lemma fetch_follows_the_cursor_chain_witness :
  exists new,
    exchanges (snd (fetchShopifyCustomersPaginated trickle_upstream 5 2 fresh_world))
    = (exchanges fresh_world ++ new)%list
    /\ session 2 0 None new.
Proof.
  apply (fetch_follows_the_cursor_chain nat trickle_upstream 5 2 fresh_world
           (snd (fetchShopifyCustomersPaginated trickle_upstream 5 2 fresh_world))
           (fst (fetchShopifyCustomersPaginated trickle_upstream 5 2 fresh_world))).
  apply surjective_pairing.
Defined.

(** Property X2.  Every request a fetch issues asks for a positive number of
    customers, at most 250 and never more than [limitTotal]; [limitTotal]
    ranges over the integers here. *)
Theorem fetch_page_sizes_are_bounded :
  forall (W : Type) (upstream : W -> Request -> FetchResult * W)
         (fuel : nat) (limitTotal : Z) (w w' : World W)
         (outcome : Outcome (list RawCustomer.t)),
    fetchShopifyCustomersPaginated upstream fuel limitTotal w = (outcome, w') ->
    exists new,
      exchanges w' = (exchanges w ++ new)%list
      /\ Forall (fun x => exists limit,
                    requested_limit (fst x) = Some limit
                    /\ 0 < limit <= 250 /\ limit <= limitTotal) new.
Proof.
  intros W upstream fuel limitTotal w w' outcome Hrun.
  destruct (fetchLoop_session upstream fuel limitTotal [] None false w outcome w'
              eq_refl Hrun) as (new & Hex & Hs & _).
  exists new. split; [exact Hex|].
  apply (session_limits limitTotal new 0 None); [lia|exact Hs].
Qed.

Lemma fetch_page_sizes_are_bounded_witness :
  exists new,
    exchanges (snd (fetchShopifyCustomersPaginated trickle_upstream 5 2 fresh_world))
    = (exchanges fresh_world ++ new)%list
    /\ Forall (fun x => exists limit,
                  requested_limit (fst x) = Some limit
                  /\ 0 < limit <= 250 /\ limit <= 2) new.
Proof.
  apply (fetch_page_sizes_are_bounded nat trickle_upstream 5 2 fresh_world
           (snd (fetchShopifyCustomersPaginated trickle_upstream 5 2 fresh_world))
           (fst (fetchShopifyCustomersPaginated trickle_upstream 5 2 fresh_world))).
  apply surjective_pairing.
Defined.



Lemma session_nil_when_no_room (limitTotal : Z) (xs : list (Request * FetchResult)) :
  limitTotal <= 0 -> session limitTotal 0 None xs -> xs = [].
Proof.
  intros Hle Hs. destruct xs as [|[request result] rest]; [reflexivity|].
  cbn [session] in Hs. lia.
Qed.

Lemma slice0_prefix {A} (n : Z) (l : list A) :
  exists rest, l = (slice0 n l ++ rest)%list.
Proof.
  unfold slice0. destruct (n <? 0); eexists; symmetry; apply firstn_skipn.
Qed.

Lemma fetch_result_bound {W : Type} (upstream : W -> Request -> FetchResult * W)
  (fuel : nat) (limitTotal : Z) (w w' : World W)
  (rawCustomers : list RawCustomer.t) :
  fetchShopifyCustomersPaginated upstream fuel limitTotal w
  = (Ok rawCustomers, w') ->
  Z.of_nat (List.length rawCustomers) <= Z.max 0 limitTotal
  /\ exists new dropped,
      exchanges w' = (exchanges w ++ new)%list
      /\ pages_of new = (rawCustomers ++ dropped)%list.
Proof.
  intros Hrun.
  destruct (fetchLoop_session upstream fuel limitTotal [] None false w _ w'
              eq_refl Hrun) as (new & Hex & Hs & _ & Hl).
  cbn [app] in Hl. split.
  - destruct (Z_le_gt_dec limitTotal 0) as [Hle|Hgt].
    + rewrite (session_nil_when_no_room limitTotal new Hle Hs) in Hl.
      subst rawCustomers. unfold pages_of, slice0. cbn [flat_map].
      destruct (limitTotal <? 0); rewrite firstn_nil; cbn; lia.
    + subst rawCustomers. rewrite slice0_length by lia. lia.
  - destruct (slice0_prefix limitTotal (pages_of new)) as [dropped Hd].
    exists new, dropped. split; [exact Hex|]. now rewrite Hl.
Qed.

Section StallingUpstream.

Context {W : Type}.
Variable upstream : W -> Request -> FetchResult * W.
Hypothesis Hstalls : stalls upstream.

Lemma fetchLoop_stalls (limitTotal : Z) (fuel : nat) :
  0 < limitTotal ->
  forall pageInfo w,
  exists w',
    fetchLoop upstream fuel limitTotal [] pageInfo false w = (OutOfFuel, w')
    /\ List.length (exchanges w') = (List.length (exchanges w) + fuel)%nat.
Proof.
  intros Hpos. induction fuel as [|fuel IH]; intros pageInfo w.
  - exists w. cbn [fetchLoop negb andb List.length Z.of_nat].
    replace (0 <? limitTotal) with true by (symmetry; now apply Z.ltb_lt).
    split; [reflexivity|lia].
  - cbn [fetchLoop negb andb List.length Z.of_nat].
    replace (0 <? limitTotal) with true by (symmetry; now apply Z.ltb_lt).
    unfold bind, fetch.
    set (request := if truthy_string pageInfo then _ else _).
    assert (Hreq : exists limit cursor, request = ShopifyGetCustomers limit cursor).
    { subst request. destruct (truthy_string pageInfo); eauto. }
    destruct Hreq as (limit & cursor & ->).
    destruct (Hstalls (remote w) limit cursor)
      as (response & remote' & Hup & Hok & Hpage & Hlink).
    rewrite Hup.
    cbn [page_ok] in Hok. apply andb_true_iff in Hok. destruct Hok as [Hok Hbody].
    rewrite Hok. cbn [negb]. unfold response_json.
    cbn [page_of] in Hpage.
    destruct (body response) as [| |o]; try discriminate Hbody.
    cbn [ret]. rewrite Hpage. cbn [app].
    specialize (Hlink pageInfo).
    destruct (parseLinkHeader (link response) pageInfo) as [pageInfo' done'].
    cbn [snd] in Hlink. subst done'.
    destruct (IH pageInfo'
                {| remote := remote';
                   exchanges := (exchanges w
                     ++ [(ShopifyGetCustomers limit cursor, Responded response)])%list |})
      as (w' & Hrun & Hlen).
    exists w'. split; [exact Hrun|].
    rewrite Hlen. cbn [exchanges]. rewrite length_app. cbn [List.length]. lia.
Qed.

End StallingUpstream.

(** Property X4.  The loop has no bound of its own on the number of
    requests: against an upstream that keeps answering with an empty page
    and a next link, a fetch of a positive number of customers never
    returns; however many iterations it is given, it spends them all, one
    request each. *)
Theorem fetch_never_returns_from_a_stalling_upstream :
  forall (W : Type) (upstream : W -> Request -> FetchResult * W)
         (limitTotal : Z) (fuel : nat) (w : World W),
    stalls upstream ->
    0 < limitTotal ->
    exists w',
      fetchShopifyCustomersPaginated upstream fuel limitTotal w = (OutOfFuel, w')
      /\ List.length (exchanges w') = (List.length (exchanges w) + fuel)%nat.
Proof.
  intros W upstream limitTotal fuel w Hstalls Hpos.
  apply (fetchLoop_stalls upstream Hstalls limitTotal fuel Hpos None w).
Qed.

Lemma stall_upstream_stalls : stalls stall_upstream.
Proof.
  intros w limit cursor. eexists _, _. split; [reflexivity|].
  split; [reflexivity|]. split; [reflexivity|].
  intros pageInfo. reflexivity.
Qed.

Lemma fetch_never_returns_from_a_stalling_upstream_witness :
  exists w',
    fetchShopifyCustomersPaginated stall_upstream 40 1000 fresh_world = (OutOfFuel, w')
    /\ List.length (exchanges w') = (List.length (exchanges fresh_world) + 40)%nat.
Proof.
  apply (fetch_never_returns_from_a_stalling_upstream nat stall_upstream 1000 40
           fresh_world stall_upstream_stalls).
  lia.
Defined.

(* ================================================================== *)
(** * The Link header *)
(* ================================================================== *)

Lemma starts_with_split (p s : string) :
  Js.starts_with p s = true -> s = p ++ Js.drop_chars (String.length p) s.
Proof.
  revert s. induction p as [|a p IH]; intros s H; [reflexivity|].
  destruct s as [|b s]; [discriminate H|].
  cbn [Js.starts_with] in H. apply andb_true_iff in H. destruct H as [Hab Hp].
  apply Ascii.eqb_eq in Hab. subst b.
  cbn [String.length Js.drop_chars String.append]. f_equal. now apply IH.
Qed.

Lemma span_split (p : ascii -> bool) (s a b : string) :
  Js.span p s = (a, b) ->
  s = a ++ b /\ all_chars p a = true /\ stops p b = true.
Proof.
  revert a b. induction s as [|c r IH]; intros a b H; cbn [Js.span] in H.
  - injection H as <- <-. repeat split.
  - destruct (p c) eqn:Hc.
    + destruct (Js.span p r) as [a' b'] eqn:Hr. injection H as <- <-.
      destruct (IH a' b' eq_refl) as (-> & Ha & Hb).
      cbn [String.append all_chars]. rewrite Hc. repeat split; assumption.
    + injection H as <- <-. cbn [String.append all_chars stops].
      rewrite Hc. repeat split.
Qed.

Lemma match_page_info_sound (s cursor : string) :
  match_page_info s = Some cursor ->
  exists before after,
    s = before ++ "page_info=" ++ cursor ++ after
    /\ cursor <> ""
    /\ all_chars is_cursor_char cursor = true
    /\ stops is_cursor_char after = true.
Proof.
  induction s as [|c r IH]; intros H.
  - cbn in H. discriminate H.
  - cbn [match_page_info] in H.
    destruct (Js.starts_with "page_info=" (String c r)) eqn:Hstart.
    + destruct (Js.span is_cursor_char (Js.drop_chars 10 (String c r)))
        as [found after] eqn:Hspan.
      destruct (Js.is_empty found) eqn:Hempty.
      * apply IH in H. destruct H as (before & after' & -> & Hrest).
        exists (String c before), after'. split; [reflexivity|exact Hrest].
      * injection H as <-.
        apply span_split in Hspan. destruct Hspan as (Hdrop & Hall & Hstop).
        exists "", after. split.
        -- rewrite (starts_with_split _ _ Hstart) at 1.
           change (String.length "page_info=") with 10%nat. rewrite Hdrop.
           reflexivity.
        -- split; [|split; assumption].
           intros ->. discriminate Hempty.
    + apply IH in H. destruct H as (before & after' & -> & Hrest).
      exists (String c before), after'. split; [reflexivity|exact Hrest].
Qed.

(** Property X5.  When the Link header makes the loop go on, the cursor of
    the next request was read from the header: it stands, after the text
    [page_info=], in the first comma-separated entry of the header that
    contains [rel="next"]; it is not empty, contains neither [&] nor [>],
    and ends where the entry ends or at the first [&] or [>]. *)
Theorem next_cursor_is_read_from_the_next_link :
  forall (linkHeader pageInfo : option string) (next : option string),
    parseLinkHeader linkHeader pageInfo = (next, false) ->
    exists header entry cursor before after,
      linkHeader = Some header
      /\ find (Js.includes rel_next) (Js.split ","%char header) = Some entry
      /\ next = Some cursor
      /\ entry = before ++ "page_info=" ++ cursor ++ after
      /\ cursor <> ""
      /\ all_chars is_cursor_char cursor = true
      /\ stops is_cursor_char after = true.
Proof.
  intros linkHeader pageInfo next H. unfold parseLinkHeader in H.
  destruct (truthy_string linkHeader) eqn:Hheader; cbn [negb] in H;
    [|discriminate H].
  destruct linkHeader as [header|]; [|discriminate Hheader].
  destruct (find (Js.includes rel_next) (Js.split ","%char header))
    as [entry|] eqn:Hfind; [|discriminate H].
  destruct (truthy_string (Some entry)) eqn:Hentry; cbn [negb] in H;
    [|discriminate H].
  destruct (match_page_info entry) as [cursor|] eqn:Hmatch.
  - injection H as <- _.
    destruct (match_page_info_sound _ _ Hmatch)
      as (before & after & Hsplit & Hne & Hall & Hstop).
    exists header, entry, cursor, before, after.
    repeat split; assumption.
  - cbn in H. discriminate H.
Qed.

Lemma next_cursor_is_read_from_the_next_link_witness :
  exists header entry cursor before after,
    demo_link 1 = Some header
    /\ find (Js.includes rel_next) (Js.split ","%char header) = Some entry
    /\ Some "page1" = Some cursor
    /\ entry = before ++ "page_info=" ++ cursor ++ after
    /\ cursor <> ""
    /\ all_chars is_cursor_char cursor = true
    /\ stops is_cursor_char after = true.
Proof.
  apply (next_cursor_is_read_from_the_next_link (demo_link 1) None (Some "page1")).
  vm_compute. reflexivity.
Defined.

(* ================================================================== *)
(** * Customers no tier applies to *)
(* ================================================================== *)

Lemma is_nan_Prim2SF (x : float) : Prim2SF x = S754_nan -> is_nan x = true.
Proof.
  intros H. unfold is_nan. rewrite eqb_spec, H. reflexivity.
Qed.

Lemma is_nan_nan (x : float) : is_nan x = true -> x = nan.
Proof.
  intros H. rewrite <- (SF2Prim_Prim2SF x), (Prim2SF_nan x H). reflexivity.
Qed.

Lemma sub_nan (x : float) : (x - nan)%float = nan.
Proof.
  apply is_nan_nan, is_nan_Prim2SF. rewrite sub_spec.
  change (Prim2SF nan) with S754_nan.
  now destruct (Prim2SF x) as [s|s| |s m e].
Qed.

Lemma nan_div (y : float) : (nan / y)%float = nan.
Proof.
  apply is_nan_nan, is_nan_Prim2SF. rewrite div_spec.
  change (Prim2SF nan) with S754_nan. reflexivity.
Qed.

Lemma Math_floor_nan : Js.Math_floor nan = nan.
Proof. reflexivity. Qed.

Lemma tier_applies_nan (customer : Metrics.t) (tier : Tier.t) :
  is_nan (Metrics.totalSpent customer) = true
  \/ is_nan (Metrics.daysSinceLastOrder customer) = true ->
  tier_applies customer tier = false.
Proof.
  unfold tier_applies. intros [H|H]; rewrite (nan_not_within _ _ _ H);
    [reflexivity|apply andb_false_r].
Qed.

Lemma only_the_default (customer : Metrics.t) (ruleConfig : option RuleConfig.t) :
  (forall tier, In tier (tiers_of ruleConfig) -> tier_applies customer tier = false) ->
  applyRuleConfigToCustomer customer ruleConfig
  = option_map (default_recommendation customer) (default_of ruleConfig).
Proof.
  intros H. rewrite applyRuleConfigToCustomer_cases, (matchTiers_none _ _ H).
  now destruct (default_of ruleConfig).
Qed.

(** Property X6.  A customer whose [total_spent] is a string that, leading
    white space apart, does not start with a number, or whose timestamp [updated_at || created_at] is a
    string that [Date.parse] rejects, matches no tier, whatever the bounds
    of the tiers are: the matcher gives it the recommendation of the default
    tier, or [null] when there is none. *)
Theorem unparseable_customers_get_only_the_default :
  forall (clock : Clock) (customer : RawCustomer.t)
         (ruleConfig : option RuleConfig.t) (s : string),
    s <> "" ->
    (RawCustomer.total_spent customer = Js.Str s /\ unparseable s)
    \/ (last_activity customer = Js.Str s /\ is_nan (Date_parse clock s) = true) ->
    applyRuleConfigToCustomer (customerMetrics clock customer) ruleConfig
    = option_map (default_recommendation (customerMetrics clock customer))
        (default_of ruleConfig).
Proof.
  intros clock customer ruleConfig s Hne H.
  apply only_the_default. intros tier _. apply tier_applies_nan.
  assert (Htruthy : Js.truthy (Js.Str s) = true)
    by (destruct s; [congruence|reflexivity]).
  cbn [customerMetrics Metrics.totalSpent Metrics.daysSinceLastOrder].
  fold (last_activity customer).
  destruct H as [[Hs Hun]|[Hs Hnan]]; [left|right].
  - rewrite Hs, (or_else_truthy _ _ Htruthy).
    unfold Js.parseFloat, Js.parseFloat_string. cbn [Js.ToString].
    unfold unparseable in Hun. now rewrite Hun.
  - rewrite Hs, Htruthy. cbn [Date_new].
    rewrite (is_nan_nan _ Hnan).
    change (TimeClip nan) with nan.
    now rewrite sub_nan, nan_div, Math_floor_nan.
Qed.

Lemma unparseable_customers_get_only_the_default_witness :
  applyRuleConfigToCustomer (customerMetrics sample_clock garbled_spend_customer)
    (Some winback_rules)
  = option_map
      (default_recommendation (customerMetrics sample_clock garbled_spend_customer))
      (default_of (Some winback_rules))
  /\ applyRuleConfigToCustomer (customerMetrics sample_clock undated_customer)
       (Some winback_rules)
     = option_map
         (default_recommendation (customerMetrics sample_clock undated_customer))
         (default_of (Some winback_rules)).
Proof.
  split.
  - apply (unparseable_customers_get_only_the_default sample_clock
             garbled_spend_customer (Some winback_rules) "abc").
    + discriminate.
    + left. split; reflexivity.
  - apply (unparseable_customers_get_only_the_default sample_clock
             undated_customer (Some winback_rules) "yesterday").
    + discriminate.
    + right. split; reflexivity.
Defined.

Lemma tier_applies_negative_days (customer : Metrics.t) (tier : Tier.t) :
  Js.lt (Metrics.daysSinceLastOrder customer) 0 = true ->
  bound_or 0 (Tier.minDaysSinceLastOrder tier) = 0%float ->
  tier_applies customer tier = false.
Proof.
  intros Hneg Hmin. unfold tier_applies, within. rewrite Hmin.
  rewrite (lt_not_ge _ _ Hneg). cbn [andb]. apply andb_false_r.
Qed.

(** Property X7.  [daysSinceLastOrder] is negative for a customer whose
    timestamp lies in the future, and such a customer matches no tier
    whose [minDaysSinceLastOrder] is unset (or 0): with a configuration
    whose tiers all leave that bound unset, the matcher gives it the
    default tier's recommendation, or [null]. *)
Theorem future_dated_customers_get_only_the_default :
  forall (customer : Metrics.t) (ruleConfig : option RuleConfig.t),
    Js.lt (Metrics.daysSinceLastOrder customer) 0 = true ->
    (forall tier, In tier (tiers_of ruleConfig) ->
                  bound_or 0 (Tier.minDaysSinceLastOrder tier) = 0%float) ->
    applyRuleConfigToCustomer customer ruleConfig
    = option_map (default_recommendation customer) (default_of ruleConfig).
Proof.
  intros customer ruleConfig Hneg Hmin.
  apply only_the_default. intros tier Hin.
  apply (tier_applies_negative_days _ _ Hneg (Hmin tier Hin)).
Qed.

Lemma future_dated_customers_get_only_the_default_witness :
  applyRuleConfigToCustomer (customerMetrics sample_clock future_customer)
    (Some winback20_config)
  = option_map
      (default_recommendation (customerMetrics sample_clock future_customer))
      (default_of (Some winback20_config)).
Proof.
  apply (future_dated_customers_get_only_the_default
           (customerMetrics sample_clock future_customer) (Some winback20_config)).
  - vm_compute. reflexivity.
  - intros tier [<-|[]]. reflexivity.
Defined.

(* ================================================================== *)
(** * The requests of the discounts endpoint *)
(* ================================================================== *)

Section DiscountRequests.

Context {W : Type}.
Variable upstream : W -> Request -> FetchResult * W.

Lemma createDiscountCode_attempt (code : string) (percentage : float)
  (w : World W) :
  exists outcome w' new created,
    createDiscountCode upstream code percentage w = (outcome, w')
    /\ exchanges w' = (exchanges w ++ new)%list
    /\ attempt (code, percentage) new created
    /\ (if created then outcome = Ok tt else exists e, outcome = Throw e).
Proof.
  unfold createDiscountCode, bind at 1, fetch.
  change (ShopifyPostPriceRule _ _) with (price_rule_request (code, percentage)).
  destruct (upstream (remote w) (price_rule_request (code, percentage)))
    as [r1 remote1].
  set (w1 := {| remote := remote1; exchanges := _ |}).
  assert (Hrefused : forall e, granted r1 = None ->
            exists outcome w' new created,
              (@Throw unit e, w1) = (outcome, w')
              /\ exchanges w' = (exchanges w ++ new)%list
              /\ attempt (code, percentage) new created
              /\ (if created then outcome = Ok tt else exists e, outcome = Throw e)).
  { intros e Hg. exists (Throw e), w1, [(price_rule_request (code, percentage), r1)], false.
    repeat split; [now constructor|now exists e]. }
  destruct r1 as [message|response1]; [now apply Hrefused|].
  destruct (ok response1) eqn:Hok1; cbn [negb].
  2:{ unfold bind, response_json.
      destruct (body response1); cbn [throw ret]; apply Hrefused; cbn; now rewrite Hok1. }
  unfold bind at 1, response_json.
  destruct (body response1) as [| |o] eqn:Hbody1; cbn [throw ret];
    try (apply Hrefused; cbn; now rewrite Hok1, Hbody1).
  unfold bind at 1. cbn [throw ret].
  destruct (price_rule_id o) as [id|] eqn:Hid; cbn [throw ret];
    [|apply Hrefused; cbn; now rewrite Hok1, Hbody1].
  assert (Hgranted : granted (Responded response1) = Some id)
    by (cbn; now rewrite Hok1, Hbody1).
  unfold bind at 1, fetch. cbn [remote exchanges w1].
  destruct (upstream remote1 (ShopifyPostDiscountCode id code)) as [r2 remote2].
  set (w2 := {| remote := remote2; exchanges := _ |}).
  assert (Hdone : forall outcome,
            (if accepted r2 then outcome = Ok tt else exists e, outcome = Throw e) ->
            exists outcome' w' new created,
              (outcome, w2) = (outcome', w')
              /\ exchanges w' = (exchanges w ++ new)%list
              /\ attempt (code, percentage) new created
              /\ (if created then outcome' = Ok tt else exists e, outcome' = Throw e)).
  { intros outcome Hout.
    exists outcome, w2,
      [(price_rule_request (code, percentage), Responded response1);
       (ShopifyPostDiscountCode id code, r2)], (accepted r2).
    split; [reflexivity|]. split; [cbn; now rewrite <- app_assoc|].
    split; [|exact Hout].
    apply (code_requested (code, percentage) _ r2 id Hgranted). }
  destruct r2 as [message|response2]; [apply Hdone; cbn; eauto|].
  destruct (ok response2) eqn:Hok2; cbn [negb].
  - apply Hdone. cbn. now rewrite Hok2.
  - unfold bind, response_json.
    destruct (body response2); cbn [throw ret]; apply Hdone; cbn; rewrite Hok2; eauto.
Qed.

Lemma createDiscountCodes_attempts (entries : list (string * float)) :
  forall createdCodes failedCodes w,
  exists created failed w' passes,
    createDiscountCodes upstream entries createdCodes failedCodes w
    = (Ok (created, failed), w')
    /\ exchanges w' = (exchanges w ++ List.concat (map fst passes))%list
    /\ Forall2 (fun entry pass => attempt entry (fst pass) (snd pass)) entries passes
    /\ created = (createdCodes ++ made entries passes)%list
    /\ map fst failed = (map fst failedCodes ++ not_made entries passes)%list.
Proof.
  induction entries as [|[code percentage] rest IH]; intros createdCodes failedCodes w.
  - exists createdCodes, failedCodes, w, [].
    cbn. rewrite !app_nil_r. repeat split. constructor.
  - destruct (createDiscountCode_attempt code percentage w)
      as (outcome & w1 & new & flag & Hrun & Hex & Hattempt & Hflag).
    cbn [createDiscountCodes]. unfold bind at 1, try_catch, bind at 1.
    rewrite Hrun.
    destruct flag.
    + subst outcome. cbn [ret fst snd].
      destruct (IH (createdCodes ++ [(code, percentage)])%list failedCodes w1)
        as (created & failed & w' & passes & Hrest & Hex' & Hall & Hc & Hf).
      exists created, failed, w', ((new, true) :: passes).
      split; [exact Hrest|].
      split; [rewrite Hex', Hex; cbn; now rewrite <- !app_assoc|].
      split; [constructor; assumption|].
      unfold made, not_made in *. cbn [combine filter snd negb map fst].
      split; [rewrite Hc, <- app_assoc; reflexivity|exact Hf].
    + destruct Hflag as [e ->]. cbn [ret fst snd].
      destruct (IH createdCodes (failedCodes ++ [(code, e)])%list w1)
        as (created & failed & w' & passes & Hrest & Hex' & Hall & Hc & Hf).
      exists created, failed, w', ((new, false) :: passes).
      split; [exact Hrest|].
      split; [rewrite Hex', Hex; cbn; now rewrite <- !app_assoc|].
      split; [constructor; assumption|].
      unfold made, not_made in *. cbn [combine filter snd negb map fst].
      split; [exact Hc|]. rewrite Hf, map_app, <- app_assoc. reflexivity.
Qed.

Lemma attempts_price_rules (entries : list (string * float))
  (passes : list (list (Request * FetchResult) * bool)) :
  Forall2 (fun entry pass => attempt entry (fst pass) (snd pass)) entries passes ->
  filter is_price_rule_request (map fst (List.concat (map fst passes)))
  = map price_rule_request entries.
Proof.
  induction 1 as [|entry pass entries passes Hattempt _ IH]; [reflexivity|].
  cbn [map List.concat]. rewrite map_app, filter_app, IH.
  destruct Hattempt; reflexivity.
Qed.

Lemma attempts_length (entries : list (string * float))
  (passes : list (list (Request * FetchResult) * bool)) :
  Forall2 (fun entry pass => attempt entry (fst pass) (snd pass)) entries passes ->
  (List.length (List.concat (map fst passes)) <= 2 * List.length entries)%nat.
Proof.
  induction 1 as [|entry pass entries passes Hattempt _ IH]; [cbn; lia|].
  cbn [map List.concat List.length]. rewrite length_app.
  destruct Hattempt; cbn [fst List.length]; lia.
Qed.

Lemma attempts_made (entries : list (string * float))
  (passes : list (list (Request * FetchResult) * bool)) :
  Forall2 (fun entry pass => attempt entry (fst pass) (snd pass)) entries passes ->
  forall entry, In entry (made entries passes) ->
    exists r1 r2 id,
      In (price_rule_request entry, r1) (List.concat (map fst passes))
      /\ granted r1 = Some id
      /\ In (ShopifyPostDiscountCode id (fst entry), r2) (List.concat (map fst passes))
      /\ accepted r2 = true.
Proof.
  induction 1 as [|entry0 pass entries passes Hattempt _ IH]; intros entry Hin;
    [destruct Hin|].
  unfold made in Hin. cbn [combine filter] in Hin.
  cbn [map List.concat].
  destruct (snd (snd (entry0, pass))) eqn:Hflag.
  - cbn [map fst In] in Hin. destruct Hin as [<-|Hin].
    + cbn [snd] in Hflag. destruct Hattempt as [r1 Hg|r1 r2 id Hg];
        [discriminate Hflag|].
      exists r1, r2, id. cbn [fst snd] in *.
      split; [apply in_or_app; left; now left|].
      split; [exact Hg|].
      split; [apply in_or_app; left; right; now left|exact Hflag].
    + destruct (IH entry Hin) as (r1 & r2 & id & H1 & Hg & H2 & Ha).
      exists r1, r2, id. repeat split; try assumption; apply in_or_app; now right.
  - destruct (IH entry Hin) as (r1 & r2 & id & H1 & Hg & H2 & Ha).
    exists r1, r2, id. repeat split; try assumption; apply in_or_app; now right.
Qed.

End DiscountRequests.

Section DiscountsEndpoint.

Context {W : Type}.
Variable upstream : W -> Request -> FetchResult * W.

Lemma postShopifyDiscounts_passes (env : Env)
  (recommendations : list Recommendation.t) (w : World W) :
  shopify_configured env = true ->
  exists reply w' passes,
    postShopifyDiscounts upstream env (Some recommendations) w = (Ok reply, w')
    /\ exchanges w' = (exchanges w ++ List.concat (map fst passes))%list
    /\ Forall2 (fun entry pass => attempt entry (fst pass) (snd pass))
         (JsObject.entries (collectUniqueCodes recommendations)) passes
    /\ (forall status created failed,
          reply = mkReply status (DiscountsResult created failed) ->
          created
          = made (JsObject.entries (collectUniqueCodes recommendations)) passes
          /\ map fst failed
             = not_made (JsObject.entries (collectUniqueCodes recommendations))
                 passes).
Proof.
  intros Hcfg. unfold shopify_configured in Hcfg.
  apply andb_true_iff in Hcfg. destruct Hcfg as [Hkey Hstore].
  unfold postShopifyDiscounts, try_catch. rewrite Hkey, Hstore. cbn [negb orb].
  destruct recommendations as [|first others].
  - eexists _, w, []. split; [reflexivity|]. cbn. rewrite app_nil_r.
    split; [reflexivity|]. split; [constructor|]. intros ? ? ? [=].
  - unfold bind.
    destruct (createDiscountCodes_attempts upstream
                (JsObject.entries (collectUniqueCodes (first :: others))) [] [] w)
      as (created & failed & w' & passes & Hrun & Hex & Hall & Hc & Hf).
    rewrite Hrun. cbn [ret fst snd].
    eexists _, w', passes. split; [reflexivity|].
    split; [exact Hex|]. split; [exact Hall|].
    intros status created' failed' [= _ <- <-]. split; assumption.
Qed.

End DiscountsEndpoint.

(** Property X8.  With the Shopify credentials configured, the discounts
    endpoint asks for exactly one price rule per distinct collected code,
    in the order of [Object.entries], however many recommendations share
    the code; the rule is titled "<code> - AI Dynamic Pricing" and valued
    "-<percentage>".  It issues at most two requests per code. *)
Theorem one_price_rule_per_distinct_code :
  forall (W : Type) (upstream : W -> Request -> FetchResult * W) (env : Env)
         (recommendations : list Recommendation.t) (w : World W),
    shopify_configured env = true ->
    exists new,
      exchanges (snd (postShopifyDiscounts upstream env (Some recommendations) w))
      = (exchanges w ++ new)%list
      /\ filter is_price_rule_request (map fst new)
         = map price_rule_request
             (JsObject.entries (collectUniqueCodes recommendations))
      /\ NoDup (map fst (JsObject.entries (collectUniqueCodes recommendations)))
      /\ (List.length new
          <= 2 * List.length (JsObject.entries (collectUniqueCodes recommendations)))%nat.
Proof.
  intros W upstream env recommendations w Hcfg.
  destruct (postShopifyDiscounts_passes upstream env recommendations w Hcfg)
    as (reply & w' & passes & Hrun & Hex & Hall & _).
  rewrite Hrun. cbn [snd].
  exists (List.concat (map fst passes)).
  split; [exact Hex|].
  split; [now apply attempts_price_rules|].
  split; [apply collected_codes_distinct|now apply attempts_length].
Qed.

Lemma one_price_rule_per_distinct_code_witness :
  exists new,
    exchanges (snd (postShopifyDiscounts demo_upstream demo_env (Some mixed_codes)
                      fresh_world))
    = (exchanges fresh_world ++ new)%list
    /\ filter is_price_rule_request (map fst new)
       = map price_rule_request (JsObject.entries (collectUniqueCodes mixed_codes))
    /\ NoDup (map fst (JsObject.entries (collectUniqueCodes mixed_codes)))
    /\ (List.length new
        <= 2 * List.length (JsObject.entries (collectUniqueCodes mixed_codes)))%nat.
Proof.
  apply (one_price_rule_per_distinct_code nat demo_upstream demo_env mixed_codes
           fresh_world).
  reflexivity.
Defined.

(** Property X9.  A code is reported in [createdCodes] only when Shopify
    accepted both of its requests: the price rule request was answered 2xx
    with a [price_rule] object, and the discount code request, posted
    under the id of that price rule, was answered 2xx. *)
Theorem created_codes_were_accepted :
  forall (W : Type) (upstream : W -> Request -> FetchResult * W) (env : Env)
         (recommendations : list Recommendation.t) (w w' : World W)
         (status : Z) (createdCodes : list (string * float))
         (failedCodes : list (string * Error)),
    postShopifyDiscounts upstream env (Some recommendations) w
    = (Ok (mkReply status (DiscountsResult createdCodes failedCodes)), w') ->
    exists new,
      exchanges w' = (exchanges w ++ new)%list
      /\ forall entry,
          In entry createdCodes ->
          exists r1 r2 id,
            In (price_rule_request entry, r1) new
            /\ granted r1 = Some id
            /\ In (ShopifyPostDiscountCode id (fst entry), r2) new
            /\ accepted r2 = true.
Proof.
  intros W upstream env recommendations w w' status createdCodes failedCodes Hrun.
  destruct (shopify_configured env) eqn:Hcfg.
  - destruct (postShopifyDiscounts_passes upstream env recommendations w Hcfg)
      as (reply & w1 & passes & Hrun' & Hex & Hall & Hreply).
    rewrite Hrun in Hrun'. injection Hrun' as <- <-.
    destruct (Hreply _ _ _ eq_refl) as [-> _].
    exists (List.concat (map fst passes)). split; [exact Hex|].
    now apply attempts_made.
  - unfold postShopifyDiscounts, try_catch in Hrun.
    unfold shopify_configured in Hcfg.
    replace (negb (Js.truthy (SHOPIFY_API_KEY env))
             || negb (Js.truthy (SHOPIFY_STORE env))) with true in Hrun
      by (now destruct (Js.truthy (SHOPIFY_API_KEY env)),
                       (Js.truthy (SHOPIFY_STORE env))).
    discriminate Hrun.
Qed.

Lemma created_codes_were_accepted_witness :
  exists new,
    exchanges (snd (postShopifyDiscounts demo_upstream demo_env (Some mixed_codes)
                      fresh_world))
    = (exchanges fresh_world ++ new)%list
    /\ forall entry,
        In entry [("7", 7%float); ("SAVE15", 15%float)] ->
        exists r1 r2 id,
          In (price_rule_request entry, r1) new
          /\ granted r1 = Some id
          /\ In (ShopifyPostDiscountCode id (fst entry), r2) new
          /\ accepted r2 = true.
Proof.
  apply (created_codes_were_accepted nat demo_upstream demo_env mixed_codes
           fresh_world _ 200 [("7", 7%float); ("SAVE15", 15%float)]
           [("BROKEN", DiscountCodeCreationFailed json_errors)]).
  vm_compute. reflexivity.
Defined.

Lemma collectCode_prototype (key : string) (o : JsObject.t)
  (rec : Recommendation.t) :
  In key JsObject.prototype_keys ->
  JsObject.get_own o key = None ->
  JsObject.get_own (collectCode o rec) key = None.
Proof.
  intros Hproto Ho. unfold collectCode.
  destruct (Js.truthy (Recommendation.discountCode rec)); [|exact Ho].
  destruct (Recommendation.discountPercent rec); try exact Ho.
  destruct (JsObject.get_truthy o _) eqn:Ht; cbn [negb]; [exact Ho|].
  rewrite get_own_set_other; [exact Ho|].
  intros Heq. rewrite Heq in Ht. unfold JsObject.get_truthy in Ht.
  rewrite Ho in Ht.
  assert (Hex : existsb (String.eqb key) JsObject.prototype_keys = true).
  { apply existsb_exists. exists key. split; [exact Hproto|apply String.eqb_refl]. }
  congruence.
Qed.

Lemma collectUniqueCodes_prototype (key : string)
  (recommendations : list Recommendation.t) :
  In key JsObject.prototype_keys ->
  ~ In key (map fst (JsObject.entries (collectUniqueCodes recommendations))).
Proof.
  intros Hproto.
  assert (Hnone : forall o, JsObject.get_own o key = None ->
            JsObject.get_own (fold_left collectCode recommendations o) key = None).
  { induction recommendations as [|rec rest IH]; intros o Ho; [exact Ho|].
    cbn [fold_left]. apply IH. now apply collectCode_prototype. }
  specialize (Hnone [] eq_refl). apply get_own_None in Hnone.
  intros Hin. apply Hnone.
  apply (Permutation_in key (Permutation_map fst (entries_perm _)) Hin).
Qed.

(** Property X10.  A recommendation whose code is the name of a member of
    [Object.prototype] ("constructor", "toString", "valueOf", "__proto__",
    ...) is dropped without notice: the code is never collected, so no
    price rule is requested for it, and the reply lists it neither in
    [createdCodes] nor in [failedCodes]. *)
Theorem codes_named_like_object_members_are_dropped :
  forall (W : Type) (upstream : W -> Request -> FetchResult * W) (env : Env)
         (recommendations : list Recommendation.t) (w w' : World W)
         (status : Z) (createdCodes : list (string * float))
         (failedCodes : list (string * Error)) (key : string),
    In key JsObject.prototype_keys ->
    postShopifyDiscounts upstream env (Some recommendations) w
    = (Ok (mkReply status (DiscountsResult createdCodes failedCodes)), w') ->
    ~ In key (map fst (JsObject.entries (collectUniqueCodes recommendations)))
    /\ ~ In key (map fst createdCodes)
    /\ ~ In key (map fst failedCodes).
Proof.
  intros W upstream env recommendations w w' status createdCodes failedCodes key
    Hproto Hrun.
  pose proof (collectUniqueCodes_prototype key recommendations Hproto) as Hnot.
  split; [exact Hnot|].
  assert (Hperm : Permutation (map fst createdCodes ++ map fst failedCodes)
                    (map fst (JsObject.entries (collectUniqueCodes recommendations)))).
  { unfold postShopifyDiscounts, try_catch in Hrun.
    destruct (negb (Js.truthy (SHOPIFY_API_KEY env))
              || negb (Js.truthy (SHOPIFY_STORE env))); [discriminate Hrun|].
    destruct recommendations as [|first others]; [discriminate Hrun|].
    unfold bind in Hrun.
    destruct (createDiscountCodes_settles upstream
                (JsObject.entries (collectUniqueCodes (first :: others))) [] [] w)
      as (created & failed & w1 & Hrun' & Hperm & _).
    rewrite Hrun' in Hrun. cbn [ret fst snd app] in Hrun.
    injection Hrun as _ <- <- _. exact Hperm. }
  split; intros Hin; apply Hnot; apply (Permutation_in key Hperm);
    apply in_or_app; [now left|now right].
Qed.

Lemma codes_named_like_object_members_are_dropped_witness :
  ~ In "toString" (map fst (JsObject.entries (collectUniqueCodes mixed_codes)))
  /\ ~ In "toString" (map fst [("7", 7%float); ("SAVE15", 15%float)])
  /\ ~ In "toString" (map fst [("BROKEN", DiscountCodeCreationFailed json_errors)]).
Proof.
  apply (codes_named_like_object_members_are_dropped nat demo_upstream demo_env
           mixed_codes fresh_world
           (snd (postShopifyDiscounts demo_upstream demo_env (Some mixed_codes)
                   fresh_world))
           200 [("7", 7%float); ("SAVE15", 15%float)]
           [("BROKEN", DiscountCodeCreationFailed json_errors)] "toString").
  - vm_compute. tauto.
  - vm_compute. reflexivity.
Defined.

Lemma get_own_In (o : JsObject.t) (key : string) (v : float) :
  JsObject.get_own o key = Some v -> In (key, v) o.
Proof.
  induction o as [|[k v0] rest IH]; cbn [JsObject.get_own]; [discriminate|].
  destruct (String.eqb_spec k key) as [->|_].
  - intros [= ->]. now left.
  - intros H. right. now apply IH.
Qed.

(** Property X11.  The percentage a price rule is created with is that of
    the earliest collectable recommendation carrying the code, provided
    that percentage is neither zero nor NaN and the code is not the name of
    a member of [Object.prototype]: later recommendations with the same
    code do not change it. *)
Theorem earliest_nonzero_percentage_is_kept :
  forall (before after : list Recommendation.t) (rec : Recommendation.t)
         (p : float),
    Js.truthy (Recommendation.discountCode rec) = true ->
    Recommendation.discountPercent rec = Js.Num p ->
    Js.truthy (Js.Num p) = true ->
    ~ In (code_key rec) JsObject.prototype_keys ->
    (forall r, In r before -> collectable r = true -> code_key r <> code_key rec) ->
    In (code_key rec, p)
       (JsObject.entries (collectUniqueCodes (before ++ rec :: after)))
    /\ forall q,
        In (code_key rec, q)
           (JsObject.entries (collectUniqueCodes (before ++ rec :: after))) ->
        q = p.
Proof.
  intros before after rec p Hcode Hpct Hp Hproto Hbefore.
  pose proof (first_nonzero_percentage_wins before after rec p
                Hcode Hpct Hp Hproto Hbefore) as Hget.
  split.
  - apply (Permutation_in _ (Permutation_sym (entries_perm _))).
    now apply get_own_In.
  - intros q Hq.
    apply (Permutation_in _ (entries_perm _)) in Hq.
    pose proof (fold_collectCode_NoDup (before ++ rec :: after) []
                  (NoDup_nil _)) as Hnd.
    fold (collectUniqueCodes (before ++ rec :: after)) in Hnd.
    apply get_own_In in Hget.
    revert Hnd Hq Hget.
    generalize (collectUniqueCodes (before ++ rec :: after)) as o.
    induction o as [|[k v] rest IH]; intros Hnd Hq Hget; [destruct Hq|].
    cbn [map fst] in Hnd. inversion Hnd as [|? ? Hk Hrest]; subst.
    destruct Hq as [[= -> ->]|Hq], Hget as [[= Hv]|Hget].
    + congruence.
    + exfalso. apply Hk. apply (in_map fst) in Hget. exact Hget.
    + exfalso. subst k. apply Hk. apply (in_map fst) in Hq. exact Hq.
    + now apply IH.
Qed.

Lemma earliest_nonzero_percentage_is_kept_witness :
  In ("SAVE15", 15%float) (JsObject.entries (collectUniqueCodes mixed_codes))
  /\ forall q,
      In ("SAVE15", q) (JsObject.entries (collectUniqueCodes mixed_codes)) ->
      q = 15%float.
Proof.
  apply (earliest_nonzero_percentage_is_kept
           [coded (Js.Str "BROKEN") (Js.Num 10)]
           [coded (Js.Str "SAVE15") (Js.Num 30); coded (Js.Str "toString") (Js.Num 5);
            coded (Js.Num 7) (Js.Num 7); coded Js.Undefined (Js.Num 5);
            coded (Js.Str "TEXT") (Js.Str "15")]
           (coded (Js.Str "SAVE15") (Js.Num 15)) 15%float).
  - reflexivity.
  - reflexivity.
  - reflexivity.
  - vm_compute. intuition discriminate.
  - intros r [<-|[]] _. discriminate.
Defined.

(* ================================================================== *)
(** * More on the batch endpoint *)
(* ================================================================== *)

Section BatchRuns.

Context {W : Type}.
Variable upstream : W -> Request -> FetchResult * W.

Lemma addSubscribers_counts (groupId : Js.value)
  (recommendations : list Recommendation.t) :
  forall addedCount w,
  exists w' new,
    addSubscribers upstream groupId recommendations addedCount w
    = (Ok (addedCount + Z.of_nat (List.length (filter answered new))), w')
    /\ exchanges w' = (exchanges w ++ new)%list
    /\ map fst new = map (subscriber_request groupId) recommendations.
Proof.
  induction recommendations as [|rec rest IH]; intros addedCount w.
  - exists w, []. cbn. rewrite app_nil_r, Z.add_0_r. repeat split.
  - cbn [addSubscribers]. unfold bind at 1. unfold try_catch, bind at 1, fetch.
    fold (subscriber_request groupId rec).
    destruct (upstream (remote w) (subscriber_request groupId rec))
      as [[message|response] remote'] eqn:Hup; cbn [ret].
    + destruct (IH addedCount
                  {| remote := remote';
                     exchanges := (exchanges w
                       ++ [(subscriber_request groupId rec, NetworkFailure message)])%list |})
        as (w' & new & Hrun & Hex & Hmap).
      exists w', ((subscriber_request groupId rec, NetworkFailure message) :: new).
      cbn [exchanges] in Hex. rewrite Hrun, Hex, <- app_assoc.
      repeat split. cbn [map fst]. now rewrite Hmap.
    + destruct (IH (addedCount + 1)
                  {| remote := remote';
                     exchanges := (exchanges w
                       ++ [(subscriber_request groupId rec, Responded response)])%list |})
        as (w' & new & Hrun & Hex & Hmap).
      exists w', ((subscriber_request groupId rec, Responded response) :: new).
      cbn [exchanges] in Hex. rewrite Hrun, Hex, <- app_assoc.
      split; [|split; [reflexivity|cbn [map fst]; now rewrite Hmap]].
      cbn [filter answered snd List.length]. do 2 f_equal. lia.
Qed.

Lemma session_customers_requests (limitTotal : Z)
  (xs : list (Request * FetchResult)) :
  forall accumulated cursor,
    session limitTotal accumulated cursor xs ->
    Forall (fun x => is_customers_request (fst x) = true) xs.
Proof.
  induction xs as [|[request result] rest IH]; intros accumulated cursor Hs;
    [constructor|].
  cbn [session] in Hs. destruct Hs as (_ & -> & Hrest).
  constructor; [reflexivity|].
  destruct rest as [|x rest']; [constructor|].
  destruct Hrest as (_ & response & next & _ & _ & Hs).
  exact (IH _ _ Hs).
Qed.

Lemma subscriber_requests (groupId : Js.value)
  (recommendations : list Recommendation.t) (new : list (Request * FetchResult)) :
  map fst new = map (subscriber_request groupId) recommendations ->
  Forall (fun x => is_subscriber_request (fst x) = true) new
  /\ List.length new = List.length recommendations.
Proof.
  intros Hmap. split.
  - apply Forall_forall. intros x Hin.
    apply (in_map fst) in Hin. rewrite Hmap in Hin.
    apply in_map_iff in Hin. destruct Hin as (rec & <- & _). reflexivity.
  - rewrite <- (length_map fst new), Hmap. apply length_map.
Qed.


Lemma batchRecommendations_length (ruleConfig : option RuleConfig.t)
  (customers : list Metrics.t) :
  (List.length (batchRecommendations ruleConfig customers)
   <= List.length customers)%nat.
Proof.
  induction customers as [|c rest IH]; [apply le_n|].
  cbn [batchRecommendations List.length].
  destruct (applyRuleConfigToCustomer c ruleConfig) as [rec|]; [|lia].
  destruct (_ && _); cbn [List.length]; lia.
Qed.

(** The shape of every run of the batch endpoint. *)
Lemma batch_run (env : Env) (clock : Clock) (fuel : nat) (reqBody : BatchBody)
  (w w' : World W) (outcome : Outcome Reply) :
  postReactivationBatch upstream env clock fuel reqBody w = (outcome, w') ->
  exists pages mail,
    exchanges w' = (exchanges w ++ pages ++ mail)%list
    /\ Forall (fun x => is_customers_request (fst x) = true) pages
    /\ mail_session mail
    /\ forall status strategy fetched total sample mailerLite,
        outcome = Ok (mkReply status
                        (BatchResult strategy fetched total sample mailerLite)) ->
        Z.of_nat fetched <= Z.max 0 (batchLimit env reqBody)
        /\ (total <= fetched)%nat
        /\ (List.length sample <= 20)%nat
        /\ match mailerLite with
           | Some (groupId, addedCount) =>
               Js.truthy groupId = true
               /\ (List.length mail = 1 + total)%nat
               /\ addedCount
                  = Z.of_nat (List.length (filter answered (tl mail)))
           | None => mail = []
           end.
Proof.
  intros Hrun.
  assert (Hquiet : forall pages mail,
            exchanges w' = (exchanges w ++ pages ++ mail)%list ->
            Forall (fun x => is_customers_request (fst x) = true) pages ->
            mail_session mail ->
            (forall status strategy fetched total sample mailerLite,
                outcome <> Ok (mkReply status
                                 (BatchResult strategy fetched total sample mailerLite))) ->
            exists pages mail,
              exchanges w' = (exchanges w ++ pages ++ mail)%list
              /\ Forall (fun x => is_customers_request (fst x) = true) pages
              /\ mail_session mail
              /\ forall status strategy fetched total sample mailerLite,
                  outcome = Ok (mkReply status
                                  (BatchResult strategy fetched total sample mailerLite)) ->
                  Z.of_nat fetched <= Z.max 0 (batchLimit env reqBody)
                  /\ (total <= fetched)%nat
                  /\ (List.length sample <= 20)%nat
                  /\ match mailerLite with
                     | Some (groupId, addedCount) =>
                         Js.truthy groupId = true
                         /\ (List.length mail = 1 + total)%nat
                         /\ addedCount
                            = Z.of_nat (List.length (filter answered (tl mail)))
                     | None => mail = []
                     end).
  { intros pages mail Hex Hpages Hmail Hnot. exists pages, mail.
    repeat split; try assumption;
      exfalso; exact (Hnot _ _ _ _ _ _ H). }
  assert (Hnil : exchanges w = (exchanges w ++ [] ++ [])%list)
    by now rewrite !app_nil_r.
  unfold postReactivationBatch, try_catch in Hrun.
  destruct (ruleConfig reqBody) as [cfg|] eqn:Hcfg.
  2:{ injection Hrun as <- <-.
      apply (Hquiet [] []); [exact Hnil|constructor|exact I|discriminate]. }
  destruct (negb (Js.truthy (SHOPIFY_API_KEY env)) || negb (Js.truthy (SHOPIFY_STORE env))).
  { injection Hrun as <- <-.
    apply (Hquiet [] []); [exact Hnil|constructor|exact I|discriminate]. }
  fold (batchLimit env reqBody) in Hrun.
  unfold bind at 1 in Hrun.
  destruct (fetchShopifyCustomersPaginated upstream fuel (batchLimit env reqBody) w)
    as [fetchOutcome w1] eqn:Hfetch.
  destruct (fetchLoop_session upstream _ _ _ _ _ _ _ _ eq_refl Hfetch)
    as (pages & Hex1 & Hsession & _).
  apply session_customers_requests in Hsession.
  assert (Hex1' : exchanges w1 = (exchanges w ++ pages ++ [])%list)
    by now rewrite app_nil_r.
  destruct fetchOutcome as [rawCustomers|e|].
  2:{ cbn [ret] in Hrun. injection Hrun as <- <-.
      apply (Hquiet pages []); [exact Hex1'|exact Hsession|exact I|discriminate]. }
  2:{ injection Hrun as <- <-.
      apply (Hquiet pages []); [exact Hex1'|exact Hsession|exact I|discriminate]. }
  destruct (fetch_result_bound upstream _ _ _ _ _ Hfetch) as [Hbound _].
  set (recs := batchRecommendations (Some cfg) (map (customerMetrics clock) rawCustomers))
    in *.
  assert (Htotal : (List.length recs
                    <= List.length (map (customerMetrics clock) rawCustomers))%nat)
    by apply batchRecommendations_length.
  assert (Hsample : (List.length (firstn 20 recs) <= 20)%nat)
    by apply firstn_le_length.
  rewrite length_map in Htotal.
  destruct (Js.truthy (sendToMailerLite reqBody)).
  - destruct (negb (Js.truthy (MAILERLITE_API_KEY env))).
    { cbn [ret] in Hrun. injection Hrun as <- <-.
      apply (Hquiet pages []); [exact Hex1'|exact Hsession|exact I|discriminate]. }
    unfold bind at 1, fetch in Hrun.
    set (groupRequest := MailerLitePostGroup _) in Hrun.
    destruct (upstream (remote w1) groupRequest) as [groupResult remote2].
    assert (Hex2 : forall r,
              exchanges (@mkWorld W r (exchanges w1 ++ [(groupRequest, groupResult)])%list)
              = (exchanges w ++ pages ++ [(groupRequest, groupResult)])%list).
    { intros r. cbn [exchanges]. now rewrite Hex1, <- app_assoc. }
    assert (Hgroup : mail_session [(groupRequest, groupResult)])
      by (split; [reflexivity|constructor]).
    destruct groupResult as [message|groupResponse].
    { cbn [ret] in Hrun. injection Hrun as <- <-.
      apply (Hquiet pages _ (Hex2 remote2) Hsession Hgroup). discriminate. }
    unfold bind at 1, response_json in Hrun.
    destruct (body groupResponse) as [| |o].
    { cbn [throw ret] in Hrun. injection Hrun as <- <-.
      apply (Hquiet pages _ (Hex2 remote2) Hsession Hgroup). discriminate. }
    { cbn [throw ret] in Hrun. injection Hrun as <- <-.
      apply (Hquiet pages _ (Hex2 remote2) Hsession Hgroup). discriminate. }
    cbn [ret] in Hrun.
    destruct (negb (Js.truthy (data_id o))) eqn:Hid.
    { cbn [throw ret] in Hrun. injection Hrun as <- <-.
      apply (Hquiet pages _ (Hex2 remote2) Hsession Hgroup). discriminate. }
    apply negb_false_iff in Hid.
    unfold bind at 1 in Hrun.
    match type of Hrun with
    | context [addSubscribers upstream ?g ?r ?n ?w2] =>
        destruct (addSubscribers_counts g r n w2)
          as (w3 & subs & Hadd & Hex3 & Hsubs)
    end.
    rewrite Hadd in Hrun. cbn [ret] in Hrun.
    injection Hrun as <- <-.
    rewrite Hex2 in Hex3.
    destruct (subscriber_requests _ _ _ Hsubs) as [Hall Hlen].
    exists pages, ((groupRequest, Responded groupResponse) :: subs).
    split; [rewrite Hex3, <- !app_assoc; reflexivity|].
    split; [exact Hsession|].
    split; [split; [reflexivity|exact Hall]|].
    intros status strategy fetched total sample mailerLite [= <- <- <- <- <- <-].
    rewrite length_map.
    split; [exact Hbound|]. split; [exact Htotal|]. split; [exact Hsample|].
    split; [exact Hid|]. cbn [List.length tl]. split; [now rewrite Hlen|reflexivity].
  - cbn [ret] in Hrun. injection Hrun as <- <-.
    exists pages, []. split; [exact Hex1'|]. split; [exact Hsession|].
    split; [exact I|].
    intros status strategy fetched total sample mailerLite [= <- <- <- <- <- <-].
    rewrite length_map.
    split; [exact Hbound|]. split; [exact Htotal|]. split; [exact Hsample|reflexivity].
Qed.

End BatchRuns.

(** Property X12.  The batch endpoint only reads from Shopify.  In every
    run, whatever its outcome, its requests are customer page requests,
    then at most one MailerLite group request followed by subscriber
    requests only; it never posts a price rule or a discount code, so the
    codes it sends to MailerLite are not created in the store by it. *)
Theorem batch_never_creates_discount_codes :
  forall (W : Type) (upstream : W -> Request -> FetchResult * W)
         (env : Env) (clock : Clock) (fuel : nat) (reqBody : BatchBody)
         (w w' : World W) (outcome : Outcome Reply),
    postReactivationBatch upstream env clock fuel reqBody w = (outcome, w') ->
    exists pages mail,
      exchanges w' = (exchanges w ++ pages ++ mail)%list
      /\ Forall (fun x => is_customers_request (fst x) = true) pages
      /\ mail_session mail
      /\ Forall (fun x => is_shopify_write (fst x) = false) (pages ++ mail).
Proof.
  intros W upstream env clock fuel reqBody w w' outcome Hrun.
  destruct (batch_run upstream env clock fuel reqBody w w' outcome Hrun)
    as (pages & mail & Hex & Hpages & Hmail & _).
  exists pages, mail. split; [exact Hex|]. split; [exact Hpages|].
  split; [exact Hmail|].
  apply Forall_app. split.
  - apply (Forall_impl _ (P := fun x => is_customers_request (fst x) = true));
      [|exact Hpages].
    intros [request result]. cbn [fst]. now destruct request.
  - destruct mail as [|[request result] subscribers]; [constructor|].
    destruct Hmail as [Hgroup Hsubs]. constructor.
    + cbn [fst]. now destruct request.
    + apply (Forall_impl _ (P := fun x => is_subscriber_request (fst x) = true));
        [|exact Hsubs].
      intros [request' result']. cbn [fst]. now destruct request'.
Qed.

Lemma batch_never_creates_discount_codes_witness :
  exists pages mail,
    exchanges (snd (postReactivationBatch demo_upstream demo_env sample_clock 10
                      batch_request fresh_world))
    = (exchanges fresh_world ++ pages ++ mail)%list
    /\ Forall (fun x => is_customers_request (fst x) = true) pages
    /\ mail_session mail
    /\ Forall (fun x => is_shopify_write (fst x) = false) (pages ++ mail).
Proof.
  apply (batch_never_creates_discount_codes nat demo_upstream demo_env sample_clock
           10 batch_request fresh_world
           (snd (postReactivationBatch demo_upstream demo_env sample_clock 10
                   batch_request fresh_world))
           (fst (postReactivationBatch demo_upstream demo_env sample_clock 10
                   batch_request fresh_world))).
  apply surjective_pairing.
Defined.



(** Property X14.  The subscriber loop counts answers, not successes:
    against a MailerLite that answers every request, be it with an error
    status such as 401 or 422, [addedCount] grows by the number of
    recommendations, one request being issued for each. *)
Theorem every_answer_counts_as_added :
  forall (W : Type) (upstream : W -> Request -> FetchResult * W)
         (groupId : Js.value) (recommendations : list Recommendation.t)
         (addedCount : Z) (w : World W),
    (forall s request, exists response s',
        upstream s request = (Responded response, s')) ->
    exists w',
      addSubscribers upstream groupId recommendations addedCount w
      = (Ok (addedCount + Z.of_nat (List.length recommendations)), w')
      /\ map fst (exchanges w')
         = (map fst (exchanges w)
            ++ map (subscriber_request groupId) recommendations)%list.
Proof.
  intros W upstream groupId recommendations addedCount w Hanswers.
  revert addedCount w.
  induction recommendations as [|rec rest IH]; intros addedCount w.
  - exists w. cbn. now rewrite Z.add_0_r, app_nil_r.
  - cbn [addSubscribers]. unfold bind at 1. unfold try_catch, bind at 1, fetch.
    fold (subscriber_request groupId rec).
    destruct (Hanswers (remote w) (subscriber_request groupId rec))
      as (response & remote' & ->). cbn [ret].
    destruct (IH (addedCount + 1)
                {| remote := remote';
                   exchanges := (exchanges w
                     ++ [(subscriber_request groupId rec, Responded response)])%list |})
      as (w' & Hrun & Hex).
    exists w'. rewrite Hrun, Hex. cbn [exchanges].
    split.
    + do 2 f_equal. cbn [List.length]. lia.
    + rewrite map_app, <- app_assoc. reflexivity.
Qed.

Lemma every_answer_counts_as_added_witness :
  exists w',
    addSubscribers unauthorized_upstream (Js.Str "group-1") zero_then_twenty 0
      fresh_world
    = (Ok (0 + Z.of_nat (List.length zero_then_twenty)), w')
    /\ map fst (exchanges w')
       = (map fst (exchanges fresh_world)
          ++ map (subscriber_request (Js.Str "group-1")) zero_then_twenty)%list.
Proof.
  apply (every_answer_counts_as_added nat unauthorized_upstream (Js.Str "group-1")
           zero_then_twenty 0 fresh_world).
  intros s request. eexists _, _. reflexivity.
Defined.

(* ================================================================== *)
(** * The customers endpoint *)
(* ================================================================== *)

(** Property X15.  [GET /api/shopify/customers] always answers, unless the
    pagination loop does not end.  Without Shopify credentials it answers
    400 and contacts nobody.  Otherwise it answers 200 only when every page
    was accepted: [customers] are then the metrics, in order, of a prefix
    of the customers received, [total] is their number, which is at most
    [MAX_CUSTOMERS_ANALYZED], and [maxAnalyzed] is that limit.  When a
    page fails it answers 500 with the failure of that page and none of
    the customers received before. *)
Theorem customers_endpoint_replies :
  forall (W : Type) (upstream : W -> Request -> FetchResult * W) (env : Env)
         (limits : Limits) (clock : Clock) (fuel : nat) (w w' : World W)
         (outcome : Outcome CustomersReply),
    getShopifyCustomers upstream env limits clock fuel w = (outcome, w') ->
    exists new,
      exchanges w' = (exchanges w ++ new)%list
      /\ (shopify_configured env = false ->
          new = []
          /\ outcome = Ok (mkCustomersReply 400
                            (CustomersError "Shopify credentials not configured")))
      /\ (shopify_configured env = true ->
          match outcome with
          | Ok reply =>
              (exists rawCustomers dropped,
                  reply = mkCustomersReply 200
                            (CustomersList
                               (map (customerMetrics clock) rawCustomers)
                               (List.length rawCustomers)
                               (MAX_CUSTOMERS_ANALYZED limits))
                  /\ pages_of new = (rawCustomers ++ dropped)%list
                  /\ Z.of_nat (List.length rawCustomers)
                     <= Z.max 0 (MAX_CUSTOMERS_ANALYZED limits)
                  /\ Forall (fun x => page_ok (snd x) = true) new)
              \/ (exists error before last,
                     reply = mkCustomersReply 500 (CustomersCaught error)
                     /\ new = (before ++ [last])%list
                     /\ Forall (fun x => page_ok (snd x) = true) before
                     /\ failure_of (snd last) = Some error)
          | Throw _ => False
          | OutOfFuel => True
          end).
Proof.
  intros W upstream env limits clock fuel w w' outcome Hrun.
  unfold getShopifyCustomers, try_catch in Hrun.
  unfold shopify_configured.
  destruct (Js.truthy (SHOPIFY_API_KEY env)), (Js.truthy (SHOPIFY_STORE env));
    cbn [negb orb andb] in *;
    try (injection Hrun as <- <-; exists []; rewrite app_nil_r;
         split; [reflexivity|]; split; [intros _; now split|discriminate]).
  unfold bind in Hrun.
  destruct (fetchShopifyCustomersPaginated upstream fuel
              (MAX_CUSTOMERS_ANALYZED limits) w) as [fetched w1] eqn:Hfetch.
  destruct (fetchLoop_session upstream _ _ _ _ _ _ _ _ eq_refl Hfetch)
    as (new & Hex & _ & Hend).
  destruct fetched as [rawCustomers|error|].
  - destruct (fetch_result_bound upstream _ _ _ _ _ Hfetch)
      as (Hbound & new' & dropped & Hex' & Hpages).
    assert (new' = new) as -> by (rewrite Hex in Hex'; now apply app_inv_head in Hex').
    cbn [ret] in Hrun. injection Hrun as <- <-.
    exists new. split; [exact Hex|]. split; [discriminate|]. intros _. left.
    exists rawCustomers, dropped. rewrite length_map.
    repeat split; try assumption. exact (proj1 Hend).
  - cbn [ret] in Hrun. injection Hrun as <- <-.
    exists new. split; [exact Hex|]. split; [discriminate|]. intros _. right.
    destruct Hend as (before & last & Hnew & Hall & Hlast).
    exists error, before, last. repeat split; assumption.
  - injection Hrun as <- <-.
    exists new. split; [exact Hex|]. split; [discriminate|]. intros _. exact I.
Qed.

Lemma customers_endpoint_replies_witness :
  exists new,
    exchanges (snd (getShopifyCustomers throttling_upstream demo_env default_limits
                      sample_clock 5 fresh_world))
    = (exchanges fresh_world ++ new)%list
    /\ (shopify_configured demo_env = true ->
        exists before last,
          fst (getShopifyCustomers throttling_upstream demo_env default_limits
                 sample_clock 5 fresh_world)
          = Ok (mkCustomersReply 500
                  (CustomersCaught
                     (ShopifyApiError 429
                        "Exceeded 2 calls per second for api client.")))
          /\ new = (before ++ [last])%list).
Proof.
  destruct (customers_endpoint_replies nat throttling_upstream demo_env
              default_limits sample_clock 5 fresh_world
              (snd (getShopifyCustomers throttling_upstream demo_env default_limits
                      sample_clock 5 fresh_world))
              (Ok (mkCustomersReply 500
                     (CustomersCaught
                        (ShopifyApiError 429
                           "Exceeded 2 calls per second for api client.")))))
    as (new & Hex & _ & Hok).
  - vm_compute. reflexivity.
  - exists new. split; [exact Hex|]. intros Hcfg.
    destruct (Hok Hcfg) as [(rawCustomers & dropped & Hreply & _)
                           |(error & before & last & Hreply & Hnew & _)].
    + discriminate Hreply.
    + exists before, last. split; [reflexivity|exact Hnew].
Defined.

(** Property X16.  Against a store that serves its customers in pages as
    asked (each page request, for 1 to 250 customers, answered with
    min(requested, remaining) customers under a Link header of Shopify's
    format that has a next entry exactly when customers remain), and with
    the credentials configured, [GET /api/shopify/customers] answers 200
    and the number of customers it returns is exactly
    [min(MAX_CUSTOMERS_ANALYZED, customers in the store)]. *)
Theorem customers_endpoint_returns_the_capped_store :
  forall (W : Type) (upstream : W -> Request -> FetchResult * W) (env : Env)
         (limits : Limits) (clock : Clock) (fuel : nat) (w : World W)
         (available : nat) (cursor : nat -> string),
    shopify_configured env = true ->
    0 <= MAX_CUSTOMERS_ANALYZED limits ->
    serves_in_pages upstream available cursor ->
    MAX_CUSTOMERS_ANALYZED limits <= 250 * Z.of_nat fuel ->
    exists customers w',
      getShopifyCustomers upstream env limits clock fuel w
      = (Ok (mkCustomersReply 200
               (CustomersList customers (List.length customers)
                  (MAX_CUSTOMERS_ANALYZED limits))), w')
      /\ Z.of_nat (List.length customers)
         = Z.min (MAX_CUSTOMERS_ANALYZED limits) (Z.of_nat available).
Proof.
  intros W upstream env limits clock fuel w available cursor Hcfg Hmax Hserve Hfuel.
  unfold shopify_configured in Hcfg. apply andb_true_iff in Hcfg.
  destruct Hcfg as [Hkey Hstore].
  destruct (fetchLoop_serves_in_pages upstream (MAX_CUSTOMERS_ANALYZED limits)
              available cursor Hmax Hserve fuel [] false w)
    as (rawCustomers & w' & Hrun & Hlen).
  - cbn. lia.
  - discriminate.
  - intros _. now left.
  - right. cbn [List.length]. lia.
  - exists (map (customerMetrics clock) rawCustomers), w'.
    unfold getShopifyCustomers, try_catch.
    rewrite Hkey, Hstore. cbn [negb orb]. unfold bind.
    unfold fetchShopifyCustomersPaginated. cbn [position_cursor List.length] in Hrun.
    rewrite Hrun. cbn [ret].
    split; [reflexivity|]. now rewrite length_map.
Qed.

(** With [MAX_CUSTOMERS_ANALYZED = 520] and the store of 600 customers, the
    endpoint answers with 520 customers, fetched in three pages. *)
Lemma customers_endpoint_returns_the_capped_store_witness :
  exists customers w',
    getShopifyCustomers warehouse_upstream demo_env roomy_limits sample_clock 3
      fresh_world
    = (Ok (mkCustomersReply 200
             (CustomersList customers (List.length customers)
                (MAX_CUSTOMERS_ANALYZED roomy_limits))), w')
    /\ Z.of_nat (List.length customers)
       = Z.min (MAX_CUSTOMERS_ANALYZED roomy_limits) (Z.of_nat 600)
    /\ List.length (exchanges w') = 3%nat.
Proof.
  destruct (customers_endpoint_returns_the_capped_store nat warehouse_upstream
              demo_env roomy_limits sample_clock 3 fresh_world 600 tally)
    as (customers & w' & Hrun & Hlen).
  - reflexivity.
  - cbn. lia.
  - exact warehouse_serves_in_pages.
  - cbn. lia.
  - exists customers, w'. split; [exact Hrun|]. split; [exact Hlen|].
    replace w' with (snd (getShopifyCustomers warehouse_upstream demo_env
                            roomy_limits sample_clock 3 fresh_world))
      by (now rewrite Hrun).
    vm_compute. reflexivity.
Defined.

(* ================================================================== *)
(** * The campaign endpoint *)
(* ================================================================== *)

Section CampaignFacts.

Context {W : Type}.

Lemma agree_ret {A} (R : A -> A -> Prop) (a b : A) (w1 w2 : World W) :
  R a b -> remote w1 = remote w2 -> agree R (ret a w1) (ret b w2).
Proof. intros HR Hw. split; assumption. Qed.

Lemma agree_throw {A} (R : A -> A -> Prop) (e : Error) (w1 w2 : World W) :
  remote w1 = remote w2 -> agree R (@throw W A e w1) (@throw W A e w2).
Proof. intros Hw. split; [reflexivity|assumption]. Qed.

Lemma agree_bind {A B} (RA : A -> A -> Prop) (RB : B -> B -> Prop)
  (m1 m2 : Eff W A) (k1 k2 : A -> Eff W B) (w1 w2 : World W) :
  agree RA (m1 w1) (m2 w2) ->
  (forall a b w1' w2',
      RA a b -> remote w1' = remote w2' -> agree RB (k1 a w1') (k2 b w2')) ->
  agree RB (bind m1 k1 w1) (bind m2 k2 w2).
Proof.
  intros [Hout Hremote] Hk. unfold bind.
  destruct (m1 w1) as [[a|e1|] w1'], (m2 w2) as [[b|e2|] w2'];
    cbn [fst snd] in *; try contradiction.
  - now apply Hk.
  - split; assumption.
  - split; [exact I|assumption].
Qed.

Lemma agree_try_catch {A} (R : A -> A -> Prop)
  (m1 m2 : Eff W A) (h1 h2 : Error -> Eff W A) (w1 w2 : World W) :
  agree R (m1 w1) (m2 w2) ->
  (forall e w1' w2', remote w1' = remote w2' -> agree R (h1 e w1') (h2 e w2')) ->
  agree R (try_catch m1 h1 w1) (try_catch m2 h2 w2).
Proof.
  intros [Hout Hremote] Hh. unfold try_catch.
  destruct (m1 w1) as [[a|e1|] w1'], (m2 w2) as [[b|e2|] w2'];
    cbn [fst snd] in *; try contradiction.
  - split; assumption.
  - subst e2. now apply Hh.
  - split; [exact I|assumption].
Qed.

Lemma agree_fetch (upstream1 upstream2 : W -> Request -> FetchResult * W)
  (request : Request) (w1 w2 : World W) :
  same_service_but_status upstream1 upstream2 ->
  remote w1 = remote w2 ->
  agree same_body (fetch upstream1 request w1) (fetch upstream2 request w2).
Proof.
  intros Hsame Hremote. unfold fetch. rewrite Hremote.
  destruct (Hsame (remote w2) request) as [Hres Hstate].
  destruct (upstream1 (remote w2) request) as [r1 s1].
  destruct (upstream2 (remote w2) request) as [r2 s2].
  cbn [fst snd] in *. subst s2.
  destruct r1 as [m1|a], r2 as [m2|b]; cbn in Hres; try contradiction.
  - subst m2. now split.
  - split; [exact (proj1 (proj2 Hres))|reflexivity].
Qed.

Lemma agree_fetch_campaign
  (campaigns1 campaigns2 : W -> CampaignRequest -> FetchResult * W)
  (request : CampaignRequest) (w1 w2 : World W) :
  same_service_but_status campaigns1 campaigns2 ->
  remote w1 = remote w2 ->
  agree same_body (fetch_campaign campaigns1 request w1)
    (fetch_campaign campaigns2 request w2).
Proof.
  intros Hsame Hremote. unfold fetch_campaign. rewrite Hremote.
  destruct (Hsame (remote w2) request) as [Hres Hstate].
  destruct (campaigns1 (remote w2) request) as [r1 s1].
  destruct (campaigns2 (remote w2) request) as [r2 s2].
  cbn [fst snd] in *. subst s2.
  destruct r1 as [m1|a], r2 as [m2|b]; cbn in Hres; try contradiction.
  - subst m2. now split.
  - split; [exact (proj1 (proj2 Hres))|reflexivity].
Qed.

Lemma agree_response_json (a b : Response) (w1 w2 : World W) :
  same_body a b ->
  remote w1 = remote w2 ->
  agree eq (response_json a w1) (response_json b w2).
Proof.
  unfold same_body, response_json. intros -> Hremote.
  destruct (body b); split; try reflexivity; assumption.
Qed.

Lemma addSubscribers_cons (upstream : W -> Request -> FetchResult * W)
  (groupId : Js.value) (rec : Recommendation.t)
  (rest : list Recommendation.t) (addedCount : Z) (w : World W) :
  addSubscribers upstream groupId (rec :: rest) addedCount w
  = addSubscribers upstream groupId rest
      (match fst (upstream (remote w) (subscriber_request groupId rec)) with
       | Responded _ => addedCount + 1
       | NetworkFailure _ => addedCount
       end)
      {| remote := snd (upstream (remote w) (subscriber_request groupId rec));
         exchanges :=
           (exchanges w
            ++ [(subscriber_request groupId rec,
                 fst (upstream (remote w) (subscriber_request groupId rec)))])%list |}.
Proof.
  cbn [addSubscribers]. unfold bind at 1. unfold try_catch, bind at 1, fetch.
  fold (subscriber_request groupId rec).
  destruct (upstream (remote w) (subscriber_request groupId rec))
    as [[message|response] remote']; reflexivity.
Qed.

Lemma agree_addSubscribers
  (upstream1 upstream2 : W -> Request -> FetchResult * W)
  (groupId : Js.value) (recommendations : list Recommendation.t) :
  same_service_but_status upstream1 upstream2 ->
  forall addedCount w1 w2,
    remote w1 = remote w2 ->
    agree eq (addSubscribers upstream1 groupId recommendations addedCount w1)
      (addSubscribers upstream2 groupId recommendations addedCount w2).
Proof.
  intros Hsame.
  induction recommendations as [|rec rest IH]; intros addedCount w1 w2 Hremote.
  - now apply agree_ret.
  - rewrite !addSubscribers_cons. rewrite Hremote.
    destruct (Hsame (remote w2) (subscriber_request groupId rec)) as [Hres Hstate].
    destruct (upstream1 (remote w2) (subscriber_request groupId rec)) as [r1 s1].
    destruct (upstream2 (remote w2) (subscriber_request groupId rec)) as [r2 s2].
    cbn [fst snd] in *. subst s2.
    destruct r1 as [m1|a], r2 as [m2|b]; cbn in Hres; try contradiction;
      apply IH; reflexivity.
Qed.

Lemma agree_postMailerLiteCampaign
  (upstream1 upstream2 : W -> Request -> FetchResult * W)
  (campaigns1 campaigns2 : W -> CampaignRequest -> FetchResult * W)
  (env : Env) (clock : Clock) (reqBody : option PostBody) (w : World W) :
  same_service_but_status upstream1 upstream2 ->
  same_service_but_status campaigns1 campaigns2 ->
  agree eq (postMailerLiteCampaign upstream1 campaigns1 env clock reqBody w)
    (postMailerLiteCampaign upstream2 campaigns2 env clock reqBody w).
Proof.
  intros Hup Hcamp. unfold postMailerLiteCampaign.
  apply agree_try_catch; [|intros e w1 w2 Hw; now apply agree_ret].
  destruct reqBody as [reqBody|]; [|now apply agree_throw].
  destruct (negb (Js.truthy (MAILERLITE_API_KEY env))); [now apply agree_ret|].
  destruct (array reqBody "selectedRecommendations") as [[|first others]|];
    try now apply agree_ret.
  apply (agree_bind same_body); [now apply agree_fetch|].
  intros a b w1 w2 Hab Hw.
  apply (agree_bind eq); [now apply agree_response_json|].
  intros groupData ? w1' w2' <- Hw'.
  destruct groupData as [| |o]; try now apply agree_throw.
  destruct (negb (Js.truthy (data_id o))); [now apply agree_ret|].
  apply (agree_bind eq); [now apply agree_addSubscribers|].
  intros addedCount ? w1'' w2'' <- Hw''.
  apply (agree_bind same_body); [now apply agree_fetch_campaign|].
  intros a' b' v1 v2 Hab' Hv.
  apply (agree_bind eq); [now apply agree_response_json|].
  intros campaignData ? v1' v2' <- Hv'.
  destruct campaignData as [| |o']; try now apply agree_throw.
  now apply agree_ret.
Qed.

End CampaignFacts.

(** Property X17.  The campaign endpoint never reads the status of a
    MailerLite answer: two MailerLite services that differ only in the
    status codes of their answers (say 201 against 401 or 500) get the same
    reply for every request body, the same [addedCount] included. *)
Theorem campaign_reply_ignores_mailerlite_statuses :
  forall (W : Type)
         (upstream1 upstream2 : W -> Request -> FetchResult * W)
         (campaigns1 campaigns2 : W -> CampaignRequest -> FetchResult * W)
         (env : Env) (clock : Clock) (reqBody : option PostBody)
         (w : World W),
    same_service_but_status upstream1 upstream2 ->
    same_service_but_status campaigns1 campaigns2 ->
    fst (postMailerLiteCampaign upstream1 campaigns1 env clock reqBody w)
    = fst (postMailerLiteCampaign upstream2 campaigns2 env clock reqBody w).
Proof.
  intros W upstream1 upstream2 campaigns1 campaigns2 env clock reqBody w Hup Hcamp.
  destruct (agree_postMailerLiteCampaign upstream1 upstream2 campaigns1 campaigns2
              env clock reqBody w Hup Hcamp) as [Hout _].
  destruct (fst (postMailerLiteCampaign upstream1 campaigns1 env clock reqBody w))
    as [a|e1|],
    (fst (postMailerLiteCampaign upstream2 campaigns2 env clock reqBody w))
    as [b|e2|]; try contradiction; congruence.
Qed.

Lemma failing_upstream_same_but_status :
  same_service_but_status demo_upstream failing_upstream.
Proof.
  intros s request. unfold failing_upstream.
  destruct (demo_upstream s request) as [[m|response] s']; cbn; repeat split.
Qed.

Lemma relabelled_campaigns_same_but_status :
  same_service_but_status accepting_campaigns relabelled_campaigns.
Proof. intros s request. cbn. repeat split. Qed.

Lemma campaign_reply_ignores_mailerlite_statuses_witness :
  fst (postMailerLiteCampaign demo_upstream accepting_campaigns demo_env sample_clock
         (Some (createDiscountsAndCampaign_campaign_body sample_clock ""
                  "reactivation" campaign_selection))
         fresh_world)
  = fst (postMailerLiteCampaign failing_upstream relabelled_campaigns demo_env
           sample_clock
           (Some (createDiscountsAndCampaign_campaign_body sample_clock ""
                    "reactivation" campaign_selection))
           fresh_world).
Proof.
  apply (campaign_reply_ignores_mailerlite_statuses nat demo_upstream
           failing_upstream accepting_campaigns relabelled_campaigns demo_env
           sample_clock
           (Some (createDiscountsAndCampaign_campaign_body sample_clock ""
                    "reactivation" campaign_selection))
           fresh_world).
  - exact failing_upstream_same_but_status.
  - exact relabelled_campaigns_same_but_status.
Defined.

Section CampaignRuns.

Context {W : Type}.
Variable upstream : W -> Request -> FetchResult * W.
Variable campaigns : W -> CampaignRequest -> FetchResult * W.

Lemma fetch_campaign_exchanges (request : CampaignRequest) (w w' : World W)
  (outcome : Outcome Response) :
  fetch_campaign campaigns request w = (outcome, w') ->
  exchanges w' = exchanges w.
Proof.
  unfold fetch_campaign.
  destruct (campaigns (remote w) request) as [[message|response] remote'];
    intros [= _ <-]; reflexivity.
Qed.

Lemma campaign_run (env : Env) (clock : Clock) (reqBody : option PostBody)
  (w w' : World W) (outcome : Outcome CampaignReply) :
  postMailerLiteCampaign upstream campaigns env clock reqBody w = (outcome, w') ->
  (exists reply, outcome = Ok reply)
  /\ forall status payload,
      outcome = Ok (mkCampaignReply status payload) ->
      match payload with
      | CampaignResult addedCount groupId campaignId =>
          exists posted selected group subscribers,
            reqBody = Some posted
            /\ array posted "selectedRecommendations" = Some selected
            /\ exchanges w' = (exchanges w ++ group :: subscribers)%list
            /\ is_group_request (fst group) = true
            /\ map fst subscribers = map (subscriber_request groupId) selected
            /\ addedCount = Z.of_nat (List.length (filter answered subscribers))
            /\ status = 200
      | CampaignError message =>
          (status = 400 /\ w' = w
           /\ (Js.truthy (MAILERLITE_API_KEY env) = false
               \/ exists posted,
                   reqBody = Some posted
                   /\ (array posted "selectedRecommendations" = None
                       \/ array posted "selectedRecommendations" = Some [])))
          \/ (status = 500 /\ message = "Failed to create MailerLite group")
      | CampaignCaught _ => status = 500
      end.
Proof.
  intros Hrun. unfold postMailerLiteCampaign, try_catch in Hrun.
  destruct reqBody as [posted|].
  2:{ cbn in Hrun. injection Hrun as <- <-. split; [eauto|].
      intros status payload [= <- <-]. reflexivity. }
  destruct (negb (Js.truthy (MAILERLITE_API_KEY env))) eqn:Hkey.
  { injection Hrun as <- <-. split; [eauto|].
    intros status payload [= <- <-]. left.
    apply negb_true_iff in Hkey. repeat split. now left. }
  destruct (array posted "selectedRecommendations") as [[|first others]|] eqn:Harray;
    try (injection Hrun as <- <-; split; [eauto|];
         intros status payload [= <- <-]; left; repeat split; right;
         exists posted; split; [reflexivity|tauto]).
  unfold bind at 1, fetch in Hrun.
  set (groupRequest := MailerLitePostGroup _) in Hrun.
  destruct (upstream (remote w) groupRequest) as [[message|groupResponse] remote1].
  { cbn [ret] in Hrun. injection Hrun as <- <-. split; [eauto|].
    intros status payload [= <- <-]. reflexivity. }
  unfold bind at 1, response_json in Hrun.
  destruct (body groupResponse) as [| |o];
    try (cbn [throw ret] in Hrun; injection Hrun as <- <-; split; [eauto|];
         intros status payload [= <- <-]; reflexivity).
  cbn [ret] in Hrun.
  destruct (negb (Js.truthy (data_id o))) eqn:Hid.
  { injection Hrun as <- <-. split; [eauto|].
    intros status payload [= <- <-]. right. split; reflexivity. }
  unfold bind at 1 in Hrun.
  match type of Hrun with
  | context [addSubscribers upstream ?g ?r ?n ?w2] =>
      destruct (addSubscribers_counts upstream g r n w2)
        as (w3 & subs & Hadd & Hex3 & Hsubs)
  end.
  rewrite Hadd in Hrun. cbn [exchanges] in Hex3.
  unfold bind at 1 in Hrun.
  destruct (fetch_campaign campaigns _ w3) as [[campaignResponse|e|] w4] eqn:Hcampaign.
  3:{ unfold fetch_campaign in Hcampaign.
      destruct (campaigns (remote w3) _) as [[m|r] s]; discriminate Hcampaign. }
  2:{ cbn [ret] in Hrun. injection Hrun as <- <-. split; [eauto|].
      intros status payload [= <- <-]. reflexivity. }
  apply fetch_campaign_exchanges in Hcampaign.
  unfold bind, response_json in Hrun.
  destruct (body campaignResponse) as [| |o'];
    try (cbn [throw ret] in Hrun; injection Hrun as <- <-; split; [eauto|];
         intros status payload [= <- <-]; reflexivity).
  cbn [ret] in Hrun. injection Hrun as <- <-. split; [eauto|].
  intros status payload [= <- <-].
  exists posted, (first :: others), (groupRequest, Responded groupResponse), subs.
  split; [reflexivity|]. split; [exact Harray|].
  split; [now rewrite Hcampaign, Hex3, <- app_assoc|].
  repeat split; assumption.
Qed.

End CampaignRuns.

(** Property X18.  The campaign endpoint does not filter: when it answers
    with a result, it has posted the group and then exactly one subscriber
    request for each selected recommendation, in order, also for those
    with a discount of 0 percent or without an email address;
    [addedCount] is the number of those requests that were answered. *)
Theorem campaign_mails_every_selected_recommendation :
  forall (W : Type) (upstream : W -> Request -> FetchResult * W)
         (campaigns : W -> CampaignRequest -> FetchResult * W)
         (env : Env) (clock : Clock) (reqBody : option PostBody)
         (w w' : World W) (status addedCount : Z)
         (groupId campaignId : Js.value),
    postMailerLiteCampaign upstream campaigns env clock reqBody w
    = (Ok (mkCampaignReply status (CampaignResult addedCount groupId campaignId)),
       w') ->
    exists posted selected group subscribers,
      reqBody = Some posted
      /\ array posted "selectedRecommendations" = Some selected
      /\ exchanges w' = (exchanges w ++ group :: subscribers)%list
      /\ is_group_request (fst group) = true
      /\ map fst subscribers = map (subscriber_request groupId) selected
      /\ addedCount = Z.of_nat (List.length (filter answered subscribers)).
Proof.
  intros W upstream campaigns env clock reqBody w w' status addedCount groupId
    campaignId Hrun.
  destruct (proj2 (campaign_run upstream campaigns env clock reqBody w w' _ Hrun)
              _ _ eq_refl)
    as (posted & selected & group & subscribers & H1 & H2 & H3 & H4 & H5 & H6 & _).
  exists posted, selected, group, subscribers. repeat split; assumption.
Qed.

Lemma campaign_mails_every_selected_recommendation_witness :
  exists posted selected group subscribers,
    Some (createDiscountsAndCampaign_campaign_body sample_clock "" "reactivation"
            campaign_selection)
    = Some posted
    /\ array posted "selectedRecommendations" = Some selected
    /\ exchanges (snd (postMailerLiteCampaign demo_upstream demo_campaigns demo_env
                         sample_clock
                         (Some (createDiscountsAndCampaign_campaign_body sample_clock
                                  "" "reactivation" campaign_selection))
                         fresh_world))
       = (exchanges fresh_world ++ group :: subscribers)%list
    /\ is_group_request (fst group) = true
    /\ map fst subscribers
       = map (subscriber_request (Js.Str "group-1")) selected
    /\ 2 = Z.of_nat (List.length (filter answered subscribers)).
Proof.
  apply (campaign_mails_every_selected_recommendation nat demo_upstream
           demo_campaigns demo_env sample_clock
           (Some (createDiscountsAndCampaign_campaign_body sample_clock ""
                    "reactivation" campaign_selection))
           fresh_world
           (snd (postMailerLiteCampaign demo_upstream demo_campaigns demo_env
                   sample_clock
                   (Some (createDiscountsAndCampaign_campaign_body sample_clock ""
                            "reactivation" campaign_selection))
                   fresh_world))
           200 2 (Js.Str "group-1") Js.Null).
  vm_compute. reflexivity.
Defined.

(** Property X19.  The dashboard of [part_001] posts its selection to the
    campaign endpoint under the name [recommendations], while the endpoint
    reads [selectedRecommendations]: whatever is selected, the endpoint
    answers 400 and contacts neither MailerLite service.  The body the
    older dashboard builds from the same non-empty selection is not
    answered 400 when the MailerLite key is configured. *)
Theorem newer_dashboard_campaign_body_is_refused :
  forall (W : Type) (upstream : W -> Request -> FetchResult * W)
         (campaigns : W -> CampaignRequest -> FetchResult * W)
         (env : Env) (clock browser : Clock)
         (campaignName pricingStrategy : string)
         (selected : list Recommendation.t) (w : World W),
    (exists message,
        postMailerLiteCampaign upstream campaigns env clock
          (Some (sendMailerLiteCampaign_campaign_body campaignName pricingStrategy
                   selected)) w
        = (Ok (mkCampaignReply 400 (CampaignError message)), w))
    /\ (Js.truthy (MAILERLITE_API_KEY env) = true ->
        selected <> [] ->
        postMailerLiteCampaign upstream campaigns env clock
          (Some (sendMailerLiteCampaign_campaign_body campaignName pricingStrategy
                   selected)) w
        = (Ok (mkCampaignReply 400
                 (CampaignError "No selected recommendations provided.")), w)
        /\ exists reply,
            fst (postMailerLiteCampaign upstream campaigns env clock
                   (Some (createDiscountsAndCampaign_campaign_body browser
                            campaignName pricingStrategy selected)) w)
            = Ok reply
            /\ campaign_status reply <> 400).
Proof.
  intros W upstream campaigns env clock browser campaignName pricingStrategy
    selected w.
  split.
  - unfold postMailerLiteCampaign, try_catch.
    destruct (negb (Js.truthy (MAILERLITE_API_KEY env))); eexists; reflexivity.
  - intros Hkey Hselected. split.
    + unfold postMailerLiteCampaign, try_catch. rewrite Hkey. reflexivity.
    + destruct (postMailerLiteCampaign upstream campaigns env clock
                  (Some (createDiscountsAndCampaign_campaign_body browser
                           campaignName pricingStrategy selected)) w)
        as [outcome w'] eqn:Hrun.
      destruct (campaign_run upstream campaigns env clock _ w w' outcome Hrun)
        as [[[status payload] ->] Hcases].
      exists (mkCampaignReply status payload). split; [reflexivity|].
      specialize (Hcases status payload eq_refl). cbn [campaign_status].
      destruct payload as [message|error|addedCount groupId campaignId].
      * destruct Hcases as [(_ & _ & [Hnokey|(posted & [= <-] & [Hnone|Hempty])])
                           |[-> _]]; [congruence|discriminate Hnone| |lia].
        cbn in Hempty. injection Hempty as Hempty.
        apply map_eq_nil in Hempty. congruence.
      * lia.
      * destruct Hcases as (p & s & g & l & _ & _ & _ & _ & _ & _ & ->). lia.
Qed.

Lemma newer_dashboard_campaign_body_is_refused_witness :
  postMailerLiteCampaign demo_upstream demo_campaigns demo_env sample_clock
    (Some (sendMailerLiteCampaign_campaign_body "" "reactivation"
             campaign_selection)) fresh_world
  = (Ok (mkCampaignReply 400
           (CampaignError "No selected recommendations provided.")), fresh_world)
  /\ exists reply,
      fst (postMailerLiteCampaign demo_upstream demo_campaigns demo_env sample_clock
             (Some (createDiscountsAndCampaign_campaign_body sample_clock ""
                      "reactivation" campaign_selection)) fresh_world)
      = Ok reply
      /\ campaign_status reply <> 400.
Proof.
  apply (proj2 (newer_dashboard_campaign_body_is_refused nat demo_upstream
                  demo_campaigns demo_env sample_clock sample_clock ""
                  "reactivation" campaign_selection fresh_world)).
  - reflexivity.
  - discriminate.
Defined.

(* ================================================================== *)
(** * Routes *)
(* ================================================================== *)

(** Property X21.  The second handler registered for
    [POST /api/glp1/plan], the one that answers [{ planHtml }], is never
    reached: whatever the path matching of the router, every request it
    would accept is answered by a handler registered before it. *)
Theorem second_glp1_handler_is_never_reached :
  forall (matches : string -> string -> bool) (method : Method) (path : string),
    dispatch matches method path <> Some Glp1PlanHtml
    /\ (method = POST ->
        matches "/api/glp1/plan" path = true ->
        exists handler,
          dispatch matches method path = Some handler
          /\ In handler [AiAnalyze; Glp1Plan]).
Proof.
  intros matches method path. unfold dispatch, routes. cbn [find fst snd].
  split.
  - destruct method; cbn [method_eqb andb];
      repeat match goal with
             | |- context [matches ?p path] => destruct (matches p path)
             end; discriminate.
  - intros -> Hplan. cbn [method_eqb andb]. rewrite Hplan.
    destruct (matches "/api/ai/analyze" path); eexists; split;
      try reflexivity; cbn; tauto.
Qed.

Lemma second_glp1_handler_is_never_reached_witness :
  dispatch String.eqb POST "/api/glp1/plan" <> Some Glp1PlanHtml
  /\ exists handler,
      dispatch String.eqb POST "/api/glp1/plan" = Some handler
      /\ In handler [AiAnalyze; Glp1Plan].
Proof.
  split.
  - apply (proj1 (second_glp1_handler_is_never_reached String.eqb POST
                    "/api/glp1/plan")).
  - apply (proj2 (second_glp1_handler_is_never_reached String.eqb POST
                    "/api/glp1/plan")); reflexivity.
Defined.

(* ================================================================== *)
(** * The dashboard *)
(* ================================================================== *)

Lemma retention_excludes_reactivation (c : DashboardCustomer.t) :
  retention_filter c = true -> reactivation_filter c = false.
Proof.
  unfold retention_filter, reactivation_filter, le_number, Js.gt_number.
  intros H. apply andb_true_iff in H. destruct H as [H _].
  apply andb_true_iff in H. destruct H as [_ H].
  now apply le_not_gt.
Qed.

(** Property X22.  The segments the dashboard selects for the retention
    and the reactivation strategies never overlap: for customers with
    pairwise different ids, no id is selected by both. *)
Theorem retention_and_reactivation_never_overlap :
  forall (customers : list DashboardCustomer.t)
         (allCustomers : option (list DashboardCustomer.t)) (id : Js.value),
    NoDup (map DashboardCustomer.id
             (match allCustomers with Some l => l | None => customers end)) ->
    In id (autoSelectForStrategy customers (Js.Str "retention") allCustomers) ->
    ~ In id (autoSelectForStrategy customers (Js.Str "reactivation") allCustomers).
Proof.
  intros customers allCustomers id. unfold autoSelectForStrategy.
  generalize (match allCustomers with Some l => l | None => customers end) as list.
  intros list Hnd Hret Hrea.
  destruct list as [|c0 rest]; [destruct Hret|].
  cbn [strict_equal String.eqb Ascii.eqb Bool.eqb] in Hret, Hrea.
  revert Hnd Hret Hrea. generalize (c0 :: rest) as l. clear c0 rest.
  intros l Hnd Hret Hrea.
  apply in_map_iff in Hret. destruct Hret as (c1 & Hid1 & Hin1).
  apply in_map_iff in Hrea. destruct Hrea as (c2 & Hid2 & Hin2).
  apply filter_In in Hin1. destruct Hin1 as [Hin1 Hf1].
  apply filter_In in Hin2. destruct Hin2 as [Hin2 Hf2].
  assert (c1 = c2).
  { clear Hf1 Hf2. rewrite <- Hid2 in Hid1. clear Hid2.
    induction l as [|c l IH]; [destruct Hin1|].
    cbn [map] in Hnd. inversion Hnd as [|? ? Hnot Hnd']; subst.
    destruct Hin1 as [->|Hin1], Hin2 as [->|Hin2].
    - reflexivity.
    - exfalso. apply Hnot. rewrite Hid1. now apply in_map.
    - exfalso. apply Hnot. rewrite <- Hid1. now apply in_map.
    - now apply IH. }
  subst c2. rewrite (retention_excludes_reactivation c1 Hf1) in Hf2.
  discriminate Hf2.
Qed.

Lemma retention_and_reactivation_never_overlap_witness :
  In (Js.Num 1)
     (autoSelectForStrategy [] (Js.Str "retention")
        (Some [loyal_customer; cold_customer]))
  /\ ~ In (Js.Num 1)
        (autoSelectForStrategy [] (Js.Str "reactivation")
           (Some [loyal_customer; cold_customer])).
Proof.
  assert (Hin : In (Js.Num 1)
                  (autoSelectForStrategy [] (Js.Str "retention")
                     (Some [loyal_customer; cold_customer])))
    by (vm_compute; tauto).
  split; [exact Hin|].
  apply (retention_and_reactivation_never_overlap []
           (Some [loyal_customer; cold_customer]) (Js.Num 1)).
  - repeat constructor; cbn; intuition discriminate.
  - exact Hin.
Defined.

(** Property X23.  A customer whose timestamp [Date.parse] rejects
    reaches the dashboard with [daysSinceLastOrder] [null], because
    [JSON.stringify] writes NaN as [null], and the dashboard's comparisons
    read [null] as 0 days: the customer is never selected for
    reactivation, and is selected for retention exactly when it has two or
    more orders. *)
Theorem unparseable_timestamp_reads_as_zero_days :
  forall (clock : Clock) (customer : RawCustomer.t) (s : string),
    last_activity customer = Js.Str s ->
    s <> "" ->
    is_nan (Date_parse clock s) = true ->
    DashboardCustomer.daysSinceLastOrder (received (customerMetrics clock customer))
    = Js.Null
    /\ reactivation_filter (received (customerMetrics clock customer)) = false
    /\ retention_filter (received (customerMetrics clock customer))
       = ge_number
           (DashboardCustomer.totalOrders (received (customerMetrics clock customer)))
           2.
Proof.
  intros clock customer s Hs Hne Hnan.
  assert (Hdays : DashboardCustomer.daysSinceLastOrder
                    (received (customerMetrics clock customer)) = Js.Null).
  { cbn [received DashboardCustomer.daysSinceLastOrder customerMetrics
         Metrics.daysSinceLastOrder].
    fold (last_activity customer). rewrite Hs.
    replace (Js.truthy (Js.Str s)) with true
      by (destruct s; [congruence|reflexivity]).
    cbn [Date_new]. rewrite (is_nan_nan _ Hnan).
    change (TimeClip nan) with nan.
    rewrite sub_nan, nan_div, Math_floor_nan. reflexivity. }
  split; [exact Hdays|].
  unfold reactivation_filter, retention_filter. rewrite Hdays.
  split; [reflexivity|].
  change (le_number Js.Null 60) with true.
  change (ge_number Js.Null 0) with true.
  now rewrite !andb_true_r.
Qed.

Lemma unparseable_timestamp_reads_as_zero_days_witness :
  DashboardCustomer.daysSinceLastOrder
    (received (customerMetrics sample_clock undated_customer))
  = Js.Null
  /\ reactivation_filter (received (customerMetrics sample_clock undated_customer))
     = false
  /\ retention_filter (received (customerMetrics sample_clock undated_customer))
     = ge_number
         (DashboardCustomer.totalOrders
            (received (customerMetrics sample_clock undated_customer)))
         2.
Proof.
  apply (unparseable_timestamp_reads_as_zero_days sample_clock undated_customer
           "yesterday").
  - reflexivity.
  - discriminate.
  - reflexivity.
Defined.

(** ** Toggling a selection *)

Lemma SFcompare_Eq_eq (x y : spec_float) :
  SFcompare x y = Some Eq ->
  x <> S754_nan /\ y <> S754_nan
  /\ (forall z, SFcompare x z = SFcompare y z).
Proof.
  destruct x as [sx|sx| |sx mx ex], y as [sy|sy| |sy my ey];
    try (destruct sx); try (destruct sy); cbn [SFcompare];
    try discriminate;
    try (intros _; split; [discriminate|split; [discriminate|]];
         intros z; destruct z as [sz|sz| |sz mz ez]; try destruct sz; reflexivity).
  - destruct (Z.compare_spec ex ey) as [->|H|H]; try discriminate.
    intros Hm.
    assert (mx = my).
    { destruct (Pos.compare_cont Eq mx my) eqn:E; try discriminate.
      now apply Pos.compare_eq. }
    subst my. split; [discriminate|split; [discriminate|reflexivity]].
  - destruct (Z.compare_spec ex ey) as [->|H|H]; try discriminate.
    intros Hm.
    assert (mx = my).
    { destruct (Pos.compare_cont Eq mx my) eqn:E; try discriminate.
      now apply Pos.compare_eq. }
    subst my. split; [discriminate|split; [discriminate|reflexivity]].
Qed.

Lemma float_eqb_sym (x y : float) : (x =? y)%float = (y =? x)%float.
Proof.
  rewrite !eqb_spec. unfold SFeqb. rewrite (SFcompare_antisym (Prim2SF x)).
  now destruct (SFcompare (Prim2SF x) (Prim2SF y)) as [[]|].
Qed.

Lemma float_eqb_trans (x y z : float) :
  (x =? y)%float = true -> (x =? z)%float = (y =? z)%float.
Proof.
  rewrite !eqb_spec. unfold SFeqb. intros H.
  destruct (SFcompare (Prim2SF x) (Prim2SF y)) as [[]|] eqn:E; try discriminate.
  destruct (SFcompare_Eq_eq _ _ E) as (_ & _ & Hz). now rewrite Hz.
Qed.

Lemma float_eqb_not_nan (x y : float) :
  (x =? y)%float = true -> is_nan x = false /\ is_nan y = false.
Proof.
  intros H. unfold is_nan.
  pose proof (float_eqb_trans x y x H) as Hx.
  pose proof (float_eqb_trans x y y H) as Hy.
  rewrite (float_eqb_sym y x), H in Hx. rewrite H in Hy.
  rewrite Hx, <- Hy. now split.
Qed.

Lemma same_value_zero_strict (a b : Js.value) :
  strict_equal b b = true -> same_value_zero a b = strict_equal a b.
Proof.
  destruct a as [| |x|x|x], b as [| |y|y|y]; try reflexivity.
  cbn [strict_equal same_value_zero]. intros Hy.
  destruct (float_eqb_not_nan y y Hy) as [-> _].
  now rewrite andb_false_r.
Qed.

Lemma strict_equal_sym (a b : Js.value) : strict_equal a b = strict_equal b a.
Proof.
  destruct a as [| |x|x|x], b as [| |y|y|y]; try reflexivity;
    cbn [strict_equal].
  - now destruct x, y.
  - apply float_eqb_sym.
  - apply String.eqb_sym.
Qed.

Lemma strict_equal_trans (a b c : Js.value) :
  strict_equal a b = true -> strict_equal a c = strict_equal b c.
Proof.
  destruct a as [| |x|x|x], b as [| |y|y|y]; try discriminate;
    try reflexivity; cbn [strict_equal]; intros H.
  - apply Bool.eqb_prop in H. now subst y.
  - destruct c; try reflexivity. now apply float_eqb_trans.
  - apply String.eqb_eq in H. now subst y.
Qed.

Lemma same_value_zero_kept (x id other : Js.value) :
  strict_equal x id = true ->
  strict_equal other id = false ->
  same_value_zero x other = false.
Proof.
  intros Hx Hother.
  assert (Hstrict : strict_equal x other = false).
  { rewrite (strict_equal_trans x id other Hx), strict_equal_sym. exact Hother. }
  destruct x as [| |a|a|a], other as [| |b|b|b]; try exact Hstrict.
  cbn [same_value_zero strict_equal] in *. rewrite Hstrict, orb_false_r.
  destruct id as [| |c|c|c]; try discriminate Hx.
  cbn [strict_equal] in Hx.
  destruct (float_eqb_not_nan a c Hx) as [-> _]. reflexivity.
Qed.

(** Property X24.  Toggling a customer id that is not NaN flips its
    membership in the selection and leaves every other id as it was:
    after [toggleCustomerSelection(id)] the selection includes [id] exactly
    when it did not before, and includes any id different from it exactly
    when it did before. *)
Theorem toggling_flips_one_membership :
  forall (prev : list Js.value) (customerId : Js.value),
    strict_equal customerId customerId = true ->
    includes (toggleCustomerSelection customerId prev) customerId
    = negb (includes prev customerId)
    /\ forall other,
        strict_equal other customerId = false ->
        includes (toggleCustomerSelection customerId prev) other
        = includes prev other.
Proof.
  intros prev customerId Hid. unfold toggleCustomerSelection.
  destruct (includes prev customerId) eqn:Hincl; cbn [negb]; split.
  - clear Hincl. unfold includes.
    induction prev as [|x rest IH]; [reflexivity|].
    cbn [filter]. destruct (strict_equal x customerId) eqn:Hx; cbn [negb].
    + exact IH.
    + cbn [existsb]. rewrite IH, (same_value_zero_strict _ _ Hid), Hx. reflexivity.
  - intros other Hother. clear Hincl. unfold includes.
    induction prev as [|x rest IH]; [reflexivity|].
    cbn [filter existsb]. destruct (strict_equal x customerId) eqn:Hx; cbn [negb].
    + rewrite IH, (same_value_zero_kept x customerId other Hx Hother). reflexivity.
    + cbn [existsb]. now rewrite IH.
  - unfold includes. rewrite existsb_app. unfold includes in Hincl.
    rewrite Hincl. cbn [existsb orb].
    rewrite (same_value_zero_strict _ _ Hid), Hid. reflexivity.
  - intros other Hother. unfold includes. rewrite existsb_app. cbn [existsb].
    assert (Hsvz : same_value_zero customerId other = false).
    { apply (same_value_zero_kept customerId customerId other Hid Hother). }
    rewrite Hsvz. now rewrite !orb_false_r.
Qed.

Lemma toggling_flips_one_membership_witness :
  includes (toggleCustomerSelection (Js.Num 2) [Js.Num 1; Js.Num 2; Js.Num 3])
    (Js.Num 2)
  = negb (includes [Js.Num 1; Js.Num 2; Js.Num 3] (Js.Num 2))
  /\ forall other,
      strict_equal other (Js.Num 2) = false ->
      includes (toggleCustomerSelection (Js.Num 2) [Js.Num 1; Js.Num 2; Js.Num 3])
        other
      = includes [Js.Num 1; Js.Num 2; Js.Num 3] other.
Proof.
  apply (toggling_flips_one_membership [Js.Num 1; Js.Num 2; Js.Num 3] (Js.Num 2)).
  reflexivity.
Defined.
